(** * gemini-image-node: response masking, path access, artifact writing and
      the two response normalizers

    A shallow embedding of [src/utils.js], [src/imagen.js], [src/gemini.js]
    and [src/proxy.js].  JavaScript values are the values [JSON.parse] can
    produce, plus [undefined]; every function that can throw returns an
    [outcome]; the file system is an explicit state that survives a throw, so
    that [try]/[catch] sees the writes made before the exception. *)

From Stdlib Require Import List String Ascii Bool Arith ZArith QArith Qround Lia.
From Stdlib Require Import Decimal DecimalString DecimalNat.
Import ListNotations.

Close Scope Q_scope.
Open Scope string_scope.
Open Scope list_scope.

Set Implicit Arguments.
Set Warnings "-register-all".

(* ================================================================== *)
(** ** JavaScript values *)

(** A value as the code sees it after [response.json()]: a JSON document,
    or [undefined].  An object is the list of its own properties; reading
    takes the first entry of a key and writing replaces that entry, so any
    later entry of the same key is inert.  Strings are sequences of code
    units, one [ascii] each; the messages of the sources that are not
    ASCII are kept as the bytes of their UTF-8 text, and no length is ever
    taken of them.  Numbers are rationals, so every number of a document
    is finite: a literal beyond the range of a double, such as [1e400],
    which [JSON.parse] reads as [Infinity], is not covered. *)
Inductive value : Type :=
| JUndef
| JNull
| JBool (b : bool)
| JNum (q : Q)
| JStr (s : string)
| JArr (xs : list value)
| JObj (fields : list (string * value)).

Definition numOfNat (n : nat) : value := JNum (Z.of_nat n # 1).

(** Thrown objects: the engine's [TypeError]s and the errors of the
    transport ([error.code], [error.message]). *)
Inductive exn : Type :=
| TypeError (message : string)
| SystemError (code : option string) (message : string).

Definition exn_message (e : exn) : string :=
  match e with
  | TypeError m => m
  | SystemError _ m => m
  end.

Definition exn_code (e : exn) : option string :=
  match e with
  | TypeError _ => None
  | SystemError c _ => c
  end.

(** What running a piece of code gives: a value, a thrown exception, or
    [Unmodelled] where the source's behaviour depends on a coercion or a
    host object this embedding does not describe (a named property written
    on an array, [Buffer.from] of an array-like, [>] on a string operand). *)
Inductive outcome (A : Type) : Type :=
| Ok (a : A)
| Throw (e : exn)
| Unmodelled.

Arguments Ok {A} a.
Arguments Throw {A} e.
Arguments Unmodelled {A}.

Definition obind {A B} (m : outcome A) (k : A -> outcome B) : outcome B :=
  match m with
  | Ok a => k a
  | Throw e => Throw e
  | Unmodelled => Unmodelled
  end.

Declare Scope js_scope.
Delimit Scope js_scope with js.
Notation "'let?' x ':=' m 'in' k" := (obind m (fun x => k))
  (at level 10, x name, m at level 100, k at level 200) : js_scope.
Open Scope js_scope.

(* ------------------------------------------------------------------ *)
(** *** Strings *)

(** [`${n}`] for a non-negative integer [n]. *)
Definition natToString (n : nat) : string :=
  NilEmpty.string_of_uint (Nat.to_uint n).

(** [`${t}`] for a time stamp [t] of [Date.now()]. *)
Definition timestampToString (t : N) : string :=
  NilEmpty.string_of_uint (N.to_uint t).

Definition isDigit (c : ascii) : bool :=
  let n := nat_of_ascii c in ((48 <=? n) && (n <=? 57))%nat.

(** An array index in the sense of ECMAScript: a property key that is the
    decimal rendering of the integer it denotes. *)
Definition parseIndex (k : string) : option nat :=
  match NilEmpty.uint_of_string k with
  | Some d =>
      let n := Nat.of_uint d in
      if String.eqb (natToString n) k then Some n else None
  | None => None
  end.

Fixpoint isPrefix (p s : string) : bool :=
  match p, s with
  | EmptyString, _ => true
  | String a p', String b s' => Ascii.eqb a b && isPrefix p' s'
  | String _ _, EmptyString => false
  end.

(** [s.includes(needle)] on a string [s]. *)
Fixpoint includes (s needle : string) : bool :=
  isPrefix needle s ||
  match s with
  | EmptyString => false
  | String _ s' => includes s' needle
  end.

(** [s] holds no character [c]. *)
Fixpoint lacks (c : ascii) (s : string) : bool :=
  match s with
  | EmptyString => true
  | String a s' => negb (Ascii.eqb a c) && lacks c s'
  end.

(** The longest prefix of decimal digits, and what follows it. *)
Fixpoint takeDigits (s : string) : string :=
  match s with
  | String c s' => if isDigit c then String c (takeDigits s') else EmptyString
  | EmptyString => EmptyString
  end.

Fixpoint dropDigits (s : string) : string :=
  match s with
  | String c s' => if isDigit c then dropDigits s' else s
  | EmptyString => EmptyString
  end.

Fixpoint nthChar (i : nat) (s : string) : option ascii :=
  match s, i with
  | EmptyString, _ => None
  | String c _, O => Some c
  | String _ s', S j => nthChar j s'
  end.

(* ------------------------------------------------------------------ *)
(** *** Property access *)

Fixpoint lookup (k : string) (fs : list (string * value)) : option value :=
  match fs with
  | [] => None
  | (k', v) :: fs' => if String.eqb k k' then Some v else lookup k fs'
  end.

Fixpoint assign (k : string) (v : value) (fs : list (string * value))
  : list (string * value) :=
  match fs with
  | [] => [(k, v)]
  | (k', v') :: fs' =>
      if String.eqb k k' then (k, v) :: fs' else (k', v') :: assign k v fs'
  end.

(** [xs[i] = v] on an array: in range it replaces, past the end it extends
    and the skipped slots read as [undefined]. *)
Fixpoint writeAt (i : nat) (v : value) (xs : list value) : list value :=
  match i, xs with
  | O, [] => [v]
  | O, _ :: xs' => v :: xs'
  | S j, [] => JUndef :: writeAt j v []
  | S j, x :: xs' => x :: writeAt j v xs'
  end.

Definition truthy (v : value) : bool :=
  match v with
  | JUndef | JNull => false
  | JBool b => b
  | JNum q => negb (Qeq_bool q 0%Q)
  | JStr s => negb (String.eqb s "")
  | JArr _ | JObj _ => true
  end.

Definition isArray (v : value) : bool :=
  match v with JArr _ => true | _ => false end.

(** [v[k]] for a string key [k] that names no member of a built-in
    prototype: own properties only.  Every key the code reads by name is
    such a key, and so is every segment of the paths the masker builds; a
    key like [__proto__] or [constructor], which the engine resolves along
    the prototype chain, is not covered. *)
Definition getProp (v : value) (k : string) : outcome value :=
  match v with
  | JUndef =>
      Throw (TypeError ("Cannot read properties of undefined (reading '" ++ k ++ "')"))
  | JNull =>
      Throw (TypeError ("Cannot read properties of null (reading '" ++ k ++ "')"))
  | JBool _ | JNum _ => Ok JUndef
  | JStr s =>
      if String.eqb k "length" then Ok (numOfNat (String.length s))
      else match parseIndex k with
           | Some i => match nthChar i s with
                       | Some c => Ok (JStr (String c EmptyString))
                       | None => Ok JUndef
                       end
           | None => Ok JUndef
           end
  | JArr xs =>
      if String.eqb k "length" then Ok (numOfNat (List.length xs))
      else match parseIndex k with
           | Some i => Ok (nth i xs JUndef)
           | None => Ok JUndef
           end
  | JObj fs =>
      match lookup k fs with
      | Some x => Ok x
      | None => Ok JUndef
      end
  end.

(** [v[k] = x] in strict mode (the sources are ES modules), giving the
    container after the assignment, for a key [k] that names no member of a
    built-in prototype: the assignment makes or replaces an own
    property. *)
Definition setProp (v : value) (k : string) (x : value) : outcome value :=
  match v with
  | JUndef =>
      Throw (TypeError ("Cannot set properties of undefined (setting '" ++ k ++ "')"))
  | JNull =>
      Throw (TypeError ("Cannot set properties of null (setting '" ++ k ++ "')"))
  | JBool _ | JNum _ | JStr _ =>
      Throw (TypeError ("Cannot create property '" ++ k ++ "' on a primitive value"))
  | JArr xs =>
      match parseIndex k with
      | Some i => Ok (JArr (writeAt i x xs))
      | None => Unmodelled
      end
  | JObj fs => Ok (JObj (assign k x fs))
  end.

(** The container [v] once the object it holds under [k] has been mutated
    into [c]: the functional image of an in-place update below [v[k]].
    Primitives hold no mutable child. *)
Definition putChild (v : value) (k : string) (c : value) : value :=
  match v with
  | JArr xs =>
      match parseIndex k with
      | Some i => if (i <? List.length xs)%nat then JArr (writeAt i c xs) else v
      | None => v
      end
  | JObj fs =>
      match lookup k fs with
      | Some _ => JObj (assign k c fs)
      | None => v
      end
  | _ => v
  end.

(* ================================================================== *)
(** ** Path-value accessor ([src/utils.js], [getValueAtPath] and
       [setValueAtPath]) *)

(** The match of [/\[(\d+)\]/] anchored at the head of [s]: the digits
    captured by the group. *)
Definition bracketIndex (s : string) : option string :=
  match s with
  | String "["%char rest =>
      match takeDigits rest, dropDigits rest with
      | String d ds, String "]"%char _ => Some (String d ds)
      | _, _ => None
      end
  | _ => None
  end.

(** [s.replace(/\[(\d+)\]/g, '.$1')]; [skip] counts the characters of the
    current match still to be passed over. *)
Fixpoint replaceBrackets (skip : nat) (s : string) : string :=
  match s with
  | EmptyString => EmptyString
  | String c s' =>
      match skip with
      | S k => replaceBrackets k s'
      | O =>
          match bracketIndex s with
          | Some ds => "." ++ ds ++ replaceBrackets (S (String.length ds)) s'
          | None => String c (replaceBrackets 0%nat s')
          end
      end
  end.

(** [s.split(sep)] for a one-character separator: never empty, so it is
    given as its first piece and the remaining ones. *)
Fixpoint splitOn (sep : ascii) (s : string) : string * list string :=
  match s with
  | EmptyString => (EmptyString, [])
  | String c s' =>
      let (h, t) := splitOn sep s' in
      if Ascii.eqb c sep then (EmptyString, h :: t) else (String c h, t)
  end.

Definition splitDot (s : string) : string * list string := splitOn "." s.

Definition pathSegments (path : string) : string * list string :=
  splitDot (replaceBrackets 0%nat path).

(** The loop of [getValueAtPath] from segment [i] on. *)
Fixpoint getSegments (current : value) (segments : list string) : outcome value :=
  match segments with
  | [] => Ok current
  | k :: rest =>
      match current with
      | JUndef => Ok JUndef
      | _ => let? next := getProp current k in getSegments next rest
      end
  end.

Definition getValueAtPath (obj : value) (path : string) : outcome value :=
  let (k, rest) := pathSegments path in getSegments obj (k :: rest).

(** The loop of [setValueAtPath] with [k] the segment at hand and [rest]
    those after it; the result is [current] after the call. *)
Fixpoint setSegments (current : value) (k : string) (rest : list string)
    (x : value) : outcome value :=
  match rest with
  | [] => setProp current k x
  | k' :: rest' =>
      let? next := getProp current k in
      match next with
      | JUndef => Ok current
      | _ => let? next' := setSegments next k' rest' x in
             Ok (putChild current k next')
      end
  end.

Definition setValueAtPath (obj : value) (path : string) (x : value)
  : outcome value :=
  let (k, rest) := pathSegments path in setSegments obj k rest x.

(* ================================================================== *)
(** ** Binary-content masker ([src/utils.js], [maskBase64Content]) *)

(** [JSON.parse(JSON.stringify(v))] for an object or array [v]: a property
    holding [undefined] is dropped, an array slot holding it becomes
    [null].  (It also turns a non-finite number into [null]; no [value]
    holds one.) *)
Fixpoint jsonClone (v : value) : value :=
  match v with
  | JArr xs =>
      JArr (map (fun x => match x with JUndef => JNull | _ => jsonClone x end) xs)
  | JObj fs =>
      JObj ((fix fields (l : list (string * value)) : list (string * value) :=
               match l with
               | [] => []
               | (k, JUndef) :: l' => fields l'
               | (k, x) :: l' => (k, jsonClone x) :: fields l'
               end) fs)
  | _ => v
  end.

Definition imagenPath (index : nat) : string :=
  "predictions[" ++ natToString index ++ "].bytesBase64Encoded".

Definition geminiPath (i j : nat) : string :=
  "candidates[" ++ natToString i ++ "].content.parts[" ++ natToString j
  ++ "].inlineData.data".

Definition findImagenBase64Paths (obj : value) : outcome (list string) :=
  let? predictions := getProp obj "predictions" in
  if truthy predictions && isArray predictions then
    match predictions with
    | JArr ps => Ok (map imagenPath (seq 0 (List.length ps)))
    | _ => Ok []
    end
  else Ok [].

(** The body of the outer [forEach] of [findGeminiBase64Paths] for the
    candidate at index [i]. *)
Definition geminiCandidatePaths (i : nat) (candidate : value)
  : outcome (list string) :=
  let? content := getProp candidate "content" in
  if truthy content then
    let? parts := getProp content "parts" in
    if truthy parts && isArray parts then
      match parts with
      | JArr ps => Ok (map (geminiPath i) (seq 0 (List.length ps)))
      | _ => Ok []
      end
    else Ok []
  else Ok [].

Fixpoint geminiPathsFrom (i : nat) (candidates : list value)
  : outcome (list string) :=
  match candidates with
  | [] => Ok []
  | c :: cs =>
      let? here := geminiCandidatePaths i c in
      let? later := geminiPathsFrom (S i) cs in
      Ok (here ++ later)
  end.

Definition findGeminiBase64Paths (obj : value) : outcome (list string) :=
  let? candidates := getProp obj "candidates" in
  if truthy candidates && isArray candidates then
    match candidates with
    | JArr cs => geminiPathsFrom 0 cs
    | _ => Ok []
    end
  else Ok [].

(** [Math.floor(length / 4 * 3 / 1024)]: the divisions and the product are
    exact in binary floating point for every length a string can have, so
    the expression is evaluated over the rationals. *)
Definition approxKB (len : nat) : Z :=
  Qfloor (((Z.of_nat len # 1) / 4) * 3 / 1024)%Q.

Definition maskedValue (len : nat) : string :=
  "[BASE64_DATA_MASKED: ~" ++ natToString (Z.to_nat (approxKB len)) ++ " KB]".

(** The callback of [paths.forEach] in [maskBase64Content]. *)
Definition maskAtPath (masked : value) (path : string) : outcome value :=
  let? base64Value := getValueAtPath masked path in
  match base64Value with
  | JStr s =>
      if (100 <? String.length s)%nat
      then setValueAtPath masked path (JStr (maskedValue (String.length s)))
      else Ok masked
  | _ => Ok masked
  end.

Fixpoint maskPaths (masked : value) (paths : list string) : outcome value :=
  match paths with
  | [] => Ok masked
  | p :: ps => let? masked' := maskAtPath masked p in maskPaths masked' ps
  end.

(** [typeof v === 'object'] *)
Definition typeofObject (v : value) : bool :=
  match v with JNull | JArr _ | JObj _ => true | _ => false end.

(** The candidate paths [maskBase64Content] collects for the copy
    [masked]: Imagen's when [predictions] is an array, otherwise Gemini's
    when [candidates] is one. *)
Definition candidatePaths (masked : value) : outcome (list string) :=
  let? predictions := getProp masked "predictions" in
  if truthy predictions && isArray predictions then
    findImagenBase64Paths masked
  else
    let? candidates := getProp masked "candidates" in
    if truthy candidates && isArray candidates then
      findGeminiBase64Paths masked
    else Ok [].

Definition maskBase64Content (obj : value) : outcome value :=
  if negb (truthy obj) || negb (typeofObject obj) then Ok obj
  else
    let masked := jsonClone obj in
    let? paths := candidatePaths masked in
    maskPaths masked paths.

Definition longString : string :=
  Eval vm_compute in
    (fix rep (n : nat) : string :=
       match n with O => EmptyString | S k => String "A"%char (rep k) end) 101%nat.

(** A JSON document: no [undefined] anywhere in it.  This is what
    [response.json()] yields for a body whose numbers are in the range
    of a double. *)
Fixpoint isJson (v : value) : bool :=
  match v with
  | JUndef => false
  | JArr xs => forallb isJson xs
  | JObj fs => forallb (fun kv => isJson (snd kv)) fs
  | _ => true
  end.

(** Sample documents. *)
Definition imagenSample : value :=
  JObj [("predictions",
         JArr [JObj [("bytesBase64Encoded", JStr longString);
                     ("mimeType", JStr "image/png")];
               JObj [("bytesBase64Encoded", JStr "QQ==")]])].

Definition imagenSampleMasked : value :=
  JObj [("predictions",
         JArr [JObj [("bytesBase64Encoded", JStr "[BASE64_DATA_MASKED: ~0 KB]");
                     ("mimeType", JStr "image/png")];
               JObj [("bytesBase64Encoded", JStr "QQ==")]])].

(** A document that carries both a [predictions] and a [candidates]
    array. *)
Definition bothArrays : value :=
  JObj [("predictions", JArr [JObj [("bytesBase64Encoded", JStr longString)]]);
        ("candidates",
         JArr [JObj [("content",
                      JObj [("parts",
                             JArr [JObj [("inlineData",
                                          JObj [("mimeType", JStr "image/png");
                                                ("data", JStr longString)])]])])]])].

(* ================================================================== *)
(** ** Base64 as Node.js's [Buffer] reads and writes it *)

(** Six bits, most significant first. *)
Inductive sextet : Type :=
| Sextet (b5 b4 b3 b2 b1 b0 : bool).

Definition sextetIndex (x : sextet) : nat :=
  let 'Sextet b5 b4 b3 b2 b1 b0 := x in
  (32 * Nat.b2n b5 + 16 * Nat.b2n b4 + 8 * Nat.b2n b3
   + 4 * Nat.b2n b2 + 2 * Nat.b2n b1 + Nat.b2n b0)%nat.

Definition base64Alphabet : string :=
  "ABCDEFGHIJKLMNOPQRSTUVWXYZabcdefghijklmnopqrstuvwxyz0123456789+/".

Definition charOfSextet (x : sextet) : ascii :=
  match nthChar (sextetIndex x) base64Alphabet with
  | Some c => c
  | None => "="%char
  end.

Definition allSextets : list sextet :=
  let bit := [false; true] in
  flat_map (fun b5 => flat_map (fun b4 => flat_map (fun b3 =>
  flat_map (fun b2 => flat_map (fun b1 => map (fun b0 =>
    Sextet b5 b4 b3 b2 b1 b0) bit) bit) bit) bit) bit) bit.

(** The decoder also takes the URL-safe ['-'] and ['_']. *)
Definition sextetOfChar (c : ascii) : option sextet :=
  if Ascii.eqb c "-" then Some (Sextet true true true true true false)
  else if Ascii.eqb c "_" then Some (Sextet true true true true true true)
  else find (fun x => Ascii.eqb (charOfSextet x) c) allSextets.

(** The bytes of one group; an [ascii] takes its bits least significant
    first. *)
Definition byte1 (x y : sextet) : ascii :=
  let 'Sextet a5 a4 a3 a2 a1 a0 := x in
  let 'Sextet b5 b4 _ _ _ _ := y in
  Ascii b4 b5 a0 a1 a2 a3 a4 a5.

Definition byte2 (y z : sextet) : ascii :=
  let 'Sextet _ _ b3 b2 b1 b0 := y in
  let 'Sextet c5 c4 c3 c2 _ _ := z in
  Ascii c2 c3 c4 c5 b0 b1 b2 b3.

Definition byte3 (z w : sextet) : ascii :=
  let 'Sextet _ _ _ _ c1 c0 := z in
  let 'Sextet d5 d4 d3 d2 d1 d0 := w in
  Ascii d0 d1 d2 d3 d4 d5 c0 c1.

(** The sextets of the legal characters, up to the first ['=']; any other
    character is passed over. *)
Fixpoint sextetsOf (s : string) : list sextet :=
  match s with
  | EmptyString => []
  | String c s' =>
      if Ascii.eqb c "=" then []
      else match sextetOfChar c with
           | Some x => x :: sextetsOf s'
           | None => sextetsOf s'
           end
  end.

Fixpoint bytesOfSextets (l : list sextet) : list ascii :=
  match l with
  | x :: y :: z :: w :: rest =>
      byte1 x y :: byte2 y z :: byte3 z w :: bytesOfSextets rest
  | [x; y; z] => [byte1 x y; byte2 y z]
  | [x; y] => [byte1 x y]
  | _ => []
  end.

(** [Buffer.from(s, 'base64')] *)
Definition base64Decode (s : string) : list ascii :=
  bytesOfSextets (sextetsOf s).

Definition zero6 : sextet := Sextet false false false false false false.

Definition sextet1 (a : ascii) : sextet :=
  let 'Ascii _ _ a2 a3 a4 a5 a6 a7 := a in Sextet a7 a6 a5 a4 a3 a2.

Definition sextet2 (a b : ascii) : sextet :=
  let 'Ascii a0 a1 _ _ _ _ _ _ := a in
  let 'Ascii _ _ _ _ b4 b5 b6 b7 := b in
  Sextet a1 a0 b7 b6 b5 b4.

Definition sextet3 (b c : ascii) : sextet :=
  let 'Ascii b0 b1 b2 b3 _ _ _ _ := b in
  let 'Ascii _ _ _ _ _ _ c6 c7 := c in
  Sextet b3 b2 b1 b0 c7 c6.

Definition sextet4 (c : ascii) : sextet :=
  let 'Ascii c0 c1 c2 c3 c4 c5 _ _ := c in Sextet c5 c4 c3 c2 c1 c0.

Definition zero8 : ascii := Ascii.zero.

(** [buffer.toString('base64')] *)
Fixpoint base64Encode (bytes : list ascii) : string :=
  match bytes with
  | a :: b :: c :: rest =>
      String (charOfSextet (sextet1 a)) (String (charOfSextet (sextet2 a b))
        (String (charOfSextet (sextet3 b c)) (String (charOfSextet (sextet4 c))
          (base64Encode rest))))
  | [a; b] =>
      String (charOfSextet (sextet1 a)) (String (charOfSextet (sextet2 a b))
        (String (charOfSextet (sextet3 b zero8)) "="))
  | [a] =>
      String (charOfSextet (sextet1 a)) (String (charOfSextet (sextet2 a zero8)) "==")
  | [] => EmptyString
  end.

(* ================================================================== *)
(** ** File system and the effect monad *)

Inductive content : Type :=
| Bytes (bytes : list ascii)
| Text (text : string).

(** The directories known to exist and the files, latest write first.
    Creating a directory and writing a file always succeed: the failures
    of the device ([EACCES], [ENOSPC]) and of a name that is taken by the
    other kind of entry ([ENOTDIR], [EISDIR]) are left out. *)
Record fileSystem : Type := {
  dirs : list string;
  files : list (string * content)
}.

Definition emptyFs : fileSystem := {| dirs := []; files := [] |}.

Fixpoint readFile (fs : list (string * content)) (path : string) : option content :=
  match fs with
  | [] => None
  | (p, c) :: fs' => if String.eqb p path then Some c else readFile fs' path
  end.

Definition existsSync (fs : fileSystem) (path : string) : bool :=
  existsb (String.eqb path) (dirs fs)
  || match readFile (files fs) path with Some _ => true | None => false end.

Definition mkdirSync (fs : fileSystem) (dir : string) : fileSystem :=
  {| dirs := dir :: dirs fs; files := files fs |}.

Definition writeFileSync (fs : fileSystem) (path : string) (c : content)
  : fileSystem :=
  {| dirs := dirs fs; files := (path, c) :: files fs |}.

(** A computation over a state [S]; the state it leaves is kept when it
    throws. *)
Definition St (S A : Type) : Type := S -> outcome A * S.

(** Most of the code only touches the file system. *)
Definition M (A : Type) : Type := St fileSystem A.

Definition ret {S A} (a : A) : St S A := fun st => (Ok a, st).

Definition bind {S A B} (m : St S A) (k : A -> St S B) : St S B :=
  fun st =>
    match m st with
    | (Ok a, st') => k a st'
    | (Throw e, st') => (Throw e, st')
    | (Unmodelled, st') => (Unmodelled, st')
    end.

Definition lift {S A} (o : outcome A) : St S A := fun st => (o, st).

(** [try { m } catch (e) { handler e }] *)
Definition tryCatch {S A} (m : St S A) (handler : exn -> St S A) : St S A :=
  fun st =>
    match m st with
    | (Throw e, st') => handler e st'
    | r => r
    end.

Definition modify {S} (f : S -> S) : St S unit := fun st => (Ok tt, f st).

Definition getState {S} : St S S := fun st => (Ok st, st).

(** A file-system computation run beside a further piece of state. *)
Definition onFiles {X A} (m : M A) : St (X * fileSystem) A :=
  fun st =>
    let (r, fs') := m (snd st) in (r, (fst st, fs')).

Definition onLocal {X A} (m : St X A) : St (X * fileSystem) A :=
  fun st =>
    let (r, x') := m (fst st) in (r, (x', snd st)).

Notation "'do' x <- m ; k" := (bind m (fun x => k))
  (at level 10, x name, m at level 100, k at level 200) : js_scope.
Notation "'do' ' p <- m ; k" := (bind m (fun x => let p := x in k))
  (at level 10, p pattern, m at level 100, k at level 200) : js_scope.

(** The host functions the sources call: [path.join], [path.dirname],
    [path.basename(p, ext)], [path.extname] and [JSON.stringify(v, null,
    indent)] on a value other than [undefined]. *)
Record Platform : Type := {
  path_join : string -> string -> string;
  path_dirname : string -> string;
  path_basename : string -> string -> string;
  path_extname : string -> string;
  JSON_stringify : value -> nat -> string
}.

Section Artifacts.
Variable node : Platform.

(** [Buffer.from(data, 'base64')] *)
Definition bufferFromBase64 (data : value) : outcome content :=
  match data with
  | JStr s => Ok (Bytes (base64Decode s))
  | JArr _ | JObj _ => Unmodelled
  | _ => Throw (TypeError "The first argument must be of type string or an instance of Buffer, ArrayBuffer, or Array or an Array-like Object.")
  end.

(** What [fs.writeFileSync] takes as data when it is not a buffer. *)
Definition fileData (data : value) : outcome content :=
  match data with
  | JStr s => Ok (Text s)
  | _ => Throw (TypeError "The 'data' argument must be of type string or an instance of Buffer, TypedArray, or DataView.")
  end.

(** [saveFile(filePath, data, { isBase64 })]; the [silent] option only
    governs console output, which is not modelled. *)
Definition saveFile (filePath : string) (data : value) (isBase64 : bool)
  : M string :=
  fun fs =>
    let dir := path_dirname node filePath in
    let fs1 := if existsSync fs dir then fs else mkdirSync fs dir in
    match (if isBase64 then bufferFromBase64 data else fileData data) with
    | Ok fileData => (Ok filePath, writeFileSync fs1 filePath fileData)
    | Throw e => (Throw e, fs1)
    | Unmodelled => (Unmodelled, fs1)
    end.

(** [JSON.stringify(v, null, indent)] as a value: [undefined] for
    [undefined]. *)
Definition stringify (v : value) (indent : nat) : value :=
  match v with
  | JUndef => JUndef
  | _ => JStr (JSON_stringify node v indent)
  end.

Definition maskAndSaveJson (obj : value) (filePath : string) : M string :=
  do maskedObj <- lift (maskBase64Content obj);
  saveFile filePath (stringify maskedObj 2) false.

End Artifacts.

(* ================================================================== *)
(** ** Further JavaScript operations used by the normalizers *)

(** [v || d] *)
Definition orElse (v d : value) : value := if truthy v then v else d.

(** [v > 0] *)
Definition gtZero (v : value) : outcome bool :=
  match v with
  | JUndef | JNull => Ok false
  | JBool b => Ok b
  | JNum q => Ok (negb (Qle_bool q 0%Q))
  | JStr _ | JArr _ | JObj _ => Unmodelled
  end.

(** How often [for (let i = 0; i < v; i++)] runs. *)
Definition loopBound (v : value) : outcome nat :=
  match v with
  | JUndef | JNull => Ok O
  | JBool b => Ok (Nat.b2n b)
  | JNum q => Ok (Z.to_nat (Qceiling q))
  | JStr _ | JArr _ | JObj _ => Unmodelled
  end.

(** [v === s] for a string [s]. *)
Definition strictEqStr (v : value) (s : string) : bool :=
  match v with JStr t => String.eqb t s | _ => false end.

(** [v.includes(needle)]: a method of strings and of arrays only. *)
Definition methodIncludes (v : value) (needle : string) : outcome bool :=
  match v with
  | JStr s => Ok (includes s needle)
  | JArr xs => Ok (existsb (fun x => strictEqStr x needle) xs)
  | _ => Throw (TypeError "includes is not a function")
  end.

Fixpoint stripPrefix (p s : string) : option string :=
  match p, s with
  | EmptyString, _ => Some s
  | String a p', String b s' =>
      if Ascii.eqb a b then stripPrefix p' s' else None
  | String _ _, EmptyString => None
  end.

(** The match of [/filtered out (\d+) generated images/] anchored at the
    head of [s]: the captured digits. *)
Definition filteredCountHere (s : string) : option string :=
  match stripPrefix "filtered out " s with
  | Some rest =>
      match takeDigits rest with
      | EmptyString => None
      | ds => if isPrefix " generated images" (dropDigits rest)
              then Some ds else None
      end
  | None => None
  end.

(** The first match anywhere in [s]. *)
Fixpoint filteredCount (s : string) : option string :=
  match filteredCountHere s with
  | Some ds => Some ds
  | None =>
      match s with
      | EmptyString => None
      | String _ s' => filteredCount s'
      end
  end.

(** [v.match(/filtered out (\d+) generated images/)]: group 1 of the
    match, if any; a method of strings only. *)
Definition methodMatchFiltered (v : value) : outcome (option string) :=
  match v with
  | JStr s => Ok (filteredCount s)
  | _ => Throw (TypeError "match is not a function")
  end.

(** [parseInt(ds, 10)] on a string of decimal digits, as the exact
    number; [parseInt] rounds above 2^53. *)
Definition parseInt10 (ds : string) : nat :=
  match NilEmpty.uint_of_string ds with
  | Some d => Nat.of_uint d
  | None => O
  end.

(** [v.split('/')]: a method of strings only. *)
Definition methodSplitSlash (v : value) : outcome (string * list string) :=
  match v with
  | JStr s => Ok (splitOn "/" s)
  | _ => Throw (TypeError "split is not a function")
  end.

Definition strings (l : list string) : value := JArr (map JStr l).

(* ================================================================== *)
(** ** Imagen response normalizer ([src/imagen.js]) *)

Definition allFilteredMessage : string :=
  "Unable to show generated images. All images were filtered out".

(** How the first pass over the predictions ends: with the early return
    of a blocked result, or with the count of filtered images. *)
Inductive filterScan : Type :=
| AllFiltered (result : value)
| Counted (blockedCount : nat).

(** The first [for] loop, over the indices still to visit. *)
Fixpoint imagenFilterScan (predictions : value) (indices : list nat)
    (blockedCount : nat) : outcome filterScan :=
  match indices with
  | [] => Ok (Counted blockedCount)
  | i :: rest =>
      let? prediction := getProp predictions (natToString i) in
      let? raiFilteredReason := getProp prediction "raiFilteredReason" in
      if truthy raiFilteredReason then
        let? all := methodIncludes raiFilteredReason allFilteredMessage in
        if all then
          Ok (AllFiltered
                (JObj [("success", JBool false);
                       ("error", JStr "责任人工智能过滤了内容");
                       ("blocked", JBool true);
                       ("raiFiltered", JBool true);
                       ("details", raiFilteredReason)]))
        else
          let? found := methodMatchFiltered raiFilteredReason in
          match found with
          | Some ds =>
              imagenFilterScan predictions rest (blockedCount + parseInt10 ds)
          | None => imagenFilterScan predictions rest blockedCount
          end
      else imagenFilterScan predictions rest blockedCount
  end.

(** The images saved so far: [savedImagePaths] and [generatedCount]. *)
Record saved : Type := {
  savedImagePaths : list string;
  generatedCount : nat
}.

Definition noneSaved : saved := {| savedImagePaths := []; generatedCount := 0 |}.

Definition pushSaved (st : saved) (filename : string) : saved :=
  {| savedImagePaths := savedImagePaths st ++ [filename];
     generatedCount := S (generatedCount st) |}.

Section Imagen.
Variable node : Platform.
Variables requestId outputDir : string.

(** [prediction.images.forEach((img, index) => ...)] from [index] on,
    for the prediction at [i]. *)
Fixpoint imagenSaveImages (i index : nat) (images : list value) (st : saved)
  : M saved :=
  match images with
  | [] => ret st
  | img :: rest =>
      do bytes <- lift (getProp img "bytesBase64Encoded");
      if truthy bytes then
        let filename :=
          path_join node outputDir
            (requestId ++ "_" ++ natToString i ++ "_" ++ natToString index ++ ".png") in
        do _ <- saveFile node filename bytes true;
        imagenSaveImages i (S index) rest (pushSaved st filename)
      else imagenSaveImages i (S index) rest st
  end.

(** The body of the second [for] loop for the prediction at [i]. *)
Definition imagenExtract (i : nat) (prediction : value) (st : saved) : M saved :=
  do raiFilteredReason <- lift (getProp prediction "raiFilteredReason");
  if truthy raiFilteredReason then ret st
  else
    do images <- lift (getProp prediction "images");
    do standard <- lift (if truthy images
                         then let? n := getProp images "length" in gtZero n
                         else Ok false);
    if standard then
      match images with
      | JArr imgs => imagenSaveImages i 0 imgs st
      | _ => lift (Throw (TypeError "prediction.images.forEach is not a function"))
      end
    else
      do bytes <- lift (getProp prediction "bytesBase64Encoded");
      if truthy bytes then
        do mimeType <- lift (getProp prediction "mimeType");
        let imageType := orElse mimeType (JStr "image/png") in
        do pieces <- lift (methodSplitSlash imageType);
        let ext := match nth_error (snd pieces) 0 with
                   | Some e => if String.eqb e "" then "png" else e
                   | None => "png"
                   end in
        let filename :=
          path_join node outputDir
            (requestId ++ "_" ++ natToString i ++ "." ++ ext) in
        do _ <- saveFile node filename bytes true;
        ret (pushSaved st filename)
      else ret st.

(** The second [for] loop, over the indices still to visit. *)
Fixpoint imagenExtractAll (predictions : value) (indices : list nat)
    (st : saved) : M saved :=
  match indices with
  | [] => ret st
  | i :: rest =>
      do prediction <- lift (getProp predictions (natToString i));
      do st' <- imagenExtract i prediction st;
      imagenExtractAll predictions rest st'
  end.

(** Lines 158-274 of [generateImagesWithImagen]: what is made of the
    parsed response [result]. *)
Definition imagenNormalize (result : value)
    (requestFilename responseFilename : string) : M value :=
  do found <- lift (if truthy result then
                      let? predictions := getProp result "predictions" in
                      if truthy predictions then
                        let? n := getProp predictions "length" in
                        let? positive := gtZero n in
                        Ok (if positive then Some predictions else None)
                      else Ok None
                    else Ok None);
  match found with
  | Some predictions =>
      do len <- lift (getProp predictions "length");
      do bound <- lift (loopBound len);
      do scan <- lift (imagenFilterScan predictions (seq 0 bound) 0);
      match scan with
      | AllFiltered blocked => ret blocked
      | Counted blockedCount =>
          do st <- imagenExtractAll predictions (seq 0 bound) noneSaved;
          if (0 <? List.length (savedImagePaths st))%nat then
            ret (JObj [("success", JBool true);
                       ("outputDir", JStr outputDir);
                       ("images", strings (savedImagePaths st));
                       ("generated", numOfNat (generatedCount st));
                       ("blocked", numOfNat blockedCount)])
          else
            ret (JObj [("success", JBool false);
                       ("error", JStr "没有保存任何图像");
                       ("blocked", JBool (0 <? blockedCount)%nat);
                       ("blockedCount", numOfNat blockedCount)])
      end
  | None =>
      ret (JObj [("success", JBool false);
                 ("error", JStr "No predictions found in response");
                 ("jsonFiles", JObj [("request", JStr requestFilename);
                                     ("response", JStr responseFilename)])])
  end.

End Imagen.

(* ================================================================== *)
(** ** Gemini response normalizer ([src/gemini.js]) *)

(** The array [savedImagePaths] and the counter [imageCount]; both outlive
    an exception thrown inside the [try] of [processGeminiResponse]. *)
Record extraction : Type := {
  imagePaths : list string;
  imageCount : nat
}.

Definition noExtraction : extraction := {| imagePaths := []; imageCount := 0 |}.

Definition countImage (st : extraction) : extraction :=
  {| imagePaths := imagePaths st; imageCount := S (imageCount st) |}.

Definition pushImage (filename : string) (st : extraction) : extraction :=
  {| imagePaths := imagePaths st ++ [filename]; imageCount := imageCount st |}.

Section Gemini.
Variable node : Platform.
Variables requestId outputDir jsonDir : string.

(** The [for] loop over [parts], over the indices still to visit. *)
Fixpoint geminiExtractParts (parts : value) (indices : list nat)
  : St (extraction * fileSystem) unit :=
  match indices with
  | [] => ret tt
  | i :: rest =>
      do part <- lift (getProp parts (natToString i));
      do inlineData <- lift (getProp part "inlineData");
      do imageData <- lift (if truthy inlineData
                            then getProp inlineData "data"
                            else Ok inlineData);
      if truthy inlineData && truthy imageData then
        do _ <- onLocal (modify countImage);
        do mimeType <- lift (getProp inlineData "mimeType");
        let imageType := orElse mimeType (JStr "image/png") in
        do pieces <- lift (methodSplitSlash imageType);
        let ext := match nth_error (snd pieces) 0 with
                   | Some e => e
                   | None => "undefined"
                   end in
        do st <- getState;
        let imageFilename :=
          path_join node outputDir
            (requestId ++ "_generated_" ++ natToString (imageCount (fst st))
             ++ "." ++ ext) in
        do _ <- onFiles (saveFile node imageFilename imageData true);
        do _ <- onLocal (modify (pushImage imageFilename));
        geminiExtractParts parts rest
      else geminiExtractParts parts rest
  end.

(** The body of the [try] block of [processGeminiResponse]. *)
Definition geminiExtract (result : value) : St (extraction * fileSystem) unit :=
  do candidates <- lift (getProp result "candidates");
  do some <- lift (if truthy candidates
                   then let? n := getProp candidates "length" in gtZero n
                   else Ok false);
  if some then
    do candidate <- lift (getProp candidates "0");
    do content <- lift (getProp candidate "content");
    do parts <- lift (if truthy content then getProp content "parts"
                      else Ok content);
    if truthy content && truthy parts then
      do len <- lift (getProp parts "length");
      do bound <- lift (loopBound len);
      geminiExtractParts parts (seq 0 bound)
    else ret tt
  else ret tt.

(** [result.candidates && result.candidates.length > 0 &&
    result.candidates[0].finishReason === "IMAGE_SAFETY"] *)
Definition geminiSafetyBlocked (result : value) : outcome bool :=
  let? candidates := getProp result "candidates" in
  if truthy candidates then
    let? n := getProp candidates "length" in
    let? some := gtZero n in
    if some then
      let? first := getProp candidates "0" in
      let? finishReason := getProp first "finishReason" in
      Ok (strictEqStr finishReason "IMAGE_SAFETY")
    else Ok false
  else Ok false.

Definition processGeminiResponse (result : value) : M value :=
  let responseFilename :=
    path_join node jsonDir (requestId ++ "_response.json") in
  do _ <- maskAndSaveJson node result responseFilename;
  do blocked <- lift (geminiSafetyBlocked result);
  if blocked then
    ret (JObj [("success", JBool false);
               ("error", JStr "由于安全问题，图像生成被阻止");
               ("safetyBlock", JBool true);
               ("responseFile", JStr responseFilename)])
  else
    fun fs =>
      match geminiExtract result (noExtraction, fs) with
      | (Ok _, (st, fs')) =>
          (Ok (JObj [("success", JBool true);
                     ("outputDir", JStr outputDir);
                     ("jsonDir", JStr jsonDir);
                     ("images", strings (imagePaths st));
                     ("jsonFiles",
                      JObj [("response", JStr responseFilename)])]),
           fs')
      | (Throw _, (st, fs')) =>
          (Ok (JObj [("success", JBool true);
                     ("outputDir", JStr outputDir);
                     ("images", strings (imagePaths st));
                     ("warning", JStr "处理响应的某些部分时出错")]),
           fs')
      | (Unmodelled, (_, fs')) => (Unmodelled, fs')
      end.

End Gemini.

(* ================================================================== *)
(** ** Transport ([src/proxy.js], [fetchWithProxy]) *)

(** What the code reads of a [fetch] response.  The body can be consumed
    once; what a second read gives is left to the transport. *)
Record Response : Type := {
  resp_ok : bool;
  resp_status : nat;
  resp_json : outcome value;
  resp_text : outcome string;
  resp_text_after_json : outcome string;
  resp_json_after_text : outcome value
}.

(** The collaborators of one invocation: the clock, the command line's
    [--debug], the preference store, the credential provider, the proxy
    agent made by [createProxyAgent], the environment, and what the two
    calls of [fetch] give. *)
Record World : Type := {
  now : N;
  isoTime : string;
  debugFlag : bool;
  saveConfigResult : outcome unit;
  accessToken : outcome string;
  proxyAgent : option string;
  env_SYSTEM_PROXY : option string;
  env_GEMINI_API_DOMAIN : option string;
  firstFetch : outcome Response;
  retryFetch : outcome Response
}.

Definition nonEmpty (s : string) : bool := negb (String.eqb s "").

Definition envSet (v : option string) : bool :=
  match v with Some s => nonEmpty s | None => false end.

Definition isNone {A} (o : option A) : bool :=
  match o with None => true | Some _ => false end.

Definition codeIs (e : exn) (code : string) : bool :=
  match exn_code e with Some c => String.eqb c code | None => false end.

Section Transport.
Variable node : Platform.
Variable world : World.

(** Both callers pass [{ requestId, outputDir }] as [extraOptions], so
    [extraOptions.jsonDir] is [undefined].  The proxy variables of
    [process.env] that the function sets and restores act on [fetch] only,
    whose two outcomes the world gives.  The opening call of
    [createProxyAgent(argv)], which stands outside the [try], is taken to
    have returned [proxyAgent world]. *)
Definition fetchWithProxy (url : string) (options : value)
    (requestId outputDir : string) : M Response :=
  match firstFetch world with
  | Ok response =>
      if debugFlag world && nonEmpty requestId then
        fun fs =>
          let debugDir := if nonEmpty outputDir
                          then path_join node outputDir "json"
                          else "./debug" in
          let fs1 := if existsSync fs debugDir then fs
                     else mkdirSync fs debugDir in
          let debugFile :=
            path_join node debugDir (requestId ++ "_debug.json") in
          let body := match getProp options "body" with
                      | Ok b => if truthy b then JStr "[BODY_CONTENT]" else JUndef
                      | _ => JUndef
                      end in
          let debugData :=
            JObj [("url", JStr url);
                  ("options", match options with
                              | JObj fields => JObj (assign "body" body fields)
                              | _ => JObj [("body", body)]
                              end);
                  ("timestamp", JStr (isoTime world));
                  ("proxyUsed", JBool (negb (isNone (proxyAgent world))))] in
          (Ok response,
           writeFileSync fs1 debugFile
             (Text (JSON_stringify node debugData 2)))
      else ret response
  | Throw error =>
      if envSet (env_SYSTEM_PROXY world)
         && (isNone (proxyAgent world) || codeIs error "ETIMEDOUT")
      then
        (* the retry; its failure is caught by the enclosing
           [catch (debugError)], after which the first error is thrown *)
        match retryFetch world with
        | Ok response => ret response
        | Throw _ => lift (Throw error)
        | Unmodelled => lift Unmodelled
        end
      else lift (Throw error)
  | Unmodelled => lift Unmodelled
  end.

End Transport.

(* ================================================================== *)
(** ** [generateImagesWithImagen] ([src/imagen.js]) *)

Record imagenOptions : Type := {
  keyFile : string;
  projectId : string;
  prompt : string;
  location : string;
  aspectRatio : string;
  count : nat;
  negativePrompt : string;
  enhance : bool;
  personGeneration : string;
  safety : string;
  watermark : bool;
  imagenOutputDir : string;
  imagenJsonDir : string;
  model : string
}.

Definition failure (e : exn) : value :=
  JObj [("success", JBool false); ("error", JStr (exn_message e))].

Definition ensureDir (dir : string) : M unit :=
  fun fs => (Ok tt, if existsSync fs dir then fs else mkdirSync fs dir).

Section GenerateImagen.
Variable node : Platform.
Variable world : World.
Variable options : imagenOptions.

Definition imagenRequestData : value :=
  JObj [("endpoint",
         JStr ("projects/" ++ projectId options ++ "/locations/"
               ++ location options ++ "/publishers/google/models/"
               ++ model options));
        ("instances", JArr [JObj [("prompt", JStr (prompt options))]]);
        ("parameters",
         JObj [("aspectRatio", JStr (aspectRatio options));
               ("sampleCount", numOfNat (count options));
               ("negativePrompt", JStr (negativePrompt options));
               ("enhancePrompt", JBool (enhance options));
               ("personGeneration", JStr (personGeneration options));
               ("safetySetting", JStr (safety options));
               ("addWatermark", JBool (watermark options));
               ("includeRaiReason", JBool true);
               ("language", JStr "auto")])].

(** The branch taken when [response.ok] is false. *)
Definition imagenHttpError (response : Response) : outcome value :=
  let statusCode := numOfNat (resp_status response) in
  let plain (errorMessage errorDetail : value) : outcome value :=
    Ok (JObj [("success", JBool false); ("error", errorMessage);
              ("details", errorDetail); ("statusCode", statusCode)]) in
  let recover (errorDetail : value) : outcome value :=
    let? text := resp_text_after_json response in
    plain (JStr text) errorDetail in
  match (let? errorJson := resp_json response in getProp errorJson "error") with
  | Unmodelled => Unmodelled
  | Throw _ => recover (JStr "")
  | Ok error =>
      if truthy error then
        match getProp error "message", getProp error "status" with
        | Ok message, Ok status =>
            let errorMessage := orElse message (JStr "") in
            let errorDetail := orElse status (JStr "") in
            if (resp_status response =? 400)%nat then
              match methodIncludes errorMessage
                      "safety filter threshold prohibited" with
              | Ok true =>
                  Ok (JObj [("success", JBool false);
                            ("error", JStr "安全过滤器阻止了此提示");
                            ("blocked", JBool true);
                            ("details", errorMessage);
                            ("statusCode", statusCode)])
              | Ok false =>
                  match methodIncludes errorMessage
                          "You have chosen the 'Allow (All ages)' option for Person Generation, but this option is not available to you" with
                  | Ok true =>
                      Ok (JObj [("success", JBool false);
                                ("error", JStr "人物生成权限错误");
                                ("permissionIssue", JBool true);
                                ("details", errorMessage);
                                ("statusCode", statusCode)])
                  | Ok false => plain errorMessage errorDetail
                  | Throw _ => recover errorDetail
                  | Unmodelled => Unmodelled
                  end
              | Throw _ => recover errorDetail
              | Unmodelled => Unmodelled
              end
            else plain errorMessage errorDetail
        | _, _ => recover (JStr "")
        end
      else plain (JStr "") (JStr "")
  end.

Definition generateImagesWithImagen : M value :=
  let outputDir := imagenOutputDir options in
  let jsonDir := imagenJsonDir options in
  tryCatch
    (do _ <- lift (saveConfigResult world);
     do token <- lift (accessToken world);
     let apiEndpoint := (location options ++ "-aiplatform.googleapis.com")%string in
     let requestUrl :=
       ("https://" ++ apiEndpoint ++ "/v1/projects/" ++ projectId options
        ++ "/locations/" ++ location options
        ++ "/publishers/google/models/" ++ model options ++ ":predict")%string in
     let fetchOptions :=
       JObj [("method", JStr "POST");
             ("headers",
              JObj [("Content-Type", JStr "application/json");
                    ("Authorization", JStr ("Bearer " ++ token))]);
             ("body", JStr (JSON_stringify node imagenRequestData 0))] in
     let requestId := ("imagen_" ++ timestampToString (now world))%string in
     do response <- fetchWithProxy node world requestUrl fetchOptions
                      requestId outputDir;
     if negb (resp_ok response) then lift (imagenHttpError response)
     else
       do result <- lift (resp_json response);
       do _ <- ensureDir outputDir;
       do _ <- ensureDir jsonDir;
       let requestFilename :=
         path_join node jsonDir (requestId ++ "_request.json") in
       do _ <- saveFile node requestFilename
                 (stringify node imagenRequestData 2) false;
       let responseFilename :=
         path_join node jsonDir (requestId ++ "_response.json") in
       do _ <- maskAndSaveJson node result responseFilename;
       imagenNormalize node requestId outputDir result
         requestFilename responseFilename)
    (fun error => ret (failure error)).

End GenerateImagen.

(* ================================================================== *)
(** ** [generateImagesWithGemini] ([src/gemini.js]) *)

Record geminiOptions : Type := {
  geminiKey : string;
  geminiPrompt : string;
  referenceImages : list string;
  geminiOutputDir : string;
  geminiJsonDir : string
}.

Definition toLowerChar (c : ascii) : ascii :=
  let n := nat_of_ascii c in
  if ((65 <=? n) && (n <=? 90))%nat then ascii_of_nat (n + 32) else c.

Fixpoint toLowerCase (s : string) : string :=
  match s with
  | EmptyString => EmptyString
  | String c s' => String (toLowerChar c) (toLowerCase s')
  end.

Definition mimeTypes : list (string * string) :=
  [(".jpg", "image/jpeg"); (".jpeg", "image/jpeg"); (".png", "image/png");
   (".gif", "image/gif"); (".bmp", "image/bmp"); (".webp", "image/webp")].

Fixpoint tableLookup (k : string) (t : list (string * string)) : option string :=
  match t with
  | [] => None
  | (k', v) :: t' => if String.eqb k k' then Some v else tableLookup k t'
  end.

Section GenerateGemini.
Variable node : Platform.
Variable world : World.
Variable options : geminiOptions.

(** [getMimeType] of [src/utils.js] *)
Definition getMimeType (filePath : string) : string :=
  let ext := toLowerCase (path_extname node filePath) in
  match tableLookup ext mimeTypes with
  | Some m => m
  | None => "image/jpeg"
  end.

(** [imageToBase64] of [src/utils.js] *)
Definition imageToBase64 (imagePath : string) : M string :=
  fun fs =>
    match readFile (files fs) imagePath with
    | Some (Bytes b) => (Ok (base64Encode b), fs)
    | Some (Text t) => (Ok (base64Encode (list_ascii_of_string t)), fs)
    | None =>
        (Throw (SystemError (Some "ENOENT")
                  ("ENOENT: no such file or directory, open '" ++ imagePath ++ "'")),
         fs)
    end.

(** The loop that adds the reference images to [parts]: the parts, or
    the result returned from inside the loop when an image cannot be
    processed. *)
Fixpoint geminiImageParts (images : list string) (parts : list value)
  : M (value + list value) :=
  match images with
  | [] => ret (inr parts)
  | imagePath :: rest =>
      do added <-
        tryCatch
          (do base64Image <- imageToBase64 imagePath;
           let mimeType := getMimeType imagePath in
           ret (inr (parts ++ [JObj [("inline_data",
                                      JObj [("mime_type", JStr mimeType);
                                            ("data", JStr base64Image)])]])))
          (fun _ =>
             ret (inl (JObj [("success", JBool false);
                             ("error",
                              JStr ("Failed to process image: " ++ imagePath))])));
      match added with
      | inl early => ret (inl early)
      | inr parts' => geminiImageParts rest parts'
      end
  end.

Definition geminiRequestId : string :=
  let timestamp := timestampToString (now world) in
  match referenceImages options with
  | [] => "gemini_text_to_image_" ++ timestamp
  | first :: more =>
      let firstFileName :=
        path_basename node first (path_extname node first) in
      match more with
      | [] => "gemini_" ++ firstFileName ++ "_" ++ timestamp
      | _ => "gemini_" ++ firstFileName ++ "_and_"
             ++ natToString (List.length more) ++ "_more_" ++ timestamp
      end
  end.

Definition geminiRequestData (parts : list value) : value :=
  JObj [("contents", JArr [JObj [("parts", JArr parts)]]);
        ("generationConfig",
         JObj [("responseModalities", JArr [JStr "Text"; JStr "Image"])])].

Definition generateImagesWithGemini : M value :=
  let outputDir := geminiOutputDir options in
  let jsonDir := geminiJsonDir options in
  let requestId := geminiRequestId in
  tryCatch
    (do _ <- lift (saveConfigResult world);
     do _ <- ensureDir outputDir;
     do _ <- ensureDir jsonDir;
     do built <- geminiImageParts (referenceImages options)
                   [JObj [("text", JStr (geminiPrompt options))]];
     match built with
     | inl early => ret early
     | inr parts =>
         let requestData := geminiRequestData parts in
         let requestFilename :=
           path_join node jsonDir (requestId ++ "_request.json") in
         do _ <- maskAndSaveJson node requestData requestFilename;
         let apiDomain :=
           match env_GEMINI_API_DOMAIN world with
           | Some d => if nonEmpty d then d
                       else "generativelanguage.googleapis.com"
           | None => "generativelanguage.googleapis.com"
           end in
         let apiUrl :=
           ("https://" ++ apiDomain
            ++ "/v1beta/models/gemini-2.0-flash-exp-image-generation:generateContent?key="
            ++ geminiKey options)%string in
         let fetchOptions :=
           JObj [("method", JStr "POST");
                 ("headers", JObj [("Content-Type", JStr "application/json")]);
                 ("body", JStr (JSON_stringify node requestData 0))] in
         tryCatch
           (do response <- fetchWithProxy node world apiUrl fetchOptions
                             requestId outputDir;
            if negb (resp_ok response) then
              do errorText <- lift (resp_text response);
              let errorFilename :=
                path_join node jsonDir (requestId ++ "_error.json") in
              do _ <- tryCatch
                        (do errorJson <- lift (resp_json_after_text response);
                         saveFile node errorFilename
                           (stringify node errorJson 2) false)
                        (fun _ =>
                           saveFile node errorFilename (JStr errorText) false);
              ret (JObj [("success", JBool false);
                         ("error",
                          JStr ("API 错误：" ++ natToString (resp_status response)));
                         ("jsonFiles",
                          JObj [("request", JStr requestFilename);
                                ("error", JStr errorFilename)])])
            else
              do result <- lift (resp_json response);
              do _ <- (if debugFlag world then
                         do _ <- maskAndSaveJson node result
                                   (path_join node jsonDir
                                      (requestId ++ "_response_debug.json"));
                         ret tt
                       else ret tt);
              processGeminiResponse node requestId outputDir jsonDir result)
           (fun error => ret (failure error))
     end)
    (fun error => ret (failure error)).

End GenerateGemini.

(** A platform and a world to run the model in. *)
Definition posixJoin (dir file : string) : string := dir ++ "/" ++ file.

Definition samplePlatform : Platform :=
  {| path_join := posixJoin;
     path_dirname := fun p => fst (splitOn "/" p);
     path_basename := fun p _ => p;
     path_extname := fun _ => ".png";
     JSON_stringify := fun _ _ => "{}" |}.

Definition okResponse (body : value) : Response :=
  {| resp_ok := true; resp_status := 200;
     resp_json := Ok body;
     resp_text := Ok "";
     resp_text_after_json := Throw (TypeError "body used already");
     resp_json_after_text := Throw (TypeError "body used already") |}.

Definition worldReturning (body : value) : World :=
  {| now := 1700000000000%N; isoTime := "2023-11-14T22:13:20.000Z";
     debugFlag := false;
     saveConfigResult := Ok tt;
     accessToken := Ok "token";
     proxyAgent := None;
     env_SYSTEM_PROXY := None;
     env_GEMINI_API_DOMAIN := None;
     firstFetch := Ok (okResponse body);
     retryFetch := Throw (SystemError (Some "ETIMEDOUT") "timeout") |}.

Definition timeoutError : exn :=
  SystemError (Some "ETIMEDOUT") "request to https://example.invalid failed, reason: connect ETIMEDOUT".

Definition worldOffline : World :=
  {| now := 1700000000000%N; isoTime := "2023-11-14T22:13:20.000Z";
     debugFlag := false;
     saveConfigResult := Ok tt;
     accessToken := Ok "token";
     proxyAgent := None;
     env_SYSTEM_PROXY := Some "http://127.0.0.1:7890";
     env_GEMINI_API_DOMAIN := None;
     firstFetch := Throw timeoutError;
     retryFetch := Throw timeoutError |}.

Definition sampleImagenOptions : imagenOptions :=
  {| keyFile := "key.json"; projectId := "demo"; prompt := "a cat";
     location := "us-central1"; aspectRatio := "1:1"; count := 1;
     negativePrompt := ""; enhance := false;
     personGeneration := "allow_adult"; safety := "block_few";
     watermark := true; imagenOutputDir := "./images";
     imagenJsonDir := "./output"; model := "imagen-3.0-generate-002" |}.

Definition sampleGeminiOptions : geminiOptions :=
  {| geminiKey := "key"; geminiPrompt := "a cat"; referenceImages := [];
     geminiOutputDir := "./images"; geminiJsonDir := "./output" |}.

(* ================================================================== *)
(** ** Notions used to state the properties *)

(** The positions of [images], counted from [index], whose element holds
    a non-empty string under [bytesBase64Encoded], each with that
    string. *)
Fixpoint positionsHolding (index : nat) (images : list value)
  : list (nat * string) :=
  match images with
  | [] => []
  | img :: rest =>
      match getProp img "bytesBase64Encoded" with
      | Ok (JStr data) =>
          if nonEmpty data then (index, data) :: positionsHolding (S index) rest
          else positionsHolding (S index) rest
      | _ => positionsHolding (S index) rest
      end
  end.

(** An element of [images]: an object or other non-null value whose
    [bytesBase64Encoded] is missing, falsy, or a string. *)
Definition imageElement (img : value) : Prop :=
  exists v, getProp img "bytesBase64Encoded" = Ok v /\
            (truthy v = false \/ exists data, v = JStr data).

(** No binary file of [fs'] is new with respect to [fs]: the writes in
    between were all text. *)
Definition onlyTextAdded (fs fs' : fileSystem) : Prop :=
  exists added : list (string * string),
    files fs' = map (fun pt => (fst pt, Text (snd pt))) added ++ files fs.

(** A part carrying inline data [data] under the MIME type
    [type/subtype]. *)
Definition inlinePart (part : value) (type subtype data : string) : Prop :=
  exists inlineData,
    getProp part "inlineData" = Ok inlineData /\
    getProp inlineData "data" = Ok (JStr data) /\ data <> "" /\
    getProp inlineData "mimeType" = Ok (JStr (type ++ "/" ++ subtype)) /\
    lacks "/" type = true /\ lacks "/" subtype = true.

(** A part that holds text and no inline data. *)
Definition textOnlyPart (part : value) : Prop :=
  exists text, getProp part "text" = Ok (JStr text) /\
               getProp part "inlineData" = Ok JUndef.

(** [parts] is made of inline and text-only parts, its inline parts having,
    in order, the subtypes and payloads [ys]. *)
Inductive partsYield : list value -> list (string * string) -> Prop :=
| yield_nil : partsYield [] []
| yield_inline part type subtype data rest ys :
    inlinePart part type subtype data -> partsYield rest ys ->
    partsYield (part :: rest) ((subtype, data) :: ys)
| yield_text part rest ys :
    textOnlyPart part -> partsYield rest ys -> partsYield (part :: rest) ys.

(** Sample responses. *)
Definition shortReasonResponse : value :=
  JObj [("predictions",
         JArr [JObj [("raiFilteredReason",
                      JStr "All images were filtered out by the safety settings.")]])].

Definition allFilteredResponse : value :=
  JObj [("predictions",
         JArr [JObj [("raiFilteredReason",
                      JStr "Unable to show generated images. All images were filtered out because they violated Google's Responsible AI practices.")]])].

(** The mixed response of the specification's example: one record of
    two filtered images and one direct image. *)
Definition partlyFilteredResponse : value :=
  JObj [("predictions",
         JArr [JObj [("raiFilteredReason",
                      JStr "Your prompt filtered out 2 generated images.")];
               JObj [("bytesBase64Encoded", JStr "QQ==");
                     ("mimeType", JStr "image/png")]])].

Definition inlinePng : value :=
  JObj [("inlineData", JObj [("mimeType", JStr "image/png"); ("data", JStr "QQ==")])].

Definition inlineJpeg : value :=
  JObj [("inlineData", JObj [("mimeType", JStr "image/jpeg"); ("data", JStr "QUI=")])].

Definition textPart : value := JObj [("text", JStr "Here is your image.")].

Definition twoImagesAndText : value :=
  JObj [("candidates",
         JArr [JObj [("content", JObj [("parts", JArr [inlinePng; textPart; inlineJpeg])]);
                     ("finishReason", JStr "STOP")]])].

Definition safetyWithImages : value :=
  JObj [("candidates",
         JArr [JObj [("content", JObj [("parts", JArr [inlinePng; textPart; inlineJpeg])]);
                     ("finishReason", JStr "IMAGE_SAFETY")]])].

Definition safetyThenNull : value :=
  JObj [("candidates",
         JArr [JObj [("finishReason", JStr "IMAGE_SAFETY")]; JNull])].

(** Walking down from [current], some segment before the last one is
    missing: reading it gives [undefined], and every step before it gave
    a value that can be read from. *)
Fixpoint missingBelow (current : value) (k : string) (rest : list string)
  : Prop :=
  match rest with
  | [] => False
  | k' :: rest' =>
      match getProp current k with
      | Ok JUndef => True
      | Ok next => missingBelow next k' rest'
      | _ => False
      end
  end.

(* ================================================================== *)
(** ** Notions used to state and prove the properties *)

(** [s] is made of decimal digits only. *)
Fixpoint allDigits (s : string) : bool :=
  match s with
  | EmptyString => true
  | String c s' => isDigit c && allDigits s'
  end.

(** Arrays and objects, which hold other values, and the primitives that
    hold none. *)
Definition isContainer (v : value) : bool :=
  match v with JArr _ | JObj _ => true | _ => false end.

Definition isPrimitive (v : value) : bool :=
  match v with JBool _ | JNum _ | JStr _ => true | _ => false end.

(** Two segment lists part ways at some position both of them have. *)
Fixpoint diverge (p q : list string) : bool :=
  match p, q with
  | a :: p', b :: q' => if String.eqb a b then diverge p' q' else true
  | _, _ => false
  end.

(** All the segments of a path string. *)
Definition segmentsOf (path : string) : list string :=
  let (k, rest) := pathSegments path in k :: rest.

(** What masking leaves at a candidate path holding [v]. *)
Definition maskOf (v : value) : value :=
  match v with
  | JStr s =>
      if (100 <? String.length s)%nat then JStr (maskedValue (String.length s))
      else v
  | _ => v
  end.

(** Two path strings whose segments part ways. *)
Definition divergent (p q : string) : Prop :=
  diverge (segmentsOf p) (segmentsOf q) = true.

(** How many parts of [candidate] get a path: the length of
    [candidate.content.parts] when that is an array, else none. *)
Definition partsCount (candidate : value) : nat :=
  match getProp candidate "content" with
  | Ok content =>
      if truthy content then
        match getProp content "parts" with
        | Ok (JArr ps) => List.length ps
        | _ => O
        end
      else O
  | _ => O
  end.

(** The pairs (candidate index, part index) that get a path, for the
    candidates from index [i] on. *)
Fixpoint geminiIndices (i : nat) (candidates : list value) : list (nat * nat) :=
  match candidates with
  | [] => []
  | c :: cs => map (pair i) (seq 0 (partsCount c)) ++ geminiIndices (S i) cs
  end.

Definition geminiPathOf (ij : nat * nat) : string := geminiPath (fst ij) (snd ij).

(** The last segment of the path [k :: rest]. *)
Fixpoint lastSegment (k : string) (rest : list string) : string :=
  match rest with
  | [] => k
  | k' :: rest' => lastSegment k' rest'
  end.

(** The last segment of [p] can only be the key of an object: it is
    neither an array index nor [length]. *)
Definition objectKeyed (p : string) : Prop :=
  parseIndex (lastSegment (fst (pathSegments p)) (snd (pathSegments p))) = None /\
  lastSegment (fst (pathSegments p)) (snd (pathSegments p)) <> "length".

(** The result returned when all images were filtered. *)
Definition blockedResult (reason : string) : value :=
  JObj [("success", JBool false);
        ("error", JStr "责任人工智能过滤了内容");
        ("blocked", JBool true);
        ("raiFiltered", JBool true);
        ("details", JStr reason)].

(** A prediction in the standard format whose second image has no
    payload. *)
Definition gappedPrediction : value :=
  JObj [("images",
         JArr [JObj [("bytesBase64Encoded", JStr "QQ==")];
               JObj [("mimeType", JStr "image/png")];
               JObj [("bytesBase64Encoded", JStr "QUI=")]])].

(** Induction over a value and the values it holds. *)
Section ValueInduction.
Variable P : value -> Prop.
Hypothesis Hundef : P JUndef.
Hypothesis Hnull : P JNull.
Hypothesis Hbool : forall b, P (JBool b).
Hypothesis Hnum : forall q, P (JNum q).
Hypothesis Hstr : forall s, P (JStr s).
Hypothesis Harr : forall xs, Forall P xs -> P (JArr xs).
Hypothesis Hobj : forall fs, Forall (fun kv => P (snd kv)) fs -> P (JObj fs).

Fixpoint value_nested_ind (v : value) : P v :=
  match v with
  | JUndef => Hundef
  | JNull => Hnull
  | JBool b => Hbool b
  | JNum q => Hnum q
  | JStr s => Hstr s
  | JArr xs =>
      Harr ((fix all (l : list value) : Forall P l :=
               match l with
               | [] => Forall_nil _
               | x :: l' => Forall_cons x (value_nested_ind x) (all l')
               end) xs)
  | JObj fs =>
      Hobj ((fix all (l : list (string * value))
               : Forall (fun kv => P (snd kv)) l :=
               match l with
               | [] => Forall_nil _
               | kv :: l' => Forall_cons kv (value_nested_ind (snd kv)) (all l')
               end) fs)
  end.
End ValueInduction.

Section Names.
Variable node : Platform.
Variables requestId outputDir jsonDir : string.

(** The file of the image at position [index] of prediction [i], in
    the standard format of Imagen. *)
Definition standardName (i index : nat) : string :=
  path_join node outputDir
    (requestId ++ "_" ++ natToString i ++ "_" ++ natToString index ++ ".png").

(** The file of the [n]-th inline part of a Gemini response. *)
Definition generatedName (n : nat) (subtype : string) : string :=
  path_join node outputDir
    (requestId ++ "_generated_" ++ natToString n ++ "." ++ subtype).

(** The files of the inline parts [ys], numbered after [n]. *)
Fixpoint generatedFiles (n : nat) (ys : list (string * string))
  : list (string * content) :=
  match ys with
  | [] => []
  | (subtype, data) :: ys' =>
      (generatedName (S n) subtype, Bytes (base64Decode data))
      :: generatedFiles (S n) ys'
  end.

(** The file of the masked response. *)
Definition responseName : string :=
  path_join node jsonDir (requestId ++ "_response.json").
End Names.

(* ================================================================== *)
(** ** The schema of the binary payloads *)

(** A path of the vendor family the masker selects for [obj], as the
    schema gives it: [predictions[i].bytesBase64Encoded] for an index [i]
    of the array [predictions]; otherwise, when [candidates] is an array,
    [candidates[i].content.parts[j].inlineData.data] for an index [j] of
    the array [candidates[i].content.parts]. *)
Inductive selectedPath (obj : value) : string -> Prop :=
| selected_imagen ps i :
    getProp obj "predictions" = Ok (JArr ps) -> (i < List.length ps)%nat ->
    selectedPath obj (imagenPath i)
| selected_gemini v cs i c content parts j :
    getProp obj "predictions" = Ok v -> isArray v = false ->
    getProp obj "candidates" = Ok (JArr cs) ->
    nth_error cs i = Some c ->
    getProp c "content" = Ok content ->
    getProp content "parts" = Ok (JArr parts) -> (j < List.length parts)%nat ->
    selectedPath obj (geminiPath i j).

(** A prediction the first pass of the Imagen normalizer goes past: it
    has no [raiFilteredReason], or one that is a string without the
    sentence of a full block. *)
Definition passedOver (prediction : value) : Prop :=
  exists reason,
    getProp prediction "raiFilteredReason" = Ok reason /\
    (truthy reason = false \/
     exists text, reason = JStr text /\ includes text allFilteredMessage = false).

(** A fully filtered record between two predictions that carry an
    image. *)
Definition filteredAmongImages : value :=
  JObj [("predictions",
         JArr [JObj [("bytesBase64Encoded", JStr "QQ==");
                     ("mimeType", JStr "image/png")];
               JObj [("raiFilteredReason",
                      JStr "Unable to show generated images. All images were filtered out because they violated Google's Responsible AI practices.")];
               JObj [("bytesBase64Encoded", JStr "QUI=");
                     ("mimeType", JStr "image/png")]])].


(* ================================================================== *)
(** ** Further notions for the properties of the whole code *)

(** No [null] anywhere in a value. *)
Fixpoint nullFree (v : value) : bool :=
  match v with
  | JNull => false
  | JArr xs => forallb nullFree xs
  | JObj fs => forallb (fun kv => nullFree (snd kv)) fs
  | _ => true
  end.

Definition isNull (v : value) : bool :=
  match v with JNull => true | _ => false end.

(** Every path of [paths] is a binary file of [fs]. *)
Definition binaryFiles (fs : fileSystem) (paths : list string) : Prop :=
  forall p, In p paths ->
            exists bytes, readFile (files fs) p = Some (Bytes bytes).

(** The names [generateImagesWithImagen] gives to a request and to its
    two JSON artifacts. *)
Definition imagenRequestId (world : World) : string :=
  "imagen_" ++ timestampToString (now world).

Definition imagenRequestName (node : Platform) (world : World)
    (options : imagenOptions) : string :=
  path_join node (imagenJsonDir options) (imagenRequestId world ++ "_request.json").

Definition imagenResponseName (node : Platform) (world : World)
    (options : imagenOptions) : string :=
  path_join node (imagenJsonDir options) (imagenRequestId world ++ "_response.json").

(** A result with a boolean [success], as the entry point reads it. *)
Definition reportsSuccess (v : value) : Prop :=
  exists b, getProp v "success" = Ok (JBool b).

(** The extension [generateImagesWithImagen] gives to the file of a
    prediction in the direct format, from its [mimeType]:
    [(mimeType || 'image/png').split('/')[1] || 'png']. *)
Inductive directExtension : value -> string -> Prop :=
| direct_default mimeType :
    truthy mimeType = false -> directExtension mimeType "png"
| direct_no_slash type :
    type <> "" -> lacks "/" type = true -> directExtension (JStr type) "png"
| direct_no_subtype type :
    lacks "/" type = true -> directExtension (JStr (type ++ "/")) "png"
| direct_subtype type subtype :
    lacks "/" type = true -> lacks "/" subtype = true -> subtype <> "" ->
    directExtension (JStr (type ++ "/" ++ subtype)) subtype.

Definition directName (node : Platform) (requestId outputDir : string)
    (i : nat) (ext : string) : string :=
  path_join node outputDir (requestId ++ "_" ++ natToString i ++ "." ++ ext).

Definition directJpeg : value :=
  JObj [("bytesBase64Encoded", JStr "QQ=="); ("mimeType", JStr "image/jpeg")].

(** A response with status 400 whose body is the error of the safety
    filter, and a world that answers with it. *)
Definition refusal : Response :=
  {| resp_ok := false; resp_status := 400;
     resp_json :=
       Ok (JObj [("error",
                  JObj [("message",
                         JStr "The prompt was blocked: safety filter threshold prohibited this request.");
                        ("status", JStr "INVALID_ARGUMENT")])]);
     resp_text := Ok "Bad Request";
     resp_text_after_json := Throw (TypeError "body used already");
     resp_json_after_text := Throw (TypeError "body used already") |}.

Definition worldRefusing : World :=
  {| now := 1700000000000%N; isoTime := "2023-11-14T22:13:20.000Z";
     debugFlag := false;
     saveConfigResult := Ok tt;
     accessToken := Ok "token";
     proxyAgent := None;
     env_SYSTEM_PROXY := None;
     env_GEMINI_API_DOMAIN := None;
     firstFetch := Ok refusal;
     retryFetch := Throw (SystemError (Some "ETIMEDOUT") "timeout") |}.

(** The extension [processGeminiResponse] gives to the file of an inline
    part, from its [mimeType]: [(mimeType || 'image/png').split("/")[1]],
    spliced into the name as it is. *)
Inductive inlineExtension : value -> string -> Prop :=
| inline_default mimeType :
    truthy mimeType = false -> inlineExtension mimeType "png"
| inline_no_slash type :
    type <> "" -> lacks "/" type = true ->
    inlineExtension (JStr type) "undefined"
| inline_subtype type subtype :
    lacks "/" type = true -> lacks "/" subtype = true ->
    inlineExtension (JStr (type ++ "/" ++ subtype)) subtype.

(** A part with a payload whose [mimeType] is set and is not a string. *)
Definition unsplittablePart (part : value) : Prop :=
  exists inlineData imageData mimeType,
    getProp part "inlineData" = Ok inlineData /\
    truthy inlineData = true /\
    getProp inlineData "data" = Ok imageData /\ truthy imageData = true /\
    getProp inlineData "mimeType" = Ok mimeType /\ truthy mimeType = true /\
    forall s, mimeType <> JStr s.


Definition inlineNoSlash : value :=
  JObj [("inlineData", JObj [("mimeType", JStr "png"); ("data", JStr "QQ==")])].

Definition inlineNumericType : value :=
  JObj [("inlineData", JObj [("mimeType", JNum 7%Q); ("data", JStr "QQ==")])].

Definition imageThenUnsplittable : value :=
  JObj [("candidates",
         JArr [JObj [("content",
                      JObj [("parts",
                             JArr [inlinePng; inlineNumericType; inlineJpeg])])]])].

(** The part [generateImagesWithGemini] makes of the reference image at
    [imagePath], read from [fs]. *)
Definition referencePart (node : Platform) (fs : fileSystem)
    (imagePath : string) : value :=
  JObj [("inline_data",
         JObj [("mime_type", JStr (getMimeType node imagePath));
               ("data",
                JStr match readFile (files fs) imagePath with
                     | Some (Bytes b) => base64Encode b
                     | Some (Text t) => base64Encode (list_ascii_of_string t)
                     | None => ""
                     end)])].

(** The parts of the request: the prompt, then the reference images. *)
Definition requestParts (node : Platform) (options : geminiOptions)
    (fs : fileSystem) : list value :=
  JObj [("text", JStr (geminiPrompt options))]
  :: map (referencePart node fs) (referenceImages options).

(** The names [generateImagesWithGemini] gives to its JSON artifacts. *)
Definition geminiRequestName (node : Platform) (world : World)
    (options : geminiOptions) : string :=
  path_join node (geminiJsonDir options)
    (geminiRequestId node world options ++ "_request.json").

Definition geminiErrorName (node : Platform) (world : World)
    (options : geminiOptions) : string :=
  path_join node (geminiJsonDir options)
    (geminiRequestId node world options ++ "_error.json").

(** The files of [fs] are all in [fs'], which may hold newer ones: what
    lies between the two wrote files and removed none. *)
Definition keepsFiles (fs fs' : fileSystem) : Prop :=
  exists added, files fs' = added ++ files fs.

(** A reference image of 101 bytes, whose base64 text is longer than the
    masker's threshold. *)
Definition longImage : list ascii :=
  list_ascii_of_string longString.

Definition referenceOptions : geminiOptions :=
  {| geminiKey := "key"; geminiPrompt := "a cat";
     referenceImages := ["in.png"];
     geminiOutputDir := "./images"; geminiJsonDir := "./output" |}.

Definition referenceFs : fileSystem :=
  {| dirs := []; files := [("in.png", Bytes longImage)] |}.

(* ================================================================== *)
(** ** Preferences and proxy settings ([src/config.js], [src/proxy.js],
       [src/auth.js])

    The preference store of [conf] is a JSON file: what [set] writes,
    [get] reads back through [JSON.parse].  Failures of the disk are
    left out.  The environment is that of a POSIX host, where the names of
    variables are case-sensitive. *)

(** [process.env]: the variables that are set, each with its text. *)
Definition environment : Type := list (string * string).

Fixpoint getenv (env : environment) (k : string) : option string :=
  match env with
  | [] => None
  | (k', v) :: env' => if String.eqb k' k then Some v else getenv env' k
  end.

(** [delete process.env[k]] *)
Fixpoint unsetenv (env : environment) (k : string) : environment :=
  match env with
  | [] => []
  | (k', v) :: env' =>
      if String.eqb k' k then unsetenv env' k else (k', v) :: unsetenv env' k
  end.

(** [process.env[k] = v] for a string [v] *)
Definition setenv (env : environment) (k v : string) : environment :=
  (k, v) :: unsetenv env k.

(** [process.env[k]] *)
Definition envValue (env : environment) (k : string) : value :=
  match getenv env k with Some s => JStr s | None => JUndef end.

(** The contents of [configStore]. *)
Definition preferences : Type := list (string * value).

(** [configStore.get(k)] *)
Definition configStore_get (store : preferences) (k : string) : value :=
  match lookup k store with Some v => v | None => JUndef end.

(** [configStore.set(k, v)] for a [v] other than [undefined] *)
Definition configStore_set (k : string) (v : value) (store : preferences)
  : preferences :=
  assign k (jsonClone v) store.

Definition getConfig (store : preferences) : value :=
  JObj [("proxySettings", configStore_get store "proxySettings");
        ("lastOutputDir", configStore_get store "lastOutputDir");
        ("lastJsonDir", configStore_get store "lastJsonDir");
        ("defaultApi", configStore_get store "defaultApi");
        ("geminiApiKey", configStore_get store "geminiApiKey")].

Definition isUndefined (v : value) : bool :=
  match v with JUndef => true | _ => false end.

(** [if (config[k]) configStore.set(k, config[k])] *)
Definition saveIfSet (config : value) (k : string) : St preferences unit :=
  do v <- lift (getProp config k);
  if truthy v then modify (configStore_set k v) else ret tt.

Definition saveConfig (config : value) : St preferences unit :=
  do proxySettings <- lift (getProp config "proxySettings");
  do _ <- (if negb (isUndefined proxySettings)
           then modify (configStore_set "proxySettings" proxySettings)
           else ret tt);
  do _ <- saveIfSet config "lastOutputDir";
  do _ <- saveIfSet config "defaultApi";
  do _ <- saveIfSet config "geminiApiKey";
  saveIfSet config "lastJsonDir".

(** The command-line flags the proxy code reads. *)
Record Args : Type := {
  arg_detectProxy : bool;
  arg_noProxy : bool
}.

(** A computation on the store run beside the environment, and one on the
    environment run beside the store. *)
Definition withStore {A} (m : St preferences A)
  : St (environment * preferences) A :=
  fun st => let (r, store') := m (snd st) in (r, (fst st, store')).

Definition withEnv {A} (m : St environment A)
  : St (environment * preferences) A :=
  fun st => let (r, env') := m (fst st) in (r, (env', snd st)).

(** [detectSystemProxy] of [src/proxy.js]; the branch for Windows only
    writes to the console. *)
Definition detectSystemProxy (argv : Args)
  : St (environment * preferences) value :=
  do st <- getState;
  let env := fst st in
  do storedProxySettings <- lift (getProp (getConfig (snd st)) "proxySettings");
  if truthy storedProxySettings && negb (arg_detectProxy argv)
  then ret storedProxySettings
  else
    let httpProxy := orElse (envValue env "HTTP_PROXY") (envValue env "http_proxy") in
    let httpsProxy := orElse (envValue env "HTTPS_PROXY") (envValue env "https_proxy") in
    let noProxy := orElse (envValue env "NO_PROXY") (envValue env "no_proxy") in
    let httpsProxy :=
      if negb (truthy httpsProxy) && truthy httpProxy then httpProxy
      else httpsProxy in
    let proxySettings :=
      JObj [("httpProxy", httpProxy); ("httpsProxy", httpsProxy);
            ("noProxy", noProxy)] in
    do _ <- withStore (saveConfig (JObj [("proxySettings", proxySettings)]));
    ret proxySettings.

(** What the code relies on outside the repository: whether
    [new HttpsProxyAgent(url)] accepts a URL, and the token object that
    [GoogleAuth] obtains for a key file under an environment. *)
Record Host : Type := {
  validUrl : string -> bool;
  authenticate : string -> environment -> outcome value
}.

(** [new HttpsProxyAgent(url)]: the agent, known by its URL. *)
Definition newProxyAgent (host : Host) (url : string) : outcome string :=
  if validUrl host url then Ok url else Throw (TypeError "Invalid URL").

(** [process.env[k] = v] for any [v]: a value that is not a string would
    be converted to one. *)
Definition assignEnv (k : string) (v : value) : St (environment * preferences) unit :=
  match v with
  | JStr s => withEnv (modify (fun env => setenv env k s))
  | _ => lift Unmodelled
  end.

(** The last part of [createProxyAgent]: the agent of the detected
    settings, whose URL is kept in [SYSTEM_PROXY]. *)
Definition createDetectedAgent (host : Host) (argv : Args)
  : St (environment * preferences) (option string) :=
  do detected <- detectSystemProxy argv;
  do httpsProxy <- lift (getProp detected "httpsProxy");
  if truthy httpsProxy then
    do st <- getState;
    do _ <- (if negb (truthy (envValue (fst st) "SYSTEM_PROXY"))
             then assignEnv "SYSTEM_PROXY" httpsProxy
             else ret tt);
    match httpsProxy with
    | JStr url => do agent <- lift (newProxyAgent host url); ret (Some agent)
    | _ => lift Unmodelled
    end
  else ret None.

(** [createProxyAgent] of [src/proxy.js]: [None] is [null]. *)
Definition createProxyAgent (host : Host) (argv : Args)
  : St (environment * preferences) (option string) :=
  if arg_noProxy argv then ret None
  else
    do st <- getState;
    match getenv (fst st) "SYSTEM_PROXY" with
    | Some url =>
        if nonEmpty url
        then do agent <- lift (newProxyAgent host url); ret (Some agent)
        else createDetectedAgent host argv
    | None => createDetectedAgent host argv
    end.

(** [if (original) process.env[k] = original; else delete process.env[k]] *)
Definition restoreEnv (k : string) (original : value)
  : St (environment * preferences) unit :=
  if truthy original then assignEnv k original
  else withEnv (modify (fun env => unsetenv env k)).

(** [getAccessToken] of [src/auth.js]; its [catch] rethrows. *)
Definition getAccessToken (host : Host) (keyFilePath : string) (argv : Args)
  : St (environment * preferences) value :=
  do proxySettings <- detectSystemProxy argv;
  do st <- getState;
  let originalHttpProxy := envValue (fst st) "HTTP_PROXY" in
  let originalHttpsProxy := envValue (fst st) "HTTPS_PROXY" in
  do httpsProxy <- lift (getProp proxySettings "httpsProxy");
  do _ <- (if truthy httpsProxy then
             do _ <- assignEnv "HTTPS_PROXY" httpsProxy;
             do httpProxy <- lift (getProp proxySettings "httpProxy");
             assignEnv "HTTP_PROXY" (orElse httpProxy httpsProxy)
           else if truthy (envValue (fst st) "SYSTEM_PROXY") then
             do _ <- assignEnv "HTTPS_PROXY" (envValue (fst st) "SYSTEM_PROXY");
             assignEnv "HTTP_PROXY" (envValue (fst st) "SYSTEM_PROXY")
           else ret tt);
  do st' <- getState;
  do token <- lift (authenticate host keyFilePath (fst st'));
  do _ <- restoreEnv "HTTPS_PROXY" originalHttpsProxy;
  do _ <- restoreEnv "HTTP_PROXY" originalHttpProxy;
  lift (getProp token "token").

(** The first variable of [names] that is set to a text that is not
    empty. *)
Fixpoint firstSet (env : environment) (names : list string) : option string :=
  match names with
  | [] => None
  | k :: rest =>
      match getenv env k with
      | Some s => if nonEmpty s then Some s else firstSet env rest
      | None => firstSet env rest
      end
  end.

(** A proxy variable as [getAccessToken] leaves it: as it was, and unset
    when it was empty. *)
Definition restored (env : environment) (k : string) : option string :=
  match getenv env k with
  | Some s => if nonEmpty s then Some s else None
  | None => None
  end.

Definition sampleHost : Host :=
  {| validUrl := fun _ => true;
     authenticate := fun _ _ => Ok (JObj [("token", JStr "ya29.token")]) |}.

Definition failingHost : Host :=
  {| validUrl := fun _ => true;
     authenticate := fun _ _ =>
       Throw (SystemError (Some "ENOENT") "no such file or directory, open 'key.json'") |}.

Definition sampleArgs : Args :=
  {| arg_detectProxy := false; arg_noProxy := false |}.

Definition sampleEnv : environment :=
  [("HTTP_PROXY", "http://127.0.0.1:7890"); ("HTTPS_PROXY", "")].

Definition defaultPreferences : preferences :=
  [("proxySettings", JNull); ("lastOutputDir", JStr "./images");
   ("lastJsonDir", JStr "./output"); ("defaultApi", JStr "imagen");
   ("geminiApiKey", JNull)].

(* ================================================================== *)
(** ** The vocabulary of the paths *)

(** The property names of the two response schemas.  None of them names
    a member of a built-in prototype, so a read or a write under one of
    them, or under a run of digits, concerns own properties only. *)
Definition schemaWords : list string :=
  ["predictions"; "bytesBase64Encoded"; "mimeType"; "raiFilteredReason";
   "images"; "candidates"; "content"; "parts"; "inlineData"; "data";
   "text"; "finishReason"].

Definition schemaSegment (segment : string) : bool :=
  allDigits segment || existsb (String.eqb segment) schemaWords.

(** A path string all of whose segments are schema words or runs of
    digits. *)
Definition schemaPath (path : string) : bool :=
  forallb schemaSegment (segmentsOf path).

(* ================================================================== *)
(** * Properties *)

(** ** Worked examples *)

Example getValueAtPath_spec_example1 :
  getValueAtPath (JObj [("a", JArr [JObj [("b", JNum 1%Q)]])]) "a[0].b" = Ok (JNum 1%Q).
Proof. reflexivity. Qed.

Example getValueAtPath_spec_example2 :
  getValueAtPath (JObj []) "a[0].b" = Ok JUndef.
Proof. reflexivity. Qed.

Example setValueAtPath_spec_example1 :
  setValueAtPath (JObj [("a", JArr [JObj []])]) "a[0].c" (JNum 5%Q)
  = Ok (JObj [("a", JArr [JObj [("c", JNum 5)]])]).
Proof. reflexivity. Qed.

Example setValueAtPath_spec_example2 :
  setValueAtPath (JObj []) "a[0].c" (JNum 5%Q) = Ok (JObj []).
Proof. reflexivity. Qed.

Example maskBase64Content_imagen :
  maskBase64Content
    (JObj [("predictions", JArr [JObj [("bytesBase64Encoded", JStr longString)];
                                 JObj [("bytesBase64Encoded", JStr "QQ==")]])])
  = Ok (JObj [("predictions",
               JArr [JObj [("bytesBase64Encoded", JStr "[BASE64_DATA_MASKED: ~0 KB]")];
                     JObj [("bytesBase64Encoded", JStr "QQ==")]])]).
Proof. vm_compute. reflexivity. Qed.

Example maskBase64Content_gemini :
  maskBase64Content
    (JObj [("candidates",
            JArr [JObj [("content",
                         JObj [("parts",
                                JArr [JObj [("text", JStr "hi")];
                                      JObj [("inlineData",
                                             JObj [("mimeType", JStr "image/png");
                                                   ("data", JStr longString)])]])])]])])
  = Ok (JObj [("candidates",
            JArr [JObj [("content",
                         JObj [("parts",
                                JArr [JObj [("text", JStr "hi")];
                                      JObj [("inlineData",
                                             JObj [("mimeType", JStr "image/png");
                                                   ("data", JStr "[BASE64_DATA_MASKED: ~0 KB]")])]])])]])]).
Proof. vm_compute. reflexivity. Qed.

Example approxKB_1366 : approxKB 1366 = 1%Z.
Proof. reflexivity. Qed.

Example generateImagesWithImagen_partly_filtered :
  fst (generateImagesWithImagen samplePlatform (worldReturning partlyFilteredResponse)
         sampleImagenOptions emptyFs)
  = Ok (JObj [("success", JBool true);
              ("outputDir", JStr "./images");
              ("images", JArr [JStr "./images/imagen_1700000000000_1.png"]);
              ("generated", numOfNat 1);
              ("blocked", numOfNat 2)]).
Proof. vm_compute. reflexivity. Qed.

(* ------------------------------------------------------------------ *)
(** ** Decimal index strings *)

Lemma string_of_uint_digits (d : uint) :
  allDigits (NilEmpty.string_of_uint d) = true.
Proof.
  induction d; simpl; auto.
Qed.

Lemma natToString_digits (n : nat) : allDigits (natToString n) = true.
Proof. apply string_of_uint_digits. Qed.

Lemma natToString_nonempty (n : nat) :
  exists c s, natToString n = String c s.
Proof.
  unfold natToString.
  assert (H : Nat.to_uint n <> Nil).
  { rewrite <- (Unsigned.of_to n) at 1. rewrite Unsigned.to_of.
    apply DecimalFacts.unorm_nonnil. }
  destruct (Nat.to_uint n); try congruence; simpl; eauto.
Qed.

Lemma parseIndex_natToString (n : nat) : parseIndex (natToString n) = Some n.
Proof.
  unfold parseIndex, natToString.
  rewrite NilEmpty.usu, Unsigned.of_to.
  now rewrite String.eqb_refl.
Qed.

Lemma parseIndex_sound (k : string) (n : nat) :
  parseIndex k = Some n -> k = natToString n.
Proof.
  unfold parseIndex.
  destruct (NilEmpty.uint_of_string k) as [d|]; try discriminate.
  destruct (String.eqb_spec (natToString (Nat.of_uint d)) k); try discriminate.
  intros [= <-]. now symmetry.
Qed.

Lemma natToString_inj (n m : nat) : natToString n = natToString m -> n = m.
Proof.
  intros H.
  assert (E : parseIndex (natToString n) = parseIndex (natToString m))
    by now rewrite H.
  rewrite !parseIndex_natToString in E. congruence.
Qed.

Lemma takeDigits_app (d r : string) (c : ascii) :
  allDigits d = true -> isDigit c = false ->
  takeDigits (d ++ String c r) = d /\ dropDigits (d ++ String c r) = String c r.
Proof.
  intros Hd Hc. induction d as [|a d IH]; simpl in *.
  - now rewrite Hc.
  - apply andb_prop in Hd as [Ha Hd]. rewrite Ha.
    destruct (IH Hd) as [-> ->]. auto.
Qed.

Lemma replaceBrackets_skip (d r : string) (k : nat) :
  replaceBrackets (String.length d + k) (d ++ r) = replaceBrackets k r.
Proof.
  induction d as [|a d IH]; simpl; auto.
Qed.

(** A bracketed index is rewritten to a dot and the index. *)
Lemma replaceBrackets_index (d r : string) :
  allDigits d = true -> d <> EmptyString ->
  replaceBrackets 0 (String "[" (d ++ String "]" r))
  = String "." (d ++ replaceBrackets 0 r).
Proof.
  intros Hd Hne.
  cbn [replaceBrackets bracketIndex].
  destruct (takeDigits_app d r "]"%char Hd eq_refl) as [-> ->].
  destruct d as [|a d]; [congruence|].
  cbn [append]. f_equal. f_equal.
  cbn [replaceBrackets String.length].
  rewrite <- (replaceBrackets_skip (d ++ "]")%string r 0).
  f_equal; clear; induction d; simpl; congruence.
Qed.

Lemma append_empty_r (s : string) : (s ++ "")%string = s.
Proof. induction s; simpl; congruence. Qed.

Lemma allDigits_lacks_dot (d : string) :
  allDigits d = true -> lacks "." d = true.
Proof.
  induction d as [|a d IH]; simpl; auto.
  intros H. apply andb_prop in H as [Ha Hd]. rewrite IH by assumption.
  destruct (Ascii.eqb_spec a "."%char) as [->|]; [discriminate|reflexivity].
Qed.

Lemma replaceBrackets_plain (pre s : string) :
  lacks "[" pre = true ->
  replaceBrackets 0 (pre ++ s) = (pre ++ replaceBrackets 0 s)%string.
Proof.
  induction pre as [|a pre IH]; intros H; [reflexivity|].
  simpl in H. apply andb_prop in H as [Ha Hp].
  change (String a pre ++ s)%string with (String a (pre ++ s)).
  cbn [replaceBrackets bracketIndex].
  destruct a as [[] [] [] [] [] [] [] []]; try discriminate Ha;
    cbn [append]; now rewrite IH.
Qed.

Lemma splitDot_plain (pre s : string) :
  lacks "." pre = true ->
  splitDot (pre ++ s) = ((pre ++ fst (splitDot s))%string, snd (splitDot s)).
Proof.
  induction pre as [|a pre IH]; intros H.
  - simpl. now destruct (splitDot s).
  - simpl in H. apply andb_prop in H as [Ha Hp].
    change (String a pre ++ s)%string with (String a (pre ++ s)).
    unfold splitDot in *. cbn [splitOn]. rewrite IH by assumption.
    destruct (Ascii.eqb a "."); [discriminate|reflexivity].
Qed.

Lemma splitDot_dot (s : string) :
  splitDot (String "." s) = (EmptyString, fst (splitDot s) :: snd (splitDot s)).
Proof.
  unfold splitDot. cbn [splitOn]. now destruct (splitOn "." s).
Qed.

(** The segments of [pre[d]post] when [pre] and [post] hold no bracket. *)
Lemma replaceBrackets_bracketed (pre d post : string) :
  lacks "[" pre = true -> allDigits d = true -> d <> EmptyString ->
  replaceBrackets 0 (pre ++ String "[" (d ++ String "]" post))
  = (pre ++ String "." (d ++ replaceBrackets 0 post))%string.
Proof.
  intros. now rewrite replaceBrackets_plain, replaceBrackets_index.
Qed.

Lemma splitDot_segment (seg rest : string) :
  lacks "." seg = true ->
  splitDot (seg ++ String "." rest)
  = (seg, fst (splitDot rest) :: snd (splitDot rest)).
Proof.
  intros. rewrite splitDot_plain, splitDot_dot by assumption.
  cbn [fst snd]. now rewrite append_empty_r.
Qed.

Lemma natToString_nonempty' (n : nat) : natToString n <> EmptyString.
Proof. destruct (natToString_nonempty n) as (c & s & ->). discriminate. Qed.

Lemma pathSegments_imagenPath (i : nat) :
  pathSegments (imagenPath i)
  = ("predictions", [natToString i; "bytesBase64Encoded"]).
Proof.
  unfold pathSegments, imagenPath.
  pose proof (natToString_digits i) as Hd.
  pose proof (natToString_nonempty' i) as Hne.
  set (d := natToString i) in *. clearbody d.
  change ("predictions[" ++ d ++ "].bytesBase64Encoded")%string
    with ("predictions" ++ String "[" (d ++ String "]" ".bytesBase64Encoded"))%string.
  rewrite replaceBrackets_bracketed by (assumption || reflexivity).
  change (replaceBrackets 0 ".bytesBase64Encoded") with ".bytesBase64Encoded".
  rewrite splitDot_segment by reflexivity.
  change (d ++ ".bytesBase64Encoded")%string
    with (d ++ String "." "bytesBase64Encoded")%string.
  rewrite splitDot_segment by now apply allDigits_lacks_dot.
  reflexivity.
Qed.

Lemma pathSegments_geminiPath (i j : nat) :
  pathSegments (geminiPath i j)
  = ("candidates",
     [natToString i; "content"; "parts"; natToString j; "inlineData"; "data"]).
Proof.
  unfold pathSegments, geminiPath.
  pose proof (natToString_digits i) as Hdi.
  pose proof (natToString_digits j) as Hdj.
  pose proof (natToString_nonempty' i) as Hni.
  pose proof (natToString_nonempty' j) as Hnj.
  set (di := natToString i) in *. set (dj := natToString j) in *.
  clearbody di dj.
  change ("candidates[" ++ di ++ "].content.parts[" ++ dj ++ "].inlineData.data")%string
    with ("candidates" ++ String "[" (di ++ String "]"
            (".content.parts" ++ String "[" (dj ++ String "]" ".inlineData.data"))))%string.
  rewrite replaceBrackets_bracketed by (assumption || reflexivity).
  rewrite replaceBrackets_bracketed by (assumption || reflexivity).
  change (replaceBrackets 0 ".inlineData.data") with ".inlineData.data".
  rewrite splitDot_segment by reflexivity.
  change (di ++ ".content.parts" ++ String "." (dj ++ ".inlineData.data"))%string
    with (di ++ String "." ("content" ++ String "." ("parts" ++ String "."
            (dj ++ String "." ("inlineData" ++ String "." "data")))))%string.
  rewrite splitDot_segment by now apply allDigits_lacks_dot.
  rewrite !splitDot_segment by (reflexivity || now apply allDigits_lacks_dot).
  reflexivity.
Qed.

(* ------------------------------------------------------------------ *)
(** ** Reading after writing *)

Lemma lookup_assign_same k x fs : lookup k (assign k x fs) = Some x.
Proof.
  induction fs as [|[k' v'] fs IH]; simpl.
  - now rewrite String.eqb_refl.
  - destruct (String.eqb k k') eqn:E; simpl; rewrite ?String.eqb_refl, ?E; auto.
Qed.

Lemma lookup_assign_other k b x fs :
  k <> b -> lookup b (assign k x fs) = lookup b fs.
Proof.
  intros Hkb. induction fs as [|[k' v'] fs IH]; simpl.
  - destruct (String.eqb_spec b k); congruence.
  - destruct (String.eqb_spec k k') as [->|Hk]; simpl.
    + destruct (String.eqb_spec b k'); congruence.
    + destruct (String.eqb_spec b k'); auto.
Qed.

Lemma writeAt_length i x xs :
  (i < List.length xs)%nat -> List.length (writeAt i x xs) = List.length xs.
Proof.
  revert xs; induction i as [|i IH]; intros [|y xs] H; simpl in *; try lia.
  rewrite IH; lia.
Qed.

Lemma nth_writeAt_same i x xs : nth i (writeAt i x xs) JUndef = x.
Proof.
  revert xs; induction i as [|i IH]; intros [|y xs]; simpl; auto.
Qed.

Lemma nth_writeAt_other i j x xs :
  i <> j -> (i < List.length xs)%nat ->
  nth j (writeAt i x xs) JUndef = nth j xs JUndef.
Proof.
  revert j xs; induction i as [|i IH]; intros [|j] [|y xs] Hij H;
    simpl in *; try lia; auto.
  apply IH; lia.
Qed.

Lemma nth_defined_lt i (xs : list value) :
  nth i xs JUndef <> JUndef -> (i < List.length xs)%nat.
Proof.
  intros H. destruct (Nat.lt_ge_cases i (List.length xs)); auto.
  now rewrite nth_overflow in H.
Qed.

Lemma parseIndex_length : parseIndex "length" = None.
Proof. reflexivity. Qed.

Lemma getProp_primitive c k v :
  isPrimitive c = true -> getProp c k = Ok v -> v = JUndef \/ isPrimitive v = true.
Proof.
  destruct c; try discriminate; simpl; intros _.
  - intros [= <-]; auto.
  - intros [= <-]; auto.
  - destruct (String.eqb k "length"); [intros [= <-]; auto|].
    destruct (parseIndex k); [|intros [= <-]; auto].
    destruct (nthChar n s); intros [= <-]; auto.
Qed.

(** Writing below a primitive never succeeds where reading finds a value. *)
Lemma setSegments_primitive rest : forall c k x v c',
  isPrimitive c = true ->
  getSegments c (k :: rest) = Ok v -> v <> JUndef ->
  setSegments c k rest x = Ok c' -> False.
Proof.
  induction rest as [|k' rest IH]; intros c k x v c' Hp Hg Hv Hs.
  - destruct c; discriminate.
  - cbn [setSegments getSegments] in Hg, Hs.
    assert (Hg' : (let? next := getProp c k in getSegments next (k' :: rest)) = Ok v)
      by (destruct c; try discriminate; exact Hg).
    clear Hg. destruct (getProp c k) as [next| |] eqn:E; try discriminate.
    cbn [obind] in Hg', Hs.
    destruct (getProp_primitive _ _ Hp E) as [->|Hn].
    + simpl in Hg'. congruence.
    + destruct next; try discriminate;
        (destruct (setSegments _ k' rest x) as [n'| |] eqn:E'; try discriminate;
         exact (IH _ _ _ _ _ Hn Hg' Hv E')).
Qed.

Lemma getSegments_container rest c k x v c' :
  getSegments c (k :: rest) = Ok v -> v <> JUndef ->
  setSegments c k rest x = Ok c' -> isContainer c = true.
Proof.
  intros Hg Hv Hs. destruct c; auto; exfalso.
  - simpl in Hg. congruence.
  - destruct rest; simpl in Hs; discriminate.
  - eapply (@setSegments_primitive rest (JBool b)); eauto.
  - eapply (@setSegments_primitive rest (JNum q)); eauto.
  - eapply (@setSegments_primitive rest (JStr s)); eauto.
Qed.

Lemma getSegments_cons c k rest :
  c <> JUndef ->
  getSegments c (k :: rest) = (let? next := getProp c k in getSegments next rest).
Proof. destruct c; try reflexivity. congruence. Qed.

Lemma isContainer_defined c : isContainer c = true -> c <> JUndef.
Proof. destruct c; discriminate || congruence. Qed.

Lemma getProp_setProp_same c k x c' :
  setProp c k x = Ok c' -> getProp c' k = Ok x /\ isContainer c' = true.
Proof.
  destruct c; try discriminate; simpl.
  - destruct (parseIndex k) as [i|] eqn:E; try discriminate.
    intros [= <-]. simpl. rewrite E.
    destruct (String.eqb_spec k "length") as [->|_]; [discriminate|].
    now rewrite nth_writeAt_same.
  - intros [= <-]. simpl. now rewrite lookup_assign_same.
Qed.

Lemma getProp_setProp_other c k b x v c' :
  getProp c k = Ok v -> v <> JUndef -> setProp c k x = Ok c' -> k <> b ->
  getProp c' b = getProp c b.
Proof.
  intros Hg Hv Hs Hkb. destruct c; try discriminate.
  - simpl in Hs. destruct (parseIndex k) as [i|] eqn:E; try discriminate.
    injection Hs as <-. pose proof (parseIndex_sound _ E) as Hk.
    simpl in Hg. destruct (String.eqb_spec k "length") as [->|_];
      [discriminate E|].
    rewrite E in Hg. injection Hg as <-.
    pose proof (nth_defined_lt _ _ Hv) as Hlt.
    simpl. rewrite writeAt_length by assumption.
    destruct (String.eqb b "length"); auto.
    destruct (parseIndex b) as [j|] eqn:Ej; auto.
    f_equal. apply parseIndex_sound in Ej.
    apply nth_writeAt_other; congruence.
  - simpl in Hs. injection Hs as <-. simpl.
    now rewrite lookup_assign_other.
Qed.

Lemma putChild_get_same c k n n' :
  getProp c k = Ok n -> isContainer n = true ->
  getProp (putChild c k n') k = Ok n' /\ isContainer (putChild c k n') = true.
Proof.
  intros Hg Hn. destruct c; simpl in Hg; try discriminate.
  - injection Hg as <-. discriminate.
  - injection Hg as <-. discriminate.
  - destruct (String.eqb k "length"); [injection Hg as <-; discriminate|].
    destruct (parseIndex k); [|injection Hg as <-; discriminate].
    destruct (nthChar n0 s); injection Hg as <-; discriminate.
  - destruct (String.eqb_spec k "length") as [->|Hk];
      [injection Hg as <-; discriminate|].
    destruct (parseIndex k) as [i|] eqn:E; [|injection Hg as <-; discriminate].
    injection Hg as <-.
    assert (Hlt : (i < List.length xs)%nat).
    { apply nth_defined_lt. intros H. now rewrite H in Hn. }
    simpl. rewrite E. apply Nat.ltb_lt in Hlt. rewrite Hlt. simpl. rewrite E.
    destruct (String.eqb_spec k "length"); [contradiction|].
    now rewrite nth_writeAt_same.
  - destruct (lookup k fields) eqn:E; [|injection Hg as <-; discriminate].
    simpl. rewrite E. simpl. now rewrite lookup_assign_same.
Qed.

Lemma putChild_get_other c k b n' :
  k <> b -> getProp (putChild c k n') b = getProp c b.
Proof.
  intros Hkb. destruct c; try reflexivity; simpl.
  - destruct (parseIndex k) as [i|] eqn:E; auto.
    destruct (Nat.ltb_spec i (List.length xs)); auto.
    simpl. rewrite writeAt_length by assumption.
    destruct (String.eqb b "length"); auto.
    destruct (parseIndex b) as [j|] eqn:Ej; auto.
    f_equal. apply parseIndex_sound in E, Ej.
    apply nth_writeAt_other; congruence.
  - destruct (lookup k fields); auto. simpl.
    now rewrite lookup_assign_other.
Qed.

Lemma diverge_sym p : forall q, diverge p q = diverge q p.
Proof.
  induction p as [|a p IH]; intros [|b q]; simpl; auto.
  rewrite (String.eqb_sym b a). now rewrite IH.
Qed.

Lemma getSegments_next c k k' rest v :
  getSegments c (k :: k' :: rest) = Ok v -> v <> JUndef ->
  exists next, getProp c k = Ok next /\ next <> JUndef /\
               getSegments next (k' :: rest) = Ok v.
Proof.
  intros Hg Hv. destruct c; simpl in Hg; try congruence;
    match type of Hg with
    | obind ?g _ = _ => destruct g as [next| |] eqn:E; try discriminate
    | _ => idtac
    end;
    try (exists next; repeat split; auto; intros ->; simpl in Hg; congruence).
  all: try discriminate.
Qed.

(** A write at a path where a value is found is read back at that path. *)
Lemma setSegments_read_same rest : forall c k x v c',
  getSegments c (k :: rest) = Ok v -> v <> JUndef ->
  setSegments c k rest x = Ok c' ->
  getSegments c' (k :: rest) = Ok x /\ isContainer c' = true.
Proof.
  induction rest as [|k' rest IH]; intros c k x v c' Hg Hv Hs.
  - simpl in Hs. destruct (getProp_setProp_same _ _ _ Hs) as [H1 H2].
    split; auto. rewrite getSegments_cons by now apply isContainer_defined.
    now rewrite H1.
  - destruct (getSegments_next _ _ _ _ Hg Hv) as (next & En & Hne & Hg').
    cbn [setSegments] in Hs. rewrite En in Hs. cbn [obind] in Hs.
    assert (Hs' : (let? next' := setSegments next k' rest x in
                   Ok (putChild c k next')) = Ok c')
      by (destruct next; auto; congruence).
    clear Hs. destruct (setSegments next k' rest x) as [next'| |] eqn:Es;
      try discriminate.
    injection Hs' as <-.
    pose proof (getSegments_container _ _ _ _ Hg' Hv Es) as Hc.
    destruct (putChild_get_same _ _ next' En Hc) as [H1 H2].
    split; auto. rewrite getSegments_cons by now apply isContainer_defined.
    rewrite H1. cbn [obind]. eapply IH; eauto.
Qed.

(** ... and leaves what is read along any diverging path as it was. *)
Lemma setSegments_read_other rest : forall c k x v c' q,
  getSegments c (k :: rest) = Ok v -> v <> JUndef ->
  setSegments c k rest x = Ok c' ->
  diverge (k :: rest) q = true ->
  getSegments c' q = getSegments c q.
Proof.
  induction rest as [|k' rest IH]; intros c k x v c' q Hg Hv Hs Hd.
  - destruct q as [|b q]; [discriminate|]. simpl in Hd.
    destruct (String.eqb_spec k b) as [->|Hkb];
      [destruct q; discriminate|].
    pose proof (getSegments_container _ _ _ _ Hg Hv Hs) as Hc.
    destruct (getProp_setProp_same _ _ _ Hs) as [_ Hc'].
    rewrite !getSegments_cons by now apply isContainer_defined.
    rewrite getSegments_cons in Hg by now apply isContainer_defined.
    destruct (getProp c k) as [n| |] eqn:En; try discriminate.
    simpl in Hg. injection Hg as ->.
    now rewrite (getProp_setProp_other _ _ En Hv Hs Hkb).
  - destruct q as [|b q]; [discriminate|].
    pose proof (getSegments_container _ _ _ _ Hg Hv Hs) as Hc.
    destruct (setSegments_read_same _ _ _ _ Hg Hv Hs) as [_ Hc'].
    destruct (getSegments_next _ _ _ _ Hg Hv) as (next & En & Hne & Hg').
    cbn [setSegments] in Hs. rewrite En in Hs. cbn [obind] in Hs.
    assert (Hs' : (let? next' := setSegments next k' rest x in
                   Ok (putChild c k next')) = Ok c')
      by (destruct next; auto; congruence).
    clear Hs. destruct (setSegments next k' rest x) as [next'| |] eqn:Es;
      try discriminate.
    injection Hs' as <-.
    rewrite !getSegments_cons by now apply isContainer_defined.
    cbn [diverge] in Hd.
    destruct (String.eqb_spec k b) as [<-|Hkb].
    + pose proof (getSegments_container _ _ _ _ Hg' Hv Es) as Hcn.
      destruct (putChild_get_same _ _ next' En Hcn) as [H1 _].
      rewrite H1, En. cbn [obind]. eapply IH; eauto.
    + now rewrite putChild_get_other.
Qed.

(* ------------------------------------------------------------------ *)
(** ** The masking loop *)

Lemma getValueAtPath_segments obj path :
  getValueAtPath obj path = getSegments obj (segmentsOf path).
Proof.
  unfold getValueAtPath, segmentsOf. now destruct (pathSegments path).
Qed.

Lemma maskAtPath_same m p m' v :
  getValueAtPath m p = Ok v -> maskAtPath m p = Ok m' ->
  getValueAtPath m' p = Ok (maskOf v).
Proof.
  unfold maskAtPath. intros Hg. rewrite Hg. cbn [obind].
  destruct v; try (intros [= <-]; exact Hg).
  unfold maskOf. destruct (100 <? String.length s)%nat;
    [|intros [= <-]; exact Hg].
  revert Hg. unfold getValueAtPath, setValueAtPath.
  destruct (pathSegments p) as [k rest]. intros Hg Hs.
  eapply setSegments_read_same; eauto. discriminate.
Qed.

Lemma maskAtPath_other m p m' q :
  maskAtPath m p = Ok m' ->
  diverge (segmentsOf p) (segmentsOf q) = true ->
  getValueAtPath m' q = getValueAtPath m q.
Proof.
  unfold maskAtPath. destruct (getValueAtPath m p) as [v| |] eqn:Hg;
    try discriminate. cbn [obind].
  destruct v; try (intros [= <-]; reflexivity).
  destruct (100 <? String.length s)%nat; [|intros [= <-]; reflexivity].
  rewrite !(getValueAtPath_segments _ q).
  revert Hg. unfold getValueAtPath, setValueAtPath, segmentsOf at 1.
  destruct (pathSegments p) as [k rest]. intros Hg Hs Hd.
  eapply setSegments_read_other; eauto. discriminate.
Qed.

Lemma maskPaths_other ps : forall m m' q,
  maskPaths m ps = Ok m' ->
  (forall p, In p ps -> diverge (segmentsOf p) (segmentsOf q) = true) ->
  getValueAtPath m' q = getValueAtPath m q.
Proof.
  induction ps as [|p ps IH]; intros m m' q Hm Hd; simpl in Hm.
  - now injection Hm as <-.
  - destruct (maskAtPath m p) as [m1| |] eqn:E1; try discriminate.
    cbn [obind] in Hm.
    rewrite (IH _ _ q Hm) by (intros; apply Hd; now right).
    eapply maskAtPath_other; eauto. apply Hd. now left.
Qed.

Lemma maskPaths_same ps : forall m m' p v,
  maskPaths m ps = Ok m' -> ForallOrdPairs divergent ps -> In p ps ->
  getValueAtPath m p = Ok v ->
  getValueAtPath m' p = Ok (maskOf v).
Proof.
  induction ps as [|p0 ps IH]; intros m m' p v Hm Hpw Hin Hg; [easy|].
  simpl in Hm. destruct (maskAtPath m p0) as [m1| |] eqn:E1; try discriminate.
  cbn [obind] in Hm. inversion Hpw as [|? ? Hhead Htail]; subst.
  rewrite Forall_forall in Hhead.
  destruct (in_dec string_dec p ps) as [Hin'|Hnot].
  - eapply IH; eauto.
    rewrite <- Hg. eapply maskAtPath_other; eauto. now apply Hhead.
  - destruct Hin as [->|]; [|contradiction].
    rewrite (@maskPaths_other _ _ _ _ Hm).
    + eapply maskAtPath_same; eauto.
    + intros q Hq. unfold divergent in Hhead.
      rewrite diverge_sym. now apply Hhead.
Qed.

(* ------------------------------------------------------------------ *)
(** ** The candidate paths part ways pairwise *)

Lemma divergent_imagenPath i j : i <> j -> divergent (imagenPath i) (imagenPath j).
Proof.
  intros Hij. unfold divergent, segmentsOf.
  rewrite !pathSegments_imagenPath. cbn [diverge].
  change (String.eqb "predictions" "predictions") with true. cbv iota.
  destruct (String.eqb_spec (natToString i) (natToString j)) as [E|]; auto.
  now apply natToString_inj in E.
Qed.

Lemma divergent_geminiPath i j i' j' :
  (i, j) <> (i', j') -> divergent (geminiPath i j) (geminiPath i' j').
Proof.
  intros Hij. unfold divergent, segmentsOf.
  rewrite !pathSegments_geminiPath. cbn [diverge].
  change (String.eqb "candidates" "candidates") with true. cbv iota.
  destruct (String.eqb_spec (natToString i) (natToString i')) as [Ei|]; auto.
  change (String.eqb "content" "content") with true.
  change (String.eqb "parts" "parts") with true. cbv iota.
  destruct (String.eqb_spec (natToString j) (natToString j')) as [Ej|]; auto.
  apply natToString_inj in Ei, Ej. congruence.
Qed.

Lemma divergent_map_NoDup (A : Type) (f : A -> string) (l : list A) :
  NoDup l -> (forall a b, a <> b -> divergent (f a) (f b)) ->
  ForallOrdPairs divergent (map f l).
Proof.
  intros Hnd Hf. induction Hnd as [|a l Hnot Hnd IH]; simpl; constructor; auto.
  apply Forall_forall. intros q Hq. apply in_map_iff in Hq as (b & <- & Hb).
  apply Hf. intros ->. contradiction.
Qed.

Lemma geminiCandidatePaths_indices i c paths :
  geminiCandidatePaths i c = Ok paths ->
  paths = map geminiPathOf (map (pair i) (seq 0 (partsCount c))).
Proof.
  unfold geminiCandidatePaths, partsCount.
  destruct (getProp c "content") as [content| |]; try discriminate.
  cbn [obind]. destruct (truthy content) eqn:Ht; [|now intros [= <-]].
  destruct (getProp content "parts") as [parts| |]; try discriminate.
  cbn [obind]. rewrite map_map.
  destruct parts; cbn [isArray truthy]; rewrite ?andb_false_r; cbn [andb];
    intros [= <-]; reflexivity.
Qed.

Lemma geminiPathsFrom_indices cs : forall i paths,
  geminiPathsFrom i cs = Ok paths ->
  paths = map geminiPathOf (geminiIndices i cs).
Proof.
  induction cs as [|c cs IH]; intros i paths; simpl.
  - now intros [= <-].
  - destruct (geminiCandidatePaths i c) as [here| |] eqn:Eh; try discriminate.
    cbn [obind].
    destruct (geminiPathsFrom (S i) cs) as [later| |] eqn:El; try discriminate.
    cbn [obind]. intros [= <-].
    rewrite map_app, <- (IH _ _ El).
    now rewrite <- (geminiCandidatePaths_indices _ _ Eh).
Qed.

Lemma geminiIndices_ge cs : forall i a b,
  In (a, b) (geminiIndices i cs) -> (i <= a)%nat.
Proof.
  induction cs as [|c cs IH]; intros i a b; simpl; [easy|].
  rewrite in_app_iff, in_map_iff. intros [(x & [= <- <-] & _)|H]; auto.
  apply IH in H. lia.
Qed.

Lemma geminiIndices_NoDup cs : forall i, NoDup (geminiIndices i cs).
Proof.
  induction cs as [|c cs IH]; intros i; simpl; [constructor|].
  apply NoDup_app.
  - apply NoDup_map_NoDup_ForallPairs; [|apply seq_NoDup].
    intros x y _ _ [= ->]; auto.
  - apply IH.
  - intros [a b] H1 H2. apply in_map_iff in H1 as (x & [= <- <-] & _).
    apply geminiIndices_ge in H2. lia.
Qed.

Lemma geminiIndices_In cs : forall i a b c,
  nth_error cs a = Some c -> (b < partsCount c)%nat ->
  In ((i + a)%nat, b) (geminiIndices i cs).
Proof.
  induction cs as [|c0 cs IH]; intros i a b c Hn Hb; [now destruct a|].
  simpl. apply in_app_iff. destruct a as [|a]; simpl in Hn.
  - injection Hn as ->. left. rewrite Nat.add_0_r.
    apply in_map, in_seq. lia.
  - right. replace (i + S a)%nat with (S i + a)%nat by lia. eapply IH; eauto.
Qed.

Lemma candidatePaths_divergent obj paths :
  candidatePaths obj = Ok paths -> ForallOrdPairs divergent paths.
Proof.
  unfold candidatePaths, findImagenBase64Paths, findGeminiBase64Paths.
  destruct (getProp obj "predictions") as [pr| |]; try discriminate.
  cbn [obind]. destruct (truthy pr && isArray pr) eqn:Ep.
  - destruct pr; try (intros [= <-]; constructor).
    intros [= <-]. apply divergent_map_NoDup; [apply seq_NoDup|].
    apply divergent_imagenPath.
  - destruct (getProp obj "candidates") as [ca| |]; try discriminate.
    cbn [obind]. destruct (truthy ca && isArray ca) eqn:Ec;
      [|intros [= <-]; constructor].
    destruct ca; try (intros [= <-]; constructor).
    intros H. apply geminiPathsFrom_indices in H. subst paths.
    apply divergent_map_NoDup; [apply geminiIndices_NoDup|].
    intros [i j] [i' j'] Hne. now apply divergent_geminiPath.
Qed.

(* ------------------------------------------------------------------ *)
(** ** The deep copy *)

(** On a JSON document the deep copy is the document itself. *)
Lemma jsonClone_isJson (v : value) : isJson v = true -> jsonClone v = v.
Proof.
  induction v as [| | | | |xs IH|fs IH] using value_nested_ind; auto.
  - intros H. cbn [isJson] in H. cbn [jsonClone]. f_equal.
    induction IH as [|x xs Hx _ IHxs]; [reflexivity|].
    cbn [forallb] in H. apply andb_prop in H as [H1 H2].
    cbn [map]. rewrite IHxs by assumption.
    rewrite Hx by assumption. destruct x; try reflexivity. discriminate.
  - intros H. cbn [isJson] in H. cbn [jsonClone]. f_equal.
    induction IH as [|[k x] fs Hx _ IHfs]; [reflexivity|].
    cbn [forallb snd] in H, Hx. apply andb_prop in H as [H1 H2].
    rewrite IHfs by assumption. rewrite Hx by assumption.
    destruct x; try reflexivity. discriminate.
Qed.

Lemma approxKB_exact (len : nat) :
  approxKB len = (3 * Z.of_nat len / 4096)%Z.
Proof.
  unfold approxKB, Qfloor, Qdiv, Qmult, Qinv. cbn [Qnum Qden Pos.mul].
  change (Z.pos (1 * 4 * 1 * 1024)) with 4096%Z.
  f_equal. lia.
Qed.

(* ================================================================== *)
(** * The masker's claims *)


Lemma candidatePaths_imagen obj ps :
  getProp obj "predictions" = Ok (JArr ps) ->
  candidatePaths obj = Ok (map imagenPath (seq 0 (List.length ps))).
Proof.
  intros H. unfold candidatePaths, findImagenBase64Paths. now rewrite H.
Qed.

Lemma candidatePaths_gemini obj v cs paths :
  getProp obj "predictions" = Ok v -> isArray v = false ->
  getProp obj "candidates" = Ok (JArr cs) ->
  candidatePaths obj = Ok paths ->
  paths = map geminiPathOf (geminiIndices 0 cs).
Proof.
  intros Hp Hv Hc. unfold candidatePaths, findGeminiBase64Paths.
  rewrite Hp. cbn [obind]. rewrite Hv, andb_false_r, Hc. cbn.
  apply geminiPathsFrom_indices.
Qed.

Lemma maskBase64Content_loop obj masked paths :
  isJson obj = true -> maskBase64Content obj = Ok masked ->
  candidatePaths obj = Ok paths -> maskPaths obj paths = Ok masked.
Proof.
  intros Hj Hm Hp. unfold maskBase64Content in Hm.
  destruct obj; try discriminate; cbn [truthy typeofObject negb orb] in Hm;
    rewrite ?orb_true_r in Hm;
    try (injection Hm as <-; cbn in Hp; injection Hp as <-; reflexivity).
  all: rewrite jsonClone_isJson, Hp in Hm by assumption; exact Hm.
Qed.

Lemma getProp_named_object q k v :
  getProp q k = Ok v -> v <> JUndef ->
  parseIndex k = None -> k <> "length" ->
  exists fields, q = JObj fields.
Proof.
  intros Hg Hv Hi Hl. destruct q; simpl in Hg; try discriminate;
    try congruence; eauto.
  - destruct (String.eqb_spec k "length"); [contradiction|].
    rewrite Hi in Hg. congruence.
  - destruct (String.eqb_spec k "length"); [contradiction|].
    rewrite Hi in Hg. congruence.
Qed.

(** At a path the discovery collects, a string is kept or replaced by its
    length. *)
Lemma maskBase64Content_at_candidate obj masked paths p s :
  isJson obj = true ->
  candidatePaths obj = Ok paths -> In p paths ->
  getValueAtPath obj p = Ok (JStr s) ->
  maskBase64Content obj = Ok masked ->
  getValueAtPath masked p = Ok (maskOf (JStr s)).
Proof.
  intros Hj Hp Hin Hg Hm.
  pose proof (@maskBase64Content_loop obj masked paths Hj Hm Hp) as Hl.
  pose proof (@candidatePaths_divergent obj paths Hp) as Hd.
  exact (@maskPaths_same paths obj masked p (JStr s) Hl Hd Hin Hg).
Qed.

(** The discovery collects every path of the selected family. *)
Lemma selectedPath_collected obj p paths :
  selectedPath obj p -> candidatePaths obj = Ok paths -> In p paths.
Proof.
  intros [ps i Hp Hi|v cs i c content parts j Hp Hv Hc Hn Hcontent Hparts Hj] Hpaths.
  - rewrite (candidatePaths_imagen _ Hp) in Hpaths. injection Hpaths as <-.
    apply in_map, in_seq. lia.
  - rewrite (candidatePaths_gemini _ Hp Hv Hc Hpaths).
    change (geminiPath i j) with (geminiPathOf (i, j)). apply in_map.
    change i with (0 + i)%nat. eapply geminiIndices_In; [exact Hn|].
    unfold partsCount. rewrite Hcontent.
    destruct (@getProp_named_object content "parts" _ Hparts) as [cf ->];
      [discriminate|reflexivity|discriminate|].
    cbn [truthy]. now rewrite Hparts.
Qed.

Lemma maskBase64Content_paths obj masked :
  isJson obj = true -> maskBase64Content obj = Ok masked ->
  isContainer obj = true ->
  exists paths, candidatePaths obj = Ok paths.
Proof.
  intros Hj Hm Hc. unfold maskBase64Content in Hm.
  destruct obj; try discriminate Hc; cbn [truthy typeofObject negb orb] in Hm;
    rewrite jsonClone_isJson in Hm by assumption;
    (destruct (candidatePaths _) as [paths|e|]; [eauto|discriminate..]).
Qed.

(** C2, as amended.  For every string of length [L] that a JSON response
    holds at a path of the vendor family the masker selects
    ([predictions[i].bytesBase64Encoded] when [predictions] is an array;
    otherwise, when [candidates] is an array,
    [candidates[i].content.parts[j].inlineData.data] with [parts] an
    array), the masked copy holds at that path the very same string when
    [L <= 100], and when [L > 100] exactly
    ["[BASE64_DATA_MASKED: ~<N> KB]"] with [N = floor (3 * L / 4096)], the
    exact value of [floor (L / 4 * 3 / 1024)]. *)
Theorem maskBase64Content_replaces_iff_long :
  forall (obj masked : value) (p s : string),
    isJson obj = true ->
    selectedPath obj p ->
    getValueAtPath obj p = Ok (JStr s) ->
    maskBase64Content obj = Ok masked ->
    getValueAtPath masked p
    = Ok (JStr (if (100 <? String.length s)%nat
                then "[BASE64_DATA_MASKED: ~"
                     ++ natToString (Z.to_nat (3 * Z.of_nat (String.length s) / 4096))
                     ++ " KB]"
                else s)).
Proof.
  intros obj masked p s Hj Hsel Hg Hm.
  assert (Hc : isContainer obj = true).
  { destruct Hsel as [ps i Hp _|v cs i c content parts j _ _ Hp _ _ _ _];
      destruct (@getProp_named_object obj _ _ Hp) as [fields ->];
      try discriminate; reflexivity. }
  destruct (@maskBase64Content_paths obj masked Hj Hm Hc) as [paths Hp].
  rewrite (@maskBase64Content_at_candidate obj masked paths p s Hj Hp
             (@selectedPath_collected obj p paths Hsel Hp) Hg Hm).
  unfold maskOf. destruct (100 <? String.length s)%nat; auto.
  unfold maskedValue. now rewrite approxKB_exact.
Qed.

Lemma maskBase64Content_replaces_iff_long_witness :
  getValueAtPath imagenSampleMasked (imagenPath 0)
  = Ok (JStr "[BASE64_DATA_MASKED: ~0 KB]").
Proof.
  apply (@maskBase64Content_replaces_iff_long imagenSample imagenSampleMasked
           (imagenPath 0) longString).
  - reflexivity.
  - eapply selected_imagen; [reflexivity|]. cbn. lia.
  - reflexivity.
  - vm_compute. reflexivity.
Defined.

(** C2, counterexample.  When the response carries both arrays, the string
    of 101 characters at the recognized path
    [candidates[0].content.parts[0].inlineData.data] is not replaced. *)
Lemma maskBase64Content_long_payload_kept :
  exists masked,
    maskBase64Content bothArrays = Ok masked /\
    getValueAtPath bothArrays (geminiPath 0 0) = Ok (JStr longString) /\
    (100 <? String.length longString)%nat = true /\
    getValueAtPath masked (geminiPath 0 0) = Ok (JStr longString).
Proof.
  eexists. split; [vm_compute; reflexivity|]. repeat split; reflexivity.
Qed.




(** C7.  A [null] among [predictions] or [candidates] makes
    [maskBase64Content] throw. *)
Theorem maskBase64Content_throws_on_null_element :
  maskBase64Content (JObj [("predictions", JArr [JNull])])
  = Throw (TypeError "Cannot read properties of null (reading 'bytesBase64Encoded')")
  /\
  maskBase64Content (JObj [("candidates", JArr [JNull])])
  = Throw (TypeError "Cannot read properties of null (reading 'content')").
Proof. split; vm_compute; reflexivity. Qed.

(** C8.  With a [null] on the way the accessor throws from both [get] and
    [set], although the intermediate segment [b] is missing. *)
Theorem pathAccessor_throws_below_null :
  getValueAtPath (JObj [("a", JNull)]) "a.b.c"
  = Throw (TypeError "Cannot read properties of null (reading 'b')")
  /\
  setValueAtPath (JObj [("a", JNull)]) "a.b.c" (JNum 5%Q)
  = Throw (TypeError "Cannot read properties of null (reading 'b')").
Proof. split; vm_compute; reflexivity. Qed.

(* ================================================================== *)
(** * Artifact writer *)

Lemma sextetOfChar_charOfSextet (x : sextet) :
  sextetOfChar (charOfSextet x) = Some x /\
  Ascii.eqb (charOfSextet x) "=" = false.
Proof.
  destruct x as [[] [] [] [] [] []]; split; vm_compute; reflexivity.
Qed.

Lemma sextetsOf_cons (x : sextet) (s : string) :
  sextetsOf (String (charOfSextet x) s) = x :: sextetsOf s.
Proof.
  destruct (sextetOfChar_charOfSextet x) as [H1 H2].
  cbn [sextetsOf]. now rewrite H2, H1.
Qed.

Lemma group_bytes (a b c : ascii) :
  byte1 (sextet1 a) (sextet2 a b) = a /\
  byte2 (sextet2 a b) (sextet3 b c) = b /\
  byte3 (sextet3 b c) (sextet4 c) = c.
Proof.
  destruct a, b, c. repeat split.
Qed.

(** Decoding what [toString('base64')] wrote gives the bytes back. *)
Lemma base64Decode_encode : forall bytes : list ascii,
  base64Decode (base64Encode bytes) = bytes.
Proof.
  assert (H : forall n bytes, (List.length bytes <= n)%nat ->
                base64Decode (base64Encode bytes) = bytes).
  { unfold base64Decode.
    induction n as [|n IH]; intros [|a [|b [|c rest]]] Hlen;
      try (simpl in Hlen; lia).
    - reflexivity.
    - reflexivity.
    - cbn [base64Encode]. rewrite !sextetsOf_cons. cbn.
      now destruct (group_bytes a zero8 zero8) as (-> & _).
    - cbn [base64Encode]. rewrite !sextetsOf_cons. cbn.
      destruct (group_bytes a b zero8) as (-> & -> & _). reflexivity.
    - cbn [base64Encode]. rewrite !sextetsOf_cons. cbn [bytesOfSextets].
      destruct (group_bytes a b c) as (-> & -> & ->).
      do 3 f_equal. simpl in Hlen. apply IH. lia. }
  intros bytes. now apply (H (List.length bytes)).
Qed.

Lemma readFile_writeFileSync fs path c :
  readFile (files (writeFileSync fs path c)) path = Some c.
Proof. simpl. now rewrite String.eqb_refl. Qed.

(** C9, counterexample.  [Buffer.from] reads the unpadded ["QQ"] as the
    one byte 0x41; what is written re-encodes to ["QQ=="]. *)
Lemma saveFile_roundtrip_fails_unpadded :
  exists fs' bytes,
    saveFile samplePlatform "out/a.png" (JStr "QQ") true emptyFs
    = (Ok "out/a.png", fs') /\
    readFile (files fs') "out/a.png" = Some (Bytes bytes) /\
    base64Encode bytes = "QQ==" /\
    base64Encode bytes <> "QQ".
Proof.
  do 2 eexists. split; [reflexivity|]. split; [reflexivity|].
  split; [reflexivity|discriminate].
Qed.

(** C9, as amended.  For every string that is the padded, standard-alphabet
    base64 text of some bytes, [saveFile] with [isBase64] writes a file
    whose content, read back and encoded again, is that string. *)
Theorem saveFile_base64_roundtrip :
  forall (node : Platform) (fs : fileSystem) (filePath data : string)
         (bytes : list ascii),
    data = base64Encode bytes ->
    exists fs' written,
      saveFile node filePath (JStr data) true fs = (Ok filePath, fs') /\
      readFile (files fs') filePath = Some (Bytes written) /\
      base64Encode written = data.
Proof.
  intros node fs filePath data bytes ->.
  unfold saveFile. cbn [bufferFromBase64].
  do 2 eexists. split; [reflexivity|].
  rewrite readFile_writeFileSync, base64Decode_encode. auto.
Qed.

Lemma saveFile_base64_roundtrip_witness :
  exists fs' written,
    saveFile samplePlatform "out/a.png" (JStr "aGVsbG8gd29ybGQ=") true emptyFs
    = (Ok "out/a.png", fs') /\
    readFile (files fs') "out/a.png" = Some (Bytes written) /\
    base64Encode written = "aGVsbG8gd29ybGQ=".
Proof.
  apply (@saveFile_base64_roundtrip samplePlatform emptyFs "out/a.png"
           "aGVsbG8gd29ybGQ=" (list_ascii_of_string "hello world")).
  reflexivity.
Defined.

(* ================================================================== *)
(** * Imagen normalizer *)

Lemma gtZero_numOfNat (n : nat) : gtZero (numOfNat n) = Ok (0 <? n)%nat.
Proof.
  unfold gtZero, numOfNat, Qle_bool. cbn [Qnum Qden]. f_equal.
  destruct n; [reflexivity|].
  rewrite Z.mul_1_r. cbn. reflexivity.
Qed.

Lemma loopBound_numOfNat (n : nat) : loopBound (numOfNat n) = Ok n.
Proof.
  unfold loopBound, numOfNat. f_equal.
  change (Z.of_nat n # 1)%Q with (inject_Z (Z.of_nat n)).
  rewrite Qceiling_Z. apply Nat2Z.id.
Qed.

Lemma getProp_array_index (xs : list value) (i : nat) :
  getProp (JArr xs) (natToString i) = Ok (nth i xs JUndef).
Proof.
  unfold getProp. rewrite parseIndex_natToString.
  destruct (String.eqb_spec (natToString i) "length") as [E|]; auto.
  pose proof (natToString_digits i) as H. rewrite E in H. discriminate.
Qed.

Section ImagenProperties.
Variable node : Platform.
Variables requestId outputDir : string.

Lemma imagenSaveImages_positions (i : nat) (images : list value) :
  Forall imageElement images ->
  forall index st fs,
  exists st' fs',
    imagenSaveImages node requestId outputDir i index images st fs
    = (Ok st', fs') /\
    savedImagePaths st'
    = savedImagePaths st
      ++ map (fun pd => standardName node requestId outputDir i (fst pd)) (positionsHolding index images) /\
    generatedCount st'
    = (generatedCount st + List.length (positionsHolding index images))%nat /\
    files fs'
    = List.rev (map (fun pd => (standardName node requestId outputDir i (fst pd), Bytes (base64Decode (snd pd))))
             (positionsHolding index images))
      ++ files fs.
Proof.
  induction 1 as [|img rest Himg _ IH]; intros index st fs.
  - exists st, fs. cbn. rewrite app_nil_r. repeat split; lia.
  - destruct Himg as (v & Hv & Hcase).
    cbn [imagenSaveImages positionsHolding]. unfold bind at 1, lift at 1.
    rewrite Hv.
    destruct Hcase as [Hf|(data & ->)].
    + rewrite Hf.
      assert (Hp : match v with
                   | JStr data =>
                       if nonEmpty data
                       then (index, data) :: positionsHolding (S index) rest
                       else positionsHolding (S index) rest
                   | _ => positionsHolding (S index) rest
                   end = positionsHolding (S index) rest).
      { destruct v; auto. unfold nonEmpty. simpl in Hf. now rewrite Hf. }
      rewrite Hp. apply IH.
    + unfold truthy, nonEmpty.
      destruct (negb (String.eqb data "")); [|apply IH].
      unfold bind at 1. unfold saveFile at 1. cbn [bufferFromBase64].
      fold (standardName node requestId outputDir i index).
      destruct (IH (S index) (pushSaved st (standardName node requestId outputDir i index))
                  (writeFileSync
                     (if existsSync fs (path_dirname node (standardName node requestId outputDir i index))
                      then fs
                      else mkdirSync fs (path_dirname node (standardName node requestId outputDir i index)))
                     (standardName node requestId outputDir i index) (Bytes (base64Decode data))))
        as (st' & fs' & E & H1 & H2 & H3).
      exists st', fs'. split; [exact E|].
      cbn [map List.rev List.length fst snd]. rewrite H1, H2, H3.
      cbn [pushSaved savedImagePaths generatedCount].
      rewrite <- !app_assoc. cbn [app].
      repeat split; try lia.
      f_equal. destruct (existsSync fs _); reflexivity.
Qed.

(** C10.  In the standard format (a prediction without filter reason
    whose [images] array is not empty) the files written are named
    [<requestId>_<i>_<k>.png] with [k] the position in [images] of each
    element holding a payload, in order; an element without payload
    writes no file and does not advance [generatedCount], so the [k] of
    the saved files skip its position. *)
Theorem imagenExtract_names_by_position :
  forall (i : nat) (prediction reason : value) (images : list value)
         (st : saved) (fs : fileSystem),
    getProp prediction "raiFilteredReason" = Ok reason ->
    truthy reason = false ->
    getProp prediction "images" = Ok (JArr images) ->
    images <> [] ->
    Forall imageElement images ->
    exists st' fs',
      imagenExtract node requestId outputDir i prediction st fs = (Ok st', fs') /\
      savedImagePaths st'
      = savedImagePaths st
        ++ map (fun pd => standardName node requestId outputDir i (fst pd)) (positionsHolding 0 images) /\
      generatedCount st'
      = (generatedCount st + List.length (positionsHolding 0 images))%nat /\
      files fs'
      = List.rev
          (map (fun pd => (standardName node requestId outputDir i (fst pd), Bytes (base64Decode (snd pd))))
             (positionsHolding 0 images))
        ++ files fs.
Proof.
  intros i prediction reason images st fs Hr Hf Hi Hne Hall.
  unfold imagenExtract. unfold bind at 1, lift at 1. rewrite Hr, Hf.
  unfold bind at 1, lift at 1. rewrite Hi.
  unfold bind at 1, lift at 1. cbn [truthy].
  change (getProp (JArr images) "length") with (Ok (numOfNat (List.length images))).
  cbn [obind]. rewrite gtZero_numOfNat.
  destruct images as [|img rest]; [congruence|].
  cbn [List.length Nat.ltb Nat.leb].
  now apply imagenSaveImages_positions.
Qed.
End ImagenProperties.

Lemma imagenExtract_names_by_position_witness :
  exists st' fs',
    imagenExtract samplePlatform "imagen_7" "./images" 0 gappedPrediction
      noneSaved emptyFs = (Ok st', fs') /\
    savedImagePaths st'
    = ["./images/imagen_7_0_0.png"; "./images/imagen_7_0_2.png"] /\
    generatedCount st' = 2%nat /\
    files fs'
    = [("./images/imagen_7_0_2.png", Bytes ["A"%char; "B"%char]);
       ("./images/imagen_7_0_0.png", Bytes ["A"%char])].
Proof.
  apply (@imagenExtract_names_by_position samplePlatform "imagen_7" "./images"
           0 gappedPrediction JUndef
           [JObj [("bytesBase64Encoded", JStr "QQ==")];
            JObj [("mimeType", JStr "image/png")];
            JObj [("bytesBase64Encoded", JStr "QUI=")]]
           noneSaved emptyFs).
  - reflexivity.
  - reflexivity.
  - reflexivity.
  - discriminate.
  - repeat constructor.
    + exists (JStr "QQ=="). split; [reflexivity|right; eauto].
    + exists JUndef. split; [reflexivity|left; reflexivity].
    + exists (JStr "QUI="). split; [reflexivity|right; eauto].
Defined.


(* ================================================================== *)
(** * When masking succeeds *)

(** A write succeeds where a value is found under a last segment that is
    the key of an object. *)
Lemma setSegments_defined rest : forall c k x v,
  getSegments c (k :: rest) = Ok v -> v <> JUndef ->
  parseIndex (lastSegment k rest) = None ->
  lastSegment k rest <> "length" ->
  exists c', setSegments c k rest x = Ok c'.
Proof.
  induction rest as [|k' rest IH]; intros c k x v Hg Hv Hi Hl.
  - cbn [lastSegment] in Hi, Hl. cbn [setSegments].
    destruct c; simpl in Hg; try discriminate; try congruence.
    + destruct (String.eqb_spec k "length"); [contradiction|].
      rewrite Hi in Hg. simpl in Hg. congruence.
    + destruct (String.eqb_spec k "length"); [contradiction|].
      rewrite Hi in Hg. simpl in Hg. congruence.
    + simpl. eauto.
  - destruct (getSegments_next _ _ _ _ Hg Hv) as (next & En & Hne & Hg').
    cbn [lastSegment] in Hi, Hl.
    destruct (IH next k' x v Hg' Hv Hi Hl) as [next' Es].
    cbn [setSegments]. rewrite En. cbn [obind].
    exists (putChild c k next').
    destruct next; try congruence; now rewrite Es.
Qed.

Lemma maskAtPath_total m p v :
  getValueAtPath m p = Ok v -> objectKeyed p -> exists m', maskAtPath m p = Ok m'.
Proof.
  intros Hg [Hi Hl]. unfold maskAtPath. rewrite Hg. cbn [obind].
  destruct v; eauto. destruct (100 <? String.length s)%nat; eauto.
  revert Hg Hi Hl. unfold getValueAtPath, setValueAtPath.
  destruct (pathSegments p) as [k rest]. cbn [fst snd]. intros Hg Hi Hl.
  eapply setSegments_defined; eauto. discriminate.
Qed.

Lemma maskAtPath_container m p m' :
  maskAtPath m p = Ok m' -> isContainer m = true -> isContainer m' = true.
Proof.
  unfold maskAtPath. destruct (getValueAtPath m p) as [v| |] eqn:Hg;
    try discriminate. cbn [obind].
  destruct v; try (intros [= <-]; auto).
  destruct (100 <? String.length s)%nat; [|intros [= <-]; auto].
  revert Hg. unfold getValueAtPath, setValueAtPath.
  destruct (pathSegments p) as [k rest]. intros Hg Hs _.
  eapply setSegments_read_same; eauto. discriminate.
Qed.

Lemma maskPaths_container ps : forall m m',
  maskPaths m ps = Ok m' -> isContainer m = true -> isContainer m' = true.
Proof.
  induction ps as [|p ps IH]; intros m m' Hm Hc; simpl in Hm.
  - now injection Hm as <-.
  - destruct (maskAtPath m p) as [m1| |] eqn:E1; try discriminate.
    eapply IH; eauto. eapply maskAtPath_container; eauto.
Qed.

Lemma divergent_irrefl p : ~ divergent p p.
Proof.
  unfold divergent. induction (segmentsOf p) as [|a l IH]; simpl.
  - discriminate.
  - now rewrite String.eqb_refl.
Qed.

Lemma maskPaths_total ps : forall m,
  ForallOrdPairs divergent ps ->
  (forall p, In p ps -> exists v, getValueAtPath m p = Ok v) ->
  (forall p, In p ps -> objectKeyed p) ->
  exists m', maskPaths m ps = Ok m'.
Proof.
  induction ps as [|p0 ps IH]; intros m Hpw Hr Hk; simpl; eauto.
  inversion Hpw as [|? ? Hhead Htail]; subst.
  rewrite Forall_forall in Hhead.
  destruct (Hr p0 (or_introl eq_refl)) as [v0 Hv0].
  destruct (@maskAtPath_total m p0 v0 Hv0 (Hk p0 (or_introl eq_refl))) as [m1 E1].
  rewrite E1. cbn [obind]. apply IH; auto.
  - intros p Hp. destruct (Hr p (or_intror Hp)) as [v Hv]. exists v.
    rewrite <- Hv. eapply maskAtPath_other; eauto. now apply Hhead.
  - intros p Hp. apply Hk. now right.
Qed.

Lemma objectKeyed_imagenPath i : objectKeyed (imagenPath i).
Proof.
  unfold objectKeyed. rewrite pathSegments_imagenPath. cbn [fst snd lastSegment].
  split; [reflexivity|discriminate].
Qed.

Lemma objectKeyed_geminiPath i j : objectKeyed (geminiPath i j).
Proof.
  unfold objectKeyed. rewrite pathSegments_geminiPath. cbn [fst snd lastSegment].
  split; [reflexivity|discriminate].
Qed.

Lemma candidatePaths_objectKeyed obj paths :
  candidatePaths obj = Ok paths -> forall p, In p paths -> objectKeyed p.
Proof.
  unfold candidatePaths, findImagenBase64Paths, findGeminiBase64Paths.
  destruct (getProp obj "predictions") as [pr| |]; try discriminate.
  cbn [obind]. destruct (truthy pr && isArray pr) eqn:Ep.
  - destruct pr; try (intros [= <-]; easy).
    intros [= <-] p Hp. apply in_map_iff in Hp as (i & <- & _).
    apply objectKeyed_imagenPath.
  - destruct (getProp obj "candidates") as [ca| |]; try discriminate.
    cbn [obind]. destruct (truthy ca && isArray ca) eqn:Ec;
      [|intros [= <-]; easy].
    destruct ca; try (intros [= <-]; easy).
    intros H p Hp. apply geminiPathsFrom_indices in H. subst paths.
    apply in_map_iff in Hp as ([i j] & <- & _). apply objectKeyed_geminiPath.
Qed.

(** Masking an object or array succeeds as soon as every candidate path
    can be read. *)
Lemma maskBase64Content_succeeds obj paths :
  isJson obj = true -> isContainer obj = true ->
  candidatePaths obj = Ok paths ->
  (forall p, In p paths -> exists v, getValueAtPath obj p = Ok v) ->
  exists masked, maskBase64Content obj = Ok masked /\ isContainer masked = true.
Proof.
  intros Hj Hc Hp Hr.
  destruct (@maskPaths_total paths obj (candidatePaths_divergent _ Hp) Hr
              (candidatePaths_objectKeyed _ Hp)) as [m Hm].
  exists m. split; [|eapply maskPaths_container; eauto].
  unfold maskBase64Content.
  destruct obj; try discriminate; cbn [truthy typeofObject negb orb];
    rewrite jsonClone_isJson, Hp by assumption; exact Hm.
Qed.

(* ================================================================== *)
(** * Writing artifacts *)

Lemma onlyTextAdded_refl fs : onlyTextAdded fs fs.
Proof. now exists []. Qed.

Lemma onlyTextAdded_trans fs1 fs2 fs3 :
  onlyTextAdded fs1 fs2 -> onlyTextAdded fs2 fs3 -> onlyTextAdded fs1 fs3.
Proof.
  intros [a1 H1] [a2 H2]. exists (a2 ++ a1).
  now rewrite H2, H1, map_app, app_assoc.
Qed.

Lemma onlyTextAdded_files fs fs' : files fs' = files fs -> onlyTextAdded fs fs'.
Proof. intros H. now exists []. Qed.

Lemma onlyTextAdded_write fs fs' p t :
  files fs' = (p, Text t) :: files fs -> onlyTextAdded fs fs'.
Proof. intros H. now exists [(p, t)]. Qed.

(** Under [onlyTextAdded] every binary file was there before. *)
Lemma onlyTextAdded_binary fs fs' path bytes :
  onlyTextAdded fs fs' ->
  readFile (files fs') path = Some (Bytes bytes) ->
  readFile (files fs) path = Some (Bytes bytes).
Proof.
  intros [added ->]. induction added as [|[p t] added IH]; simpl; auto.
  destruct (String.eqb p path); [discriminate|auto].
Qed.

Section ArtifactProperties.
Variable node : Platform.

Lemma ensureDir_files dir fs :
  exists fs', ensureDir dir fs = (Ok tt, fs') /\ files fs' = files fs.
Proof.
  unfold ensureDir. eexists. split; [reflexivity|].
  now destruct (existsSync fs dir).
Qed.

Lemma saveFile_text filePath text fs :
  exists fs',
    saveFile node filePath (JStr text) false fs = (Ok filePath, fs') /\
    files fs' = (filePath, Text text) :: files fs.
Proof.
  unfold saveFile. cbn [fileData]. eexists. split; [reflexivity|].
  cbn [writeFileSync files]. now destruct (existsSync fs _).
Qed.

Lemma maskAndSaveJson_ok obj masked filePath fs :
  maskBase64Content obj = Ok masked -> masked <> JUndef ->
  exists fs',
    maskAndSaveJson node obj filePath fs = (Ok filePath, fs') /\
    files fs' = (filePath, Text (JSON_stringify node masked 2)) :: files fs.
Proof.
  intros Hm Hne. unfold maskAndSaveJson, bind, lift. rewrite Hm.
  replace (stringify node masked 2) with (JStr (JSON_stringify node masked 2))
    by (destruct masked; auto; congruence).
  apply saveFile_text.
Qed.

Lemma maskAndSaveJson_throws obj e filePath fs :
  maskBase64Content obj = Throw e ->
  maskAndSaveJson node obj filePath fs = (Throw e, fs).
Proof.
  intros Hm. unfold maskAndSaveJson, bind, lift. now rewrite Hm.
Qed.

Lemma fetchWithProxy_ok world url opts requestId outputDir response fs :
  firstFetch world = Ok response ->
  exists fs',
    fetchWithProxy node world url opts requestId outputDir fs = (Ok response, fs') /\
    onlyTextAdded fs fs'.
Proof.
  intros H. unfold fetchWithProxy. rewrite H.
  destruct (debugFlag world && nonEmpty requestId).
  - eexists. split; [reflexivity|].
    eapply onlyTextAdded_write. cbn [writeFileSync files].
    f_equal. now destruct (existsSync fs _).
  - exists fs. split; [reflexivity|apply onlyTextAdded_refl].
Qed.

(** The transport throws the first error when the first call fails and
    the retry, if one is made, fails too. *)
Lemma fetchWithProxy_fails world url opts requestId outputDir e e' fs :
  firstFetch world = Throw e -> retryFetch world = Throw e' ->
  fetchWithProxy node world url opts requestId outputDir fs = (Throw e, fs).
Proof.
  intros H1 H2. unfold fetchWithProxy. rewrite H1, H2.
  now destruct (envSet _ && _).
Qed.
End ArtifactProperties.

(* ================================================================== *)
(** * Imagen: a response filtered as a whole *)

Lemma includes_nonempty s needle :
  includes s needle = true -> needle <> "" -> s <> "".
Proof.
  intros H Hn ->. destruct needle; [congruence|discriminate].
Qed.

Lemma getValueAtPath_imagenPath fields ps i :
  getProp (JObj fields) "predictions" = Ok (JArr ps) ->
  getValueAtPath (JObj fields) (imagenPath i)
  = getSegments (nth i ps JUndef) ["bytesBase64Encoded"].
Proof.
  intros Hp. rewrite getValueAtPath_segments. unfold segmentsOf.
  rewrite pathSegments_imagenPath.
  rewrite getSegments_cons by discriminate. rewrite Hp. cbn [obind].
  destruct (JArr ps) eqn:E; try discriminate. rewrite <- E.
  rewrite getSegments_cons by (rewrite E; discriminate).
  now rewrite getProp_array_index.
Qed.

Lemma readable_not_null x :
  isNull x = false -> exists v, getSegments x ["bytesBase64Encoded"] = Ok v.
Proof.
  destruct x; try discriminate; intros _; simpl; eauto.
  destruct (lookup "bytesBase64Encoded" fields); simpl; eauto.
Qed.

Section ImagenFiltered.
Variable node : Platform.

(** The first pass goes past the predictions before the first one that
    is filtered as a whole, and stops there. *)
Lemma imagenFilterScan_first_blocked pre : forall done p post reason blockedCount,
  Forall passedOver pre ->
  getProp p "raiFilteredReason" = Ok (JStr reason) ->
  includes reason allFilteredMessage = true ->
  imagenFilterScan (JArr (done ++ pre ++ p :: post))
    (seq (List.length done) (List.length pre + S (List.length post)))
    blockedCount
  = Ok (AllFiltered (blockedResult reason)).
Proof.
  induction pre as [|q pre IH]; intros done p post reason blockedCount Hpre Hr Hi.
  - cbn [List.app List.length Nat.add seq imagenFilterScan].
    rewrite getProp_array_index, nth_middle. cbn [obind]. rewrite Hr.
    cbn [obind].
    assert (Hne : truthy (JStr reason) = true).
    { cbn. apply negb_true_iff. apply String.eqb_neq.
      eapply includes_nonempty; eauto. discriminate. }
    rewrite Hne. cbn [methodIncludes obind]. rewrite Hi. reflexivity.
  - inversion Hpre as [|? ? (r & Hq & Hcase) Hrest]; subst.
    cbn [List.length Nat.add seq imagenFilterScan].
    rewrite <- app_comm_cons.
    rewrite getProp_array_index, nth_middle. cbn [obind]. rewrite Hq.
    cbn [obind].
    assert (Hnext : forall n,
               imagenFilterScan (JArr (done ++ q :: pre ++ p :: post))
                 (seq (S (List.length done))
                    (List.length pre + S (List.length post))) n
               = Ok (AllFiltered (blockedResult reason))).
    { intros n.
      pose proof (IH (done ++ [q]) p post reason n Hrest Hr Hi) as H.
      rewrite length_app, Nat.add_1_r, <- app_assoc in H. exact H. }
    destruct Hcase as [Hf|(text & -> & Hn)].
    + rewrite Hf. apply Hnext.
    + destruct (truthy (JStr text)); [|apply Hnext].
      cbn [methodIncludes obind]. rewrite Hn.
      cbn [methodMatchFiltered obind].
      destruct (filteredCount text); apply Hnext.
Qed.

Lemma imagenNormalize_all_filtered requestId outputDir result pre p post reason
      requestFilename responseFilename fs :
  getProp result "predictions" = Ok (JArr (pre ++ p :: post)) ->
  Forall passedOver pre ->
  getProp p "raiFilteredReason" = Ok (JStr reason) ->
  includes reason allFilteredMessage = true ->
  imagenNormalize node requestId outputDir result requestFilename
    responseFilename fs
  = (Ok (blockedResult reason), fs).
Proof.
  intros Hp Hpre Hr Hi.
  assert (Ht : truthy result = true)
    by (destruct result; simpl in Hp; try discriminate; reflexivity).
  assert (Hlen : getProp (JArr (pre ++ p :: post)) "length"
                 = Ok (numOfNat (S (List.length pre + List.length post)))).
  { change (getProp (JArr (pre ++ p :: post)) "length")
      with (Ok (numOfNat (List.length (pre ++ p :: post)))).
    rewrite length_app. cbn [List.length]. now rewrite Nat.add_succ_r. }
  unfold imagenNormalize. unfold bind at 1, lift at 1.
  rewrite Ht, Hp. cbn [obind truthy]. rewrite Hlen.
  cbn [obind]. rewrite gtZero_numOfNat. cbn [obind Nat.ltb Nat.leb].
  unfold bind at 1, lift at 1. rewrite Hlen.
  unfold bind at 1, lift at 1. rewrite loopBound_numOfNat.
  unfold bind at 1, lift at 1.
  pose proof (@imagenFilterScan_first_blocked pre [] p post reason 0 Hpre Hr Hi)
    as Hscan.
  cbn [List.app List.length] in Hscan. rewrite Nat.add_succ_r in Hscan.
  rewrite Hscan. reflexivity.
Qed.

(** C3, as amended.  When some prediction of a JSON response carries a
    [raiFilteredReason] containing
    ["Unable to show generated images. All images were filtered out"], and
    the predictions before the first such one have no reason or a string
    one, [generateImagesWithImagen] returns [success:false],
    [blocked:true], [raiFiltered:true] with that prediction's reason as
    [details], and writes no image, whatever the other predictions hold
    (short of a [null]): only text artifacts are added. *)
Theorem generateImagesWithImagen_all_filtered :
  forall (world : World) (options : imagenOptions) (fs : fileSystem)
         (token : string) (response : Response) (result p : value)
         (pre post : list value) (reason : string),
    saveConfigResult world = Ok tt ->
    accessToken world = Ok token ->
    firstFetch world = Ok response ->
    resp_ok response = true ->
    resp_json response = Ok result ->
    isJson result = true ->
    getProp result "predictions" = Ok (JArr (pre ++ p :: post)) ->
    Forall passedOver pre ->
    getProp p "raiFilteredReason" = Ok (JStr reason) ->
    includes reason allFilteredMessage = true ->
    ~ In JNull post ->
    exists fs',
      generateImagesWithImagen node world options fs
      = (Ok (JObj [("success", JBool false);
                   ("error", JStr "责任人工智能过滤了内容");
                   ("blocked", JBool true);
                   ("raiFiltered", JBool true);
                   ("details", JStr reason)]), fs') /\
      onlyTextAdded fs fs'.
Proof.
  intros world options fs token response result p pre post reason
         Hcfg Htok Hfetch Hok Hjson Hj Hpred Hpre Hreason Hhit Hpost.
  destruct (@getProp_named_object result "predictions" _ Hpred)
    as [fields ->]; [discriminate|reflexivity|discriminate|].
  (* masking succeeds: no prediction is null *)
  pose proof (candidatePaths_imagen _ Hpred) as Hpaths.
  destruct (@maskBase64Content_succeeds (JObj fields) _ Hj eq_refl Hpaths)
    as (masked & Hmask & Hcont).
  { intros q Hq. apply in_map_iff in Hq as (i & <- & Hi).
    apply in_seq in Hi.
    rewrite (@getValueAtPath_imagenPath fields _ _ Hpred).
    apply readable_not_null.
    destruct (nth i (pre ++ p :: post) JUndef) eqn:E; auto.
    assert (Hin : In JNull (pre ++ p :: post))
      by (rewrite <- E; apply nth_In; lia).
    apply in_app_or in Hin as [Hin|[Hin|Hin]].
    - rewrite Forall_forall in Hpre.
      destruct (Hpre _ Hin) as (r & Hr & _). discriminate Hr.
    - subst p. discriminate Hreason.
    - contradiction. }
  unfold generateImagesWithImagen, tryCatch.
  unfold bind at 1, lift at 1. rewrite Hcfg.
  unfold bind at 1, lift at 1. rewrite Htok.
  unfold bind at 1.
  match goal with
  | |- context [fetchWithProxy node world ?u ?o ?r ?d fs] =>
      destruct (@fetchWithProxy_ok node world u o r d response fs Hfetch)
        as (fs1 & -> & T1)
  end.
  rewrite Hok. cbn [negb].
  unfold bind at 1, lift at 1. rewrite Hjson.
  unfold bind at 1.
  destruct (ensureDir_files (imagenOutputDir options) fs1) as (fs2 & -> & F2).
  unfold bind at 1.
  destruct (ensureDir_files (imagenJsonDir options) fs2) as (fs3 & -> & F3).
  unfold bind at 1. unfold stringify at 1. cbn [imagenRequestData].
  match goal with
  | |- context [saveFile node ?f (JStr ?t) false fs3] =>
      destruct (@saveFile_text node f t fs3) as (fs4 & -> & F4)
  end.
  unfold bind at 1.
  match goal with
  | |- context [maskAndSaveJson node (JObj fields) ?f fs4] =>
      destruct (@maskAndSaveJson_ok node (JObj fields) masked f fs4 Hmask)
        as (fs5 & -> & F5);
        [now apply isContainer_defined|]
  end.
  rewrite (@imagenNormalize_all_filtered _ _ _ pre p post reason _ _ fs5 Hpred
             Hpre Hreason Hhit).
  exists fs5. split; [reflexivity|].
  eapply onlyTextAdded_trans; [exact T1|].
  eapply onlyTextAdded_trans; [apply onlyTextAdded_files, F2|].
  eapply onlyTextAdded_trans; [apply onlyTextAdded_files, F3|].
  eapply onlyTextAdded_trans; [eapply onlyTextAdded_write, F4|].
  eapply onlyTextAdded_write, F5.
Qed.
End ImagenFiltered.

(* ================================================================== *)
(** * Gemini normalizer *)

Lemma splitOn_plain (sep : ascii) (pre s : string) :
  lacks sep pre = true ->
  splitOn sep (pre ++ s)
  = ((pre ++ fst (splitOn sep s))%string, snd (splitOn sep s)).
Proof.
  induction pre as [|a pre IH]; intros H.
  - simpl. now destruct (splitOn sep s).
  - simpl in H. apply andb_prop in H as [Ha Hp].
    change (String a pre ++ s)%string with (String a (pre ++ s)).
    cbn [splitOn]. rewrite IH by assumption.
    apply negb_true_iff in Ha. now rewrite Ha.
Qed.

Lemma splitOn_two (sep : ascii) (a b : string) :
  lacks sep a = true -> lacks sep b = true ->
  splitOn sep (a ++ String sep b) = (a, [b]).
Proof.
  intros Ha Hb. rewrite splitOn_plain by assumption.
  cbn [splitOn]. rewrite Ascii.eqb_refl.
  rewrite <- (append_empty_r b) at 1 2.
  rewrite (@splitOn_plain sep b "" Hb). cbn [splitOn fst snd].
  now rewrite !append_empty_r.
Qed.

Lemma maskBase64Content_container obj masked :
  isContainer obj = true -> maskBase64Content obj = Ok masked ->
  isContainer masked = true.
Proof.
  intros Hc. unfold maskBase64Content.
  assert (Hcl : isContainer (jsonClone obj) = true) by (destruct obj; auto).
  destruct obj; try discriminate; cbn [truthy typeofObject negb orb];
    (destruct (candidatePaths _) as [paths| |]; try discriminate);
    cbn [obind]; intros Hm; eapply maskPaths_container; eauto.
Qed.

Section GeminiProperties.
Variable node : Platform.
Variables requestId outputDir jsonDir : string.

Lemma generatedFiles_length n ys :
  List.length (generatedFiles node requestId outputDir n ys) = List.length ys.
Proof.
  revert n; induction ys as [|[s d] ys IH]; intros n; simpl; auto.
Qed.

Lemma geminiExtractParts_yield (parts rest : list value) ys :
  partsYield rest ys ->
  forall pre st fs,
    parts = pre ++ rest ->
    exists st' fs',
      geminiExtractParts node requestId outputDir (JArr parts)
        (seq (List.length pre) (List.length rest)) (st, fs)
      = (Ok tt, (st', fs')) /\
      imagePaths st'
      = imagePaths st ++ map fst (generatedFiles node requestId outputDir (imageCount st) ys) /\
      imageCount st' = (imageCount st + List.length ys)%nat /\
      files fs' = List.rev (generatedFiles node requestId outputDir (imageCount st) ys) ++ files fs.
Proof.
  induction 1 as [|part type subtype data rest ys Hin _ IH
                  |part rest ys Htext _ IH];
    intros pre st fs Hparts; subst parts.
  - exists st, fs. cbn. rewrite app_nil_r. repeat split; lia.
  - destruct Hin as (inlineData & Hi & Hd & Hne & Hm & Hty & Hsub).
    cbn [List.length seq geminiExtractParts].
    unfold bind at 1, lift at 1.
    rewrite getProp_array_index, nth_middle.
    unfold bind at 1, lift at 1. rewrite Hi.
    assert (Htr : truthy inlineData = true).
    { destruct (@getProp_named_object inlineData "data" _ Hd) as [f ->];
        [discriminate|reflexivity|discriminate|reflexivity]. }
    assert (Htd : truthy (JStr data) = true).
    { cbn. apply negb_true_iff. now apply String.eqb_neq. }
    unfold bind at 1, lift at 1. rewrite Htr, Hd. cbn [andb]. rewrite Htd.
    unfold bind at 1, onLocal at 1, modify at 1. cbn [fst snd].
    unfold bind at 1, lift at 1. rewrite Hm.
    assert (Hmt : orElse (JStr (type ++ "/" ++ subtype)) (JStr "image/png")
                  = JStr (type ++ "/" ++ subtype)).
    { unfold orElse. cbn. destruct type; reflexivity. }
    rewrite Hmt. unfold bind at 1, lift at 1. cbn [methodSplitSlash].
    change (type ++ "/" ++ subtype)%string with (type ++ String "/" subtype)%string.
    rewrite splitOn_two by assumption. cbn [snd nth_error].
    unfold bind at 1, getState at 1. cbn [fst countImage imageCount].
    unfold bind at 1, onFiles at 1. cbn [snd fst].
    unfold saveFile at 1. cbn [bufferFromBase64].
    unfold bind at 1, onLocal at 1, modify at 1. cbn [fst snd].
    fold (generatedName node requestId outputDir (S (imageCount st)) subtype).
    set (fs1 := writeFileSync _ _ _).
    set (st1 := pushImage _ _).
    destruct (IH (pre ++ [part]) st1 fs1) as (st' & fs' & E & H1 & H2 & H3).
    { now rewrite <- app_assoc. }
    rewrite length_app, Nat.add_1_r in E.
    exists st', fs'. split; [exact E|].
    subst st1 fs1.
    cbn [pushImage countImage imagePaths imageCount] in H1, H2, H3.
    cbn [generatedFiles map List.rev List.length fst].
    rewrite H1, H2, H3. rewrite <- !app_assoc. cbn [app].
    repeat split; try lia.
    cbn [writeFileSync files]. f_equal. f_equal.
    now destruct (existsSync fs _).
  - destruct Htext as (text & _ & Hi).
    cbn [List.length seq geminiExtractParts].
    unfold bind at 1, lift at 1.
    rewrite getProp_array_index, nth_middle.
    unfold bind at 1, lift at 1. rewrite Hi.
    unfold bind at 1, lift at 1. cbn [truthy andb].
    destruct (IH (pre ++ [part]) st fs) as (st' & fs' & E & H1 & H2 & H3).
    { now rewrite <- app_assoc. }
    rewrite length_app, Nat.add_1_r in E.
    exists st', fs'. auto.
Qed.

Lemma geminiSafetyBlocked_first result c0 others finishReason :
  getProp result "candidates" = Ok (JArr (c0 :: others)) ->
  getProp c0 "finishReason" = Ok finishReason ->
  geminiSafetyBlocked result = Ok (strictEqStr finishReason "IMAGE_SAFETY").
Proof.
  intros Hc Hf. unfold geminiSafetyBlocked. rewrite Hc. cbn [obind truthy].
  change (getProp (JArr (c0 :: others)) "length")
    with (Ok (numOfNat (S (List.length others)))).
  cbn [obind]. rewrite gtZero_numOfNat. cbn [obind Nat.ltb Nat.leb].
  change "0" with (natToString 0). rewrite getProp_array_index.
  cbn [nth obind]. now rewrite Hf.
Qed.

(** Apart from the masking step, a first candidate that finished with
    [IMAGE_SAFETY] gives the safety-block result and no image. *)
Lemma processGeminiResponse_safety_block result masked c0 others fs :
  maskBase64Content result = Ok masked ->
  getProp result "candidates" = Ok (JArr (c0 :: others)) ->
  getProp c0 "finishReason" = Ok (JStr "IMAGE_SAFETY") ->
  exists fs',
    processGeminiResponse node requestId outputDir jsonDir result fs
    = (Ok (JObj [("success", JBool false);
                 ("error", JStr "由于安全问题，图像生成被阻止");
                 ("safetyBlock", JBool true);
                 ("responseFile", JStr (responseName node requestId jsonDir))]), fs') /\
    onlyTextAdded fs fs'.
Proof.
  intros Hm Hc Hf.
  destruct (@getProp_named_object result "candidates" _ Hc) as [fields ->];
    [discriminate|reflexivity|discriminate|].
  pose proof (@maskBase64Content_container (JObj fields) masked eq_refl Hm) as Hcont.
  unfold processGeminiResponse. unfold bind at 1.
  destruct (@maskAndSaveJson_ok node _ masked (responseName node requestId jsonDir) fs Hm
              (@isContainer_defined masked Hcont)) as (fs1 & E1 & F1).
  fold (responseName node requestId jsonDir). rewrite E1.
  unfold bind at 1, lift at 1.
  rewrite (geminiSafetyBlocked_first _ Hc Hf). cbn [strictEqStr].
  change (String.eqb "IMAGE_SAFETY" "IMAGE_SAFETY") with true. cbv iota.
  exists fs1. split; [reflexivity|]. eapply onlyTextAdded_write, F1.
Qed.

Lemma processGeminiResponse_extracts result masked c0 others finishReason
      content parts ys fs :
  maskBase64Content result = Ok masked ->
  getProp result "candidates" = Ok (JArr (c0 :: others)) ->
  getProp c0 "finishReason" = Ok finishReason ->
  strictEqStr finishReason "IMAGE_SAFETY" = false ->
  getProp c0 "content" = Ok content ->
  getProp content "parts" = Ok (JArr parts) ->
  partsYield parts ys ->
  exists fs',
    processGeminiResponse node requestId outputDir jsonDir result fs
    = (Ok (JObj [("success", JBool true);
                 ("outputDir", JStr outputDir);
                 ("jsonDir", JStr jsonDir);
                 ("images", strings (map fst (generatedFiles node requestId outputDir 0 ys)));
                 ("jsonFiles", JObj [("response", JStr (responseName node requestId jsonDir))])]),
       fs') /\
    files fs'
    = List.rev (generatedFiles node requestId outputDir 0 ys)
      ++ ((responseName node requestId jsonDir), Text (JSON_stringify node masked 2)) :: files fs.
Proof.
  intros Hm Hc Hf Hs Hcontent Hparts Hy.
  destruct (@getProp_named_object result "candidates" _ Hc) as [fields ->];
    [discriminate|reflexivity|discriminate|].
  destruct (@getProp_named_object content "parts" _ Hparts) as [cf ->];
    [discriminate|reflexivity|discriminate|].
  pose proof (@maskBase64Content_container (JObj fields) masked eq_refl Hm) as Hcont.
  unfold processGeminiResponse. unfold bind at 1.
  destruct (@maskAndSaveJson_ok node _ masked (responseName node requestId jsonDir) fs Hm
              (@isContainer_defined masked Hcont)) as (fs1 & E1 & F1).
  fold (responseName node requestId jsonDir). rewrite E1.
  unfold bind at 1, lift at 1.
  rewrite (geminiSafetyBlocked_first _ Hc Hf), Hs.
  (* the extraction *)
  destruct (@geminiExtractParts_yield parts parts ys Hy [] noExtraction fs1
              eq_refl) as (st' & fs' & E & H1 & H2 & H3).
  cbn [List.length imagePaths imageCount noExtraction app] in E, H1, H2, H3.
  assert (Hx : geminiExtract node requestId outputDir (JObj fields)
                 (noExtraction, fs1) = (Ok tt, (st', fs'))).
  { unfold geminiExtract. unfold bind at 1, lift at 1. rewrite Hc.
    unfold bind at 1, lift at 1. cbn [truthy].
    change (getProp (JArr (c0 :: others)) "length")
      with (Ok (numOfNat (S (List.length others)))).
    cbn [obind]. rewrite gtZero_numOfNat. cbn [Nat.ltb Nat.leb].
    unfold bind at 1, lift at 1.
    change "0" with (natToString 0). rewrite getProp_array_index. cbn [nth].
    unfold bind at 1, lift at 1. rewrite Hcontent.
    unfold bind at 1, lift at 1. cbn [truthy]. rewrite Hparts. cbn [andb truthy].
    unfold bind at 1, lift at 1.
    change (getProp (JArr parts) "length")
      with (Ok (numOfNat (List.length parts))).
    unfold bind at 1, lift at 1. rewrite loopBound_numOfNat.
    exact E. }
  rewrite Hx. exists fs'. rewrite H1, H3, F1. split; reflexivity.
Qed.

(** C6, as amended.  When the first candidate did not finish with
    [IMAGE_SAFETY], its [content.parts] holds two parts carrying inline
    data under MIME types [ta/sa] and [tb/sb] and one text-only part, in
    any order, and masking the response does not throw, the normalizer
    saves exactly two images, [..._generated_1.<sa>] and
    [..._generated_2.<sb>], in the order of the parts. *)
Theorem processGeminiResponse_two_images :
  forall (result masked c0 finishReason content : value)
         (others parts : list value) (a b t : value)
         (ta sa da tb sb db : string) (fs : fileSystem),
    maskBase64Content result = Ok masked ->
    getProp result "candidates" = Ok (JArr (c0 :: others)) ->
    getProp c0 "finishReason" = Ok finishReason ->
    strictEqStr finishReason "IMAGE_SAFETY" = false ->
    getProp c0 "content" = Ok content ->
    getProp content "parts" = Ok (JArr parts) ->
    inlinePart a ta sa da -> inlinePart b tb sb db -> textOnlyPart t ->
    parts = [a; b; t] \/ parts = [a; t; b] \/ parts = [t; a; b] ->
    exists fs',
      processGeminiResponse node requestId outputDir jsonDir result fs
      = (Ok (JObj [("success", JBool true);
                   ("outputDir", JStr outputDir);
                   ("jsonDir", JStr jsonDir);
                   ("images",
                    JArr [JStr (path_join node outputDir
                                  (requestId ++ "_generated_1." ++ sa));
                          JStr (path_join node outputDir
                                  (requestId ++ "_generated_2." ++ sb))]);
                   ("jsonFiles",
                    JObj [("response",
                           JStr (path_join node jsonDir
                                   (requestId ++ "_response.json")))])]),
         fs') /\
      files fs'
      = (path_join node outputDir (requestId ++ "_generated_2." ++ sb),
         Bytes (base64Decode db))
        :: (path_join node outputDir (requestId ++ "_generated_1." ++ sa),
            Bytes (base64Decode da))
        :: (path_join node jsonDir (requestId ++ "_response.json"),
            Text (JSON_stringify node masked 2))
        :: files fs.
Proof.
  intros result masked c0 finishReason content others parts a b t
         ta sa da tb sb db fs Hm Hc Hf Hs Hcontent Hparts Ha Hb Ht Hshape.
  assert (Hy : partsYield parts [(sa, da); (sb, db)]).
  { destruct Hshape as [->|[->| ->]];
      repeat (first [ eapply yield_inline; [eassumption|]
                    | eapply yield_text; [eassumption|]
                    | apply yield_nil ]). }
  exact (@processGeminiResponse_extracts result masked c0 others finishReason
           content parts _ fs Hm Hc Hf Hs Hcontent Hparts Hy).
Qed.
End GeminiProperties.


Lemma processGeminiResponse_two_images_witness :
  exists fs',
    processGeminiResponse samplePlatform "gemini_1" "./images" "./output"
      twoImagesAndText emptyFs
    = (Ok (JObj [("success", JBool true);
                 ("outputDir", JStr "./images");
                 ("jsonDir", JStr "./output");
                 ("images", JArr [JStr "./images/gemini_1_generated_1.png";
                                  JStr "./images/gemini_1_generated_2.jpeg"]);
                 ("jsonFiles",
                  JObj [("response", JStr "./output/gemini_1_response.json")])]),
       fs') /\
    files fs'
    = [("./images/gemini_1_generated_2.jpeg", Bytes ["A"%char; "B"%char]);
       ("./images/gemini_1_generated_1.png", Bytes ["A"%char]);
       ("./output/gemini_1_response.json", Text "{}")].
Proof.
  apply (@processGeminiResponse_two_images samplePlatform "gemini_1" "./images"
           "./output" twoImagesAndText twoImagesAndText
           (JObj [("content", JObj [("parts", JArr [inlinePng; textPart; inlineJpeg])]);
                  ("finishReason", JStr "STOP")])
           (JStr "STOP")
           (JObj [("parts", JArr [inlinePng; textPart; inlineJpeg])])
           [] [inlinePng; textPart; inlineJpeg]
           inlinePng inlineJpeg textPart
           "image" "png" "QQ==" "image" "jpeg" "QUI=" emptyFs).
  - vm_compute. reflexivity.
  - reflexivity.
  - reflexivity.
  - reflexivity.
  - reflexivity.
  - reflexivity.
  - eexists. repeat split; try reflexivity. discriminate.
  - eexists. repeat split; try reflexivity. discriminate.
  - eexists. split; reflexivity.
  - right. left. reflexivity.
Defined.

(** C6, counterexample.  Two inline-data parts and a text part in the
    first candidate, which finished with [IMAGE_SAFETY]: nothing is
    extracted. *)
Lemma processGeminiResponse_safety_precedes_parts :
  exists fs',
    processGeminiResponse samplePlatform "gemini_1" "./images" "./output"
      safetyWithImages emptyFs
    = (Ok (JObj [("success", JBool false);
                 ("error", JStr "由于安全问题，图像生成被阻止");
                 ("safetyBlock", JBool true);
                 ("responseFile", JStr "./output/gemini_1_response.json")]),
       fs') /\
    files fs' = [("./output/gemini_1_response.json", Text "{}")].
Proof.
  eexists. split; vm_compute; reflexivity.
Qed.

(** C5.  With a [null] after the safety-blocked first candidate the
    normalizer throws while masking the response, before it looks at
    [finishReason]; the caller's [catch] turns that into a result without
    [safetyBlock]. *)
Theorem processGeminiResponse_safety_lost_on_null :
  processGeminiResponse samplePlatform "gemini_1" "./images" "./output"
    safetyThenNull emptyFs
  = (Throw (TypeError "Cannot read properties of null (reading 'content')"),
     emptyFs)
  /\
  fst (generateImagesWithGemini samplePlatform (worldReturning safetyThenNull)
         sampleGeminiOptions emptyFs)
  = Ok (JObj [("success", JBool false);
              ("error", JStr "Cannot read properties of null (reading 'content')")]).
Proof. split; vm_compute; reflexivity. Qed.

(** C3, counterexample.  A reason that contains ["All images were filtered
    out"] without the sentence the code looks for: the result is not
    flagged [blocked] and carries no [raiFiltered]. *)
Lemma generateImagesWithImagen_short_reason_unblocked :
  includes "All images were filtered out by the safety settings."
           "All images were filtered out" = true /\
  fst (generateImagesWithImagen samplePlatform (worldReturning shortReasonResponse)
         sampleImagenOptions emptyFs)
  = Ok (JObj [("success", JBool false);
              ("error", JStr "没有保存任何图像");
              ("blocked", JBool false);
              ("blockedCount", numOfNat 0)]).
Proof. split; vm_compute; reflexivity. Qed.

Lemma generateImagesWithImagen_all_filtered_witness :
  exists fs',
    generateImagesWithImagen samplePlatform (worldReturning filteredAmongImages)
      sampleImagenOptions emptyFs
    = (Ok (JObj [("success", JBool false);
                 ("error", JStr "责任人工智能过滤了内容");
                 ("blocked", JBool true);
                 ("raiFiltered", JBool true);
                 ("details",
                  JStr "Unable to show generated images. All images were filtered out because they violated Google's Responsible AI practices.")]),
       fs') /\
    onlyTextAdded emptyFs fs'.
Proof.
  apply (@generateImagesWithImagen_all_filtered samplePlatform
           (worldReturning filteredAmongImages) sampleImagenOptions emptyFs
           "token" (okResponse filteredAmongImages) filteredAmongImages
           (JObj [("raiFilteredReason",
                   JStr "Unable to show generated images. All images were filtered out because they violated Google's Responsible AI practices.")])
           [JObj [("bytesBase64Encoded", JStr "QQ==");
                  ("mimeType", JStr "image/png")]]
           [JObj [("bytesBase64Encoded", JStr "QUI=");
                  ("mimeType", JStr "image/png")]]).
  - reflexivity.
  - reflexivity.
  - reflexivity.
  - reflexivity.
  - reflexivity.
  - reflexivity.
  - reflexivity.
  - constructor; [|constructor]. exists JUndef. split; [reflexivity|]. now left.
  - reflexivity.
  - reflexivity.
  - intros [H|[]]. discriminate H.
Defined.

(* ================================================================== *)
(** * Transport failures *)

Section TransportFailure.
Variable node : Platform.
Variable world : World.

Lemma geminiImageParts_readable images : forall parts fs,
  (forall p, In p images -> exists c, readFile (files fs) p = Some c) ->
  exists parts',
    geminiImageParts node images parts fs = (Ok (inr parts'), fs).
Proof.
  induction images as [|imagePath rest IH]; intros parts fs Hr.
  - exists parts. reflexivity.
  - cbn [geminiImageParts].
    unfold bind at 1, tryCatch at 1, bind at 1, imageToBase64 at 1.
    destruct (Hr imagePath (or_introl eq_refl)) as [c Hc]. rewrite Hc.
    destruct c as [b|t]; cbn [ret];
      apply IH; intros p Hp; apply Hr; now right.
Qed.

Lemma maskBase64Content_request parts :
  exists masked,
    maskBase64Content (geminiRequestData parts) = Ok masked /\
    masked <> JUndef.
Proof.
  unfold geminiRequestData, maskBase64Content.
  cbn [truthy typeofObject negb orb jsonClone].
  unfold candidatePaths. cbn [getProp lookup String.eqb Ascii.eqb Bool.eqb].
  cbn. eexists. split; [reflexivity|discriminate].
Qed.

(** C4, as amended.  When the outbound call throws [e] and the retry,
    where one is made, throws as well, [fetchWithProxy] throws [e], and
    both [generateImagesWithImagen] and [generateImagesWithGemini] catch
    it: they return [{ success: false, error: e.message }] to their
    caller and nothing propagates. *)
Theorem transport_failure_is_returned :
  forall (e e' : exn),
    saveConfigResult world = Ok tt ->
    firstFetch world = Throw e ->
    retryFetch world = Throw e' ->
    (forall (options : imagenOptions) (fs : fileSystem) (token : string),
        accessToken world = Ok token ->
        exists fs',
          generateImagesWithImagen node world options fs
          = (Ok (JObj [("success", JBool false);
                       ("error", JStr (exn_message e))]), fs')) /\
    (forall (options : geminiOptions) (fs : fileSystem),
        (forall p, In p (referenceImages options) ->
                   exists c, readFile (files fs) p = Some c) ->
        exists fs',
          generateImagesWithGemini node world options fs
          = (Ok (JObj [("success", JBool false);
                       ("error", JStr (exn_message e))]), fs')).
Proof.
  intros e e' Hcfg H1 H2. split.
  - intros options fs token Htok.
    unfold generateImagesWithImagen, tryCatch.
    unfold bind at 1, lift at 1. rewrite Hcfg.
    unfold bind at 1, lift at 1. rewrite Htok.
    unfold bind at 1.
    rewrite (@fetchWithProxy_fails node world _ _ _ _ e e' fs H1 H2).
    exists fs. reflexivity.
  - intros options fs Hr.
    unfold generateImagesWithGemini. unfold tryCatch at 1.
    unfold bind at 1, lift at 1. rewrite Hcfg.
    unfold bind at 1.
    destruct (ensureDir_files (geminiOutputDir options) fs) as (fs1 & -> & F1).
    unfold bind at 1.
    destruct (ensureDir_files (geminiJsonDir options) fs1) as (fs2 & -> & F2).
    unfold bind at 1.
    destruct (@geminiImageParts_readable (referenceImages options)
                [JObj [("text", JStr (geminiPrompt options))]] fs2)
      as [parts ->].
    { intros p Hp. rewrite F2, F1. now apply Hr. }
    unfold bind at 1.
    destruct (maskBase64Content_request parts) as (masked & Hm & Hne).
    match goal with
    | |- context [maskAndSaveJson node (geminiRequestData parts) ?f fs2] =>
        destruct (@maskAndSaveJson_ok node _ masked f fs2 Hm Hne)
          as (fs3 & -> & F3)
    end.
    unfold tryCatch at 1. unfold bind at 1.
    rewrite (@fetchWithProxy_fails node world _ _ _ _ e e' fs3 H1 H2).
    exists fs3. reflexivity.
Qed.
End TransportFailure.

(** C4, counterexample.  The first call and the retry both time out; each
    generator returns a structured failure instead of throwing. *)
Lemma generators_return_on_transport_failure :
  firstFetch worldOffline = Throw timeoutError /\
  retryFetch worldOffline = Throw timeoutError /\
  fst (generateImagesWithImagen samplePlatform worldOffline sampleImagenOptions
         emptyFs)
  = Ok (JObj [("success", JBool false);
              ("error", JStr (exn_message timeoutError))]) /\
  fst (generateImagesWithGemini samplePlatform worldOffline sampleGeminiOptions
         emptyFs)
  = Ok (JObj [("success", JBool false);
              ("error", JStr (exn_message timeoutError))]).
Proof. repeat split; vm_compute; reflexivity. Qed.

Lemma transport_failure_is_returned_witness :
  exists fs',
    generateImagesWithImagen samplePlatform worldOffline sampleImagenOptions emptyFs
    = (Ok (JObj [("success", JBool false);
                 ("error", JStr (exn_message timeoutError))]), fs').
Proof.
  apply (proj1 (@transport_failure_is_returned samplePlatform worldOffline
                  timeoutError timeoutError eq_refl eq_refl eq_refl)
           sampleImagenOptions emptyFs "token").
  reflexivity.
Defined.

(* ================================================================== *)
(** * The accessor on a missing intermediate segment *)

Lemma assign_same k v fs : lookup k fs = Some v -> assign k v fs = fs.
Proof.
  induction fs as [|[k' v'] fs IH]; simpl; [discriminate|].
  destruct (String.eqb_spec k k') as [->|]; [now intros [= ->]|].
  intros H. now rewrite IH.
Qed.

Lemma writeAt_same i : forall xs,
  (i < List.length xs)%nat -> writeAt i (nth i xs JUndef) xs = xs.
Proof.
  induction i as [|i IH]; intros [|x xs] H; simpl in *; try lia; auto.
  rewrite IH; auto. lia.
Qed.

Lemma putChild_same c k n : getProp c k = Ok n -> putChild c k n = c.
Proof.
  destruct c; simpl; auto.
  - destruct (String.eqb_spec k "length") as [->|_]; [reflexivity|].
    destruct (parseIndex k) as [i|]; auto. intros [= <-].
    destruct (Nat.ltb_spec i (List.length xs)); auto.
    now rewrite writeAt_same.
  - destruct (lookup k fields) eqn:E; auto. intros [= <-].
    now rewrite assign_same.
Qed.

(** Where an intermediate segment is missing and no [null] is met on the
    way to it, [get] gives [undefined] and [set] leaves the root as it
    is. *)
Lemma accessor_on_missing_segment rest : forall current k x,
  missingBelow current k rest ->
  getSegments current (k :: rest) = Ok JUndef /\
  setSegments current k rest x = Ok current.
Proof.
  induction rest as [|k' rest IH]; intros current k x H; [destruct H|].
  cbn [missingBelow] in H.
  destruct (getProp current k) as [next| |] eqn:E; try contradiction.
  assert (Hc : current <> JUndef) by (intros ->; discriminate).
  rewrite getSegments_cons by assumption. cbn [setSegments]. rewrite E.
  cbn [obind].
  destruct next; try (split; reflexivity);
    (destruct (IH _ k' x H) as [Hg Hs]; rewrite Hs; cbn [obind];
     rewrite (putChild_same _ _ E); auto).
Qed.

(* ================================================================== *)
(** * Further properties of the path accessor *)

Lemma allDigits_lacks_bracket (d : string) :
  allDigits d = true -> lacks "[" d = true.
Proof.
  induction d as [|a d IH]; simpl; auto.
  intros H. apply andb_prop in H as [Ha Hd]. rewrite IH by assumption.
  destruct (Ascii.eqb_spec a "["%char) as [->|]; [discriminate|reflexivity].
Qed.

Lemma pathSegments_bracket_dot (pre d post : string) :
  lacks "[" pre = true -> allDigits d = true -> d <> "" ->
  pathSegments (pre ++ "[" ++ d ++ "]" ++ post)
  = pathSegments (pre ++ "." ++ d ++ post).
Proof.
  intros Hp Hd Hne. unfold pathSegments. f_equal.
  change (pre ++ "[" ++ d ++ "]" ++ post)%string
    with (pre ++ String "[" (d ++ String "]" post))%string.
  rewrite replaceBrackets_bracketed by assumption.
  change (pre ++ "." ++ d ++ post)%string
    with (pre ++ String "." (d ++ post))%string.
  rewrite replaceBrackets_plain by assumption. f_equal.
  change (String "." (d ++ post)) with ("." ++ (d ++ post))%string.
  rewrite (@replaceBrackets_plain "." (d ++ post) eq_refl).
  cbn [append]. f_equal.
  now rewrite replaceBrackets_plain by now apply allDigits_lacks_bracket.
Qed.

(** X1.  A bracketed index and a dotted one address the same place:
    [pre[d]post] and [pre.d post] are read and written alike, for every
    digit string [d], whatever follows it. *)
Theorem bracket_index_is_dot_segment :
  forall (obj x : value) (pre d post : string),
    lacks "[" pre = true -> allDigits d = true -> d <> "" ->
    getValueAtPath obj (pre ++ "[" ++ d ++ "]" ++ post)
    = getValueAtPath obj (pre ++ "." ++ d ++ post) /\
    setValueAtPath obj (pre ++ "[" ++ d ++ "]" ++ post) x
    = setValueAtPath obj (pre ++ "." ++ d ++ post) x.
Proof.
  intros obj x pre d post Hp Hd Hne.
  unfold getValueAtPath, setValueAtPath.
  now rewrite (pathSegments_bracket_dot _ post Hp Hd Hne).
Qed.

Lemma bracket_index_is_dot_segment_witness :
  getValueAtPath imagenSample ("predictions" ++ "[" ++ "1" ++ "]" ++ ".bytesBase64Encoded")
  = getValueAtPath imagenSample ("predictions" ++ "." ++ "1" ++ ".bytesBase64Encoded") /\
  setValueAtPath imagenSample ("predictions" ++ "[" ++ "1" ++ "]" ++ ".bytesBase64Encoded") JNull
  = setValueAtPath imagenSample ("predictions" ++ "." ++ "1" ++ ".bytesBase64Encoded") JNull.
Proof.
  apply (@bracket_index_is_dot_segment imagenSample JNull "predictions" "1"
           ".bytesBase64Encoded"); [reflexivity|reflexivity|discriminate].
Defined.

Lemma setSegments_primitive_same rest : forall c k x c',
  isPrimitive c = true -> setSegments c k rest x = Ok c' -> c' = c.
Proof.
  destruct rest as [|k' rest]; intros c k x c' Hp Hs.
  - destruct c; discriminate.
  - cbn [setSegments] in Hs.
    destruct (getProp c k) as [next| |]; try discriminate. cbn [obind] in Hs.
    assert (Hput : forall n, putChild c k n = c) by (destruct c; try discriminate; reflexivity).
    destruct next; try (now injection Hs as <-);
      (destruct (setSegments _ k' rest x); try discriminate;
       cbn [obind] in Hs; injection Hs as <-; apply Hput).
Qed.

Lemma setSegments_read_back rest : forall c k x c',
  setSegments c k rest x = Ok c' ->
  (missingBelow c k rest /\ c' = c) \/
  (getSegments c' (k :: rest) = Ok x /\ isContainer c' = true).
Proof.
  induction rest as [|k' rest IH]; intros c k x c' Hs.
  - right. cbn [setSegments] in Hs.
    destruct (getProp_setProp_same _ _ _ Hs) as [H1 H2]. split; auto.
    rewrite getSegments_cons by now apply isContainer_defined.
    now rewrite H1.
  - cbn [setSegments] in Hs. cbn [missingBelow].
    destruct (getProp c k) as [next| |] eqn:En; try discriminate.
    cbn [obind] in Hs.
    destruct (setSegments next k' rest x) as [next'| |] eqn:Es.
    + assert (Hcase : next = JUndef /\ c' = c \/
                      next <> JUndef /\ c' = putChild c k next').
      { destruct next; [left|right..]; split; try congruence;
          now injection Hs as <-. }
      destruct Hcase as [[-> ->]|[Hne ->]]; [now left|].
      destruct (IH _ _ _ _ Es) as [[Hm ->]|[Hg Hc]].
      * left. rewrite (putChild_same _ _ En).
        split; [|reflexivity]. destruct next; auto; congruence.
      * right.
        assert (Hcn : isContainer next = true).
        { destruct next; auto; try congruence.
          - simpl in Es. destruct rest; discriminate.
          - rewrite (@setSegments_primitive_same rest (JBool b) k' x next' eq_refl Es) in Hc.
            discriminate.
          - rewrite (@setSegments_primitive_same rest (JNum q) k' x next' eq_refl Es) in Hc.
            discriminate.
          - rewrite (@setSegments_primitive_same rest (JStr s) k' x next' eq_refl Es) in Hc.
            discriminate. }
        destruct (putChild_get_same _ _ next' En Hcn) as [H1 H2].
        split; auto.
        rewrite getSegments_cons by now apply isContainer_defined.
        rewrite H1. exact Hg.
    + destruct next; try discriminate. injection Hs as <-. now left.
    + destruct next; try discriminate. injection Hs as <-. now left.
Qed.

(** X2.  Along a path made of schema words and indices, whenever
    [setValueAtPath] returns, either an intermediate segment was missing
    and the root is left exactly as it was, or the value is read back by
    [getValueAtPath] at the same path. *)
Theorem setValueAtPath_read_back :
  forall (obj x obj' : value) (path : string),
    schemaPath path = true ->
    setValueAtPath obj path x = Ok obj' ->
    (missingBelow obj (fst (pathSegments path)) (snd (pathSegments path))
     /\ obj' = obj) \/
    getValueAtPath obj' path = Ok x.
Proof.
  intros obj x obj' path _. unfold setValueAtPath, getValueAtPath.
  destruct (pathSegments path) as [k rest]. cbn [fst snd]. intros Hs.
  destruct (setSegments_read_back _ _ _ _ Hs) as [H|[H _]]; auto.
Qed.

Lemma setValueAtPath_read_back_witness :
  (missingBelow (JObj [("predictions", JArr [JObj []])])
     (fst (pathSegments "predictions[0].data"))
     (snd (pathSegments "predictions[0].data"))
   /\ JObj [("predictions", JArr [JObj [("data", JNum 5%Q)]])]
      = JObj [("predictions", JArr [JObj []])]) \/
  getValueAtPath (JObj [("predictions", JArr [JObj [("data", JNum 5%Q)]])])
    "predictions[0].data"
  = Ok (JNum 5%Q).
Proof.
  apply (@setValueAtPath_read_back (JObj [("predictions", JArr [JObj []])])
           (JNum 5%Q)
           (JObj [("predictions", JArr [JObj [("data", JNum 5%Q)]])])
           "predictions[0].data").
  - reflexivity.
  - reflexivity.
Defined.

(** X3.  Among paths made of schema words and indices, overwriting the
    value found at a path leaves what is read along every path that parts
    ways with it unchanged. *)
Theorem setValueAtPath_keeps_other_paths :
  forall (obj x v obj' : value) (p q : string),
    schemaPath p = true -> schemaPath q = true ->
    getValueAtPath obj p = Ok v -> v <> JUndef ->
    setValueAtPath obj p x = Ok obj' ->
    divergent p q ->
    getValueAtPath obj' q = getValueAtPath obj q.
Proof.
  intros obj x v obj' p q _ _ Hg Hv Hs Hd.
  rewrite !(getValueAtPath_segments _ q).
  revert Hg Hs Hd. unfold getValueAtPath, setValueAtPath, divergent, segmentsOf at 1.
  destruct (pathSegments p) as [k rest]. intros Hg Hs Hd.
  eapply setSegments_read_other; eauto.
Qed.

Lemma setValueAtPath_keeps_other_paths_witness :
  getValueAtPath imagenSampleMasked "predictions[0].mimeType"
  = getValueAtPath imagenSample "predictions[0].mimeType".
Proof.
  apply (@setValueAtPath_keeps_other_paths imagenSample
           (JStr "[BASE64_DATA_MASKED: ~0 KB]") (JStr longString)
           imagenSampleMasked "predictions[0].bytesBase64Encoded"
           "predictions[0].mimeType").
  - reflexivity.
  - reflexivity.
  - reflexivity.
  - discriminate.
  - vm_compute. reflexivity.
  - reflexivity.
Defined.

Lemma nullFree_nth (xs : list value) (i : nat) :
  forallb nullFree xs = true -> nullFree (nth i xs JUndef) = true.
Proof.
  revert i; induction xs as [|x xs IH]; intros [|i] H; simpl in *; auto;
    apply andb_prop in H as [H1 H2]; auto.
Qed.

Lemma nullFree_lookup k fs v :
  forallb (fun kv => nullFree (snd kv)) fs = true ->
  lookup k fs = Some v -> nullFree v = true.
Proof.
  induction fs as [|[k' v'] fs IH]; simpl; [discriminate|].
  intros H. apply andb_prop in H as [H1 H2].
  destruct (String.eqb k k'); [now intros [= <-]|auto].
Qed.

Lemma getProp_nullFree c k :
  nullFree c = true -> c <> JUndef ->
  exists v, getProp c k = Ok v /\ nullFree v = true.
Proof.
  intros Hn Hu. destruct c; try discriminate; try congruence; simpl; eauto.
  - destruct (String.eqb k "length"); eauto.
    destruct (parseIndex k); eauto. destruct (nthChar n s); eauto.
  - destruct (String.eqb k "length"); eauto.
    destruct (parseIndex k); eauto. eexists. split; eauto.
    now apply nullFree_nth.
  - destruct (lookup k fields) eqn:E; eauto.
    eexists. split; eauto. eapply nullFree_lookup; eauto.
Qed.

Lemma getSegments_nullFree segs : forall c,
  nullFree c = true -> exists v, getSegments c segs = Ok v.
Proof.
  induction segs as [|k rest IH]; intros c Hn; simpl; eauto.
  destruct c; eauto;
    match goal with
    | |- context [getProp ?c k] =>
        destruct (@getProp_nullFree c k Hn) as (v & -> & Hv);
          [discriminate|apply (IH v Hv)]
    end.
Qed.

(** X4.  On a root that holds no [null], reading a path made of schema
    words and indices gives a value or [undefined]; it never throws. *)
Theorem getValueAtPath_never_throws_without_null :
  forall (obj : value) (path : string),
    schemaPath path = true ->
    nullFree obj = true -> exists v, getValueAtPath obj path = Ok v.
Proof.
  intros obj path _ Hn. rewrite getValueAtPath_segments.
  now apply getSegments_nullFree.
Qed.

Lemma getValueAtPath_never_throws_without_null_witness :
  exists v, getValueAtPath imagenSample "predictions[7].bytesBase64Encoded.data" = Ok v.
Proof.
  apply (@getValueAtPath_never_throws_without_null imagenSample
           "predictions[7].bytesBase64Encoded.data").
  - reflexivity.
  - reflexivity.
Defined.

(* ================================================================== *)
(** * Further properties of the masker *)

(** X5.  When the JSON round trip of an object,
    [JSON.parse(JSON.stringify(obj))], has neither a [predictions] array
    nor a [candidates] array, [maskBase64Content] returns exactly that
    round trip: no string is replaced, however long. *)
Theorem maskBase64Content_copy_without_arrays :
  forall obj : value,
    isContainer obj = true ->
    (forall ps, getProp (jsonClone obj) "predictions" <> Ok (JArr ps)) ->
    (forall cs, getProp (jsonClone obj) "candidates" <> Ok (JArr cs)) ->
    maskBase64Content obj = Ok (jsonClone obj).
Proof.
  intros obj Hcont Hp Hc. unfold maskBase64Content.
  assert (Hobj : negb (truthy obj) || negb (typeofObject obj) = false)
    by (destruct obj; try discriminate; reflexivity).
  rewrite Hobj.
  assert (Hclone : isContainer (jsonClone obj) = true)
    by (destruct obj; try discriminate; reflexivity).
  assert (Hpaths : candidatePaths (jsonClone obj) = Ok []).
  { unfold candidatePaths.
    destruct (jsonClone obj) as [| | | | |xs|fields]; try discriminate;
      try (cbn; reflexivity).
    destruct (getProp (JObj fields) "predictions") as [p| |] eqn:Ep;
        try (simpl in Ep; destruct (lookup "predictions" fields); discriminate).
    cbn [obind].
    destruct p; try (elim (Hp xs); reflexivity);
      cbn [isArray]; rewrite ?andb_false_r.
    all: destruct (getProp (JObj fields) "candidates") as [c| |] eqn:Ec;
      try (simpl in Ec; destruct (lookup "candidates" fields); discriminate);
      cbn [obind];
      destruct c; try (elim (Hc xs); reflexivity);
      cbn [isArray]; rewrite ?andb_false_r; reflexivity. }
  now rewrite Hpaths.
Qed.

Lemma maskBase64Content_copy_without_arrays_witness :
  maskBase64Content
    (JObj [("error", JObj [("message", JStr longString); ("code", JUndef)])])
  = Ok (jsonClone
          (JObj [("error", JObj [("message", JStr longString); ("code", JUndef)])])).
Proof.
  apply (@maskBase64Content_copy_without_arrays
           (JObj [("error", JObj [("message", JStr longString); ("code", JUndef)])])).
  - reflexivity.
  - intros ps. discriminate.
  - intros cs. discriminate.
Defined.

Lemma maskPaths_app a : forall m b,
  maskPaths m (a ++ b) = (let? m' := maskPaths m a in maskPaths m' b).
Proof.
  induction a as [|p a IH]; intros m b; simpl; auto.
  destruct (maskAtPath m p); simpl; auto.
Qed.

Lemma first_null (xs : list value) :
  In JNull xs ->
  exists pre post, xs = pre ++ JNull :: post /\ forallb (fun x => negb (isNull x)) pre = true.
Proof.
  induction xs as [|x xs IH]; [easy|]. intros H.
  destruct (isNull x) eqn:E.
  - destruct x; try discriminate. exists [], xs. auto.
  - destruct H as [->|H]; [discriminate|].
    destruct (IH H) as (pre & post & -> & Hpre).
    exists (x :: pre), post. split; auto. simpl. now rewrite E.
Qed.

Lemma maskBase64Content_null_prediction obj ps :
  isJson obj = true ->
  getProp obj "predictions" = Ok (JArr ps) ->
  In JNull ps ->
  maskBase64Content obj
  = Throw (TypeError "Cannot read properties of null (reading 'bytesBase64Encoded')").
Proof.
  intros Hj Hp Hin.
  destruct (@getProp_named_object obj "predictions" _ Hp) as [fields ->];
    [discriminate|reflexivity|discriminate|].
  pose proof (candidatePaths_imagen _ Hp) as Hpaths.
  destruct (first_null _ Hin) as (pre & post & -> & Hpre).
  unfold maskBase64Content. cbn [truthy typeofObject negb orb].
  rewrite jsonClone_isJson, Hpaths by assumption. cbn [obind].
  rewrite length_app. cbn [List.length].
  rewrite seq_app, map_app, maskPaths_app. cbn [seq map].
  assert (Hd : ForallOrdPairs divergent
                 (map imagenPath (seq 0 (List.length pre)))).
  { apply divergent_map_NoDup; [apply seq_NoDup|apply divergent_imagenPath]. }
  destruct (@maskPaths_total (map imagenPath (seq 0 (List.length pre)))
              (JObj fields) Hd) as [m1 Hm1].
  { intros p Hi. apply in_map_iff in Hi as (i & <- & Hi). apply in_seq in Hi.
    rewrite (@getValueAtPath_imagenPath fields _ _ Hp).
    rewrite app_nth1 by lia. apply readable_not_null.
    rewrite forallb_forall in Hpre.
    apply negb_true_iff, Hpre, nth_In. lia. }
  { intros p Hi. apply in_map_iff in Hi as (i & <- & _).
    apply objectKeyed_imagenPath. }
  rewrite Hm1. cbn [obind maskPaths]. unfold maskAtPath.
  rewrite (@maskPaths_other _ _ _ (imagenPath (0 + List.length pre)) Hm1).
  - rewrite (@getValueAtPath_imagenPath fields _ _ Hp).
    rewrite Nat.add_0_l, nth_middle. reflexivity.
  - intros p Hi. apply in_map_iff in Hi as (i & <- & Hi). apply in_seq in Hi.
    apply divergent_imagenPath. lia.
Qed.

(** X6.  On a JSON response whose [predictions] is an array, the masker
    throws a [TypeError] exactly when one of the predictions is [null];
    otherwise it returns a copy. *)
Theorem maskBase64Content_imagen_throws_iff_null :
  forall (obj : value) (ps : list value),
    isJson obj = true ->
    getProp obj "predictions" = Ok (JArr ps) ->
    (In JNull ps ->
     maskBase64Content obj
     = Throw (TypeError "Cannot read properties of null (reading 'bytesBase64Encoded')"))
    /\
    (~ In JNull ps -> exists masked, maskBase64Content obj = Ok masked).
Proof.
  intros obj ps Hj Hp. split.
  - now apply maskBase64Content_null_prediction.
  - intros Hnot.
    destruct (@getProp_named_object obj "predictions" _ Hp) as [fields ->];
      [discriminate|reflexivity|discriminate|].
    pose proof (candidatePaths_imagen _ Hp) as Hpaths.
    destruct (@maskBase64Content_succeeds (JObj fields) _ Hj eq_refl Hpaths)
      as (masked & Hm & _); eauto.
    intros p Hi. apply in_map_iff in Hi as (i & <- & Hi). apply in_seq in Hi.
    rewrite (@getValueAtPath_imagenPath fields _ _ Hp). apply readable_not_null.
    destruct (nth i ps JUndef) eqn:E; auto.
    elim Hnot. rewrite <- E. apply nth_In. lia.
Qed.

Lemma maskBase64Content_imagen_throws_iff_null_witness :
  (In JNull [JObj [("bytesBase64Encoded", JStr "QQ==")]; JNull] ->
   maskBase64Content
     (JObj [("predictions", JArr [JObj [("bytesBase64Encoded", JStr "QQ==")]; JNull])])
   = Throw (TypeError "Cannot read properties of null (reading 'bytesBase64Encoded')"))
  /\
  (~ In JNull [JObj [("bytesBase64Encoded", JStr "QQ==")]; JNull] ->
   exists masked,
     maskBase64Content
       (JObj [("predictions", JArr [JObj [("bytesBase64Encoded", JStr "QQ==")]; JNull])])
     = Ok masked).
Proof.
  apply (@maskBase64Content_imagen_throws_iff_null
           (JObj [("predictions", JArr [JObj [("bytesBase64Encoded", JStr "QQ==")]; JNull])])
           [JObj [("bytesBase64Encoded", JStr "QQ==")]; JNull]);
    reflexivity.
Defined.

(* ================================================================== *)
(** * Further properties of the artifact writer *)

Lemma existsSync_mkdir fs dir : existsSync (mkdirSync fs dir) dir = true.
Proof. unfold existsSync. simpl. now rewrite String.eqb_refl. Qed.

(** X8.  [saveFile] with [isBase64] on data that is [undefined], [null],
    a boolean or a number throws a [TypeError] and writes no file, but by
    then it has created the directory of the path. *)
Theorem saveFile_rejects_non_string :
  forall (node : Platform) (fs : fileSystem) (filePath : string) (data : value),
    isContainer data = false -> (forall s, data <> JStr s) ->
    exists message fs',
      saveFile node filePath data true fs = (Throw (TypeError message), fs') /\
      files fs' = files fs /\
      existsSync fs' (path_dirname node filePath) = true.
Proof.
  intros node fs filePath data Hc Hs. unfold saveFile.
  destruct data; try discriminate; try (elim (Hs s); reflexivity);
    cbn [bufferFromBase64]; do 2 eexists; (split; [reflexivity|]);
    (destruct (existsSync fs (path_dirname node filePath)) eqn:E;
     split; auto using existsSync_mkdir).
Qed.

Lemma saveFile_rejects_non_string_witness :
  exists message fs',
    saveFile samplePlatform "out/a.png" (JNum 5%Q) true emptyFs
    = (Throw (TypeError message), fs') /\
    files fs' = files emptyFs /\
    existsSync fs' (path_dirname samplePlatform "out/a.png") = true.
Proof.
  apply (@saveFile_rejects_non_string samplePlatform emptyFs "out/a.png" (JNum 5%Q)).
  - reflexivity.
  - discriminate.
Defined.

(** X9.  What [imageToBase64] reads from a file, saved with [isBase64]
    under another path, gives a file with the same bytes. *)
Theorem imageToBase64_saveFile_copies :
  forall (node : Platform) (fs : fileSystem) (source target : string)
         (bytes : list ascii),
    readFile (files fs) source = Some (Bytes bytes) ->
    exists fs',
      imageToBase64 source fs = (Ok (base64Encode bytes), fs) /\
      saveFile node target (JStr (base64Encode bytes)) true fs = (Ok target, fs') /\
      readFile (files fs') target = Some (Bytes bytes).
Proof.
  intros node fs source target bytes Hr.
  eexists. unfold imageToBase64. rewrite Hr.
  split; [reflexivity|].
  split; [unfold saveFile; cbn [bufferFromBase64]; reflexivity|].
  rewrite base64Decode_encode. apply readFile_writeFileSync.
Qed.

Lemma imageToBase64_saveFile_copies_witness :
  exists fs',
    imageToBase64 "in.png"
      {| dirs := []; files := [("in.png", Bytes ["A"%char; "B"%char; "C"%char; "D"%char])] |}
    = (Ok (base64Encode ["A"%char; "B"%char; "C"%char; "D"%char]),
       {| dirs := []; files := [("in.png", Bytes ["A"%char; "B"%char; "C"%char; "D"%char])] |}) /\
    saveFile samplePlatform "out/copy.png"
      (JStr (base64Encode ["A"%char; "B"%char; "C"%char; "D"%char])) true
      {| dirs := []; files := [("in.png", Bytes ["A"%char; "B"%char; "C"%char; "D"%char])] |}
    = (Ok "out/copy.png", fs') /\
    readFile (files fs') "out/copy.png"
    = Some (Bytes ["A"%char; "B"%char; "C"%char; "D"%char]).
Proof.
  apply (@imageToBase64_saveFile_copies samplePlatform
           {| dirs := []; files := [("in.png", Bytes ["A"%char; "B"%char; "C"%char; "D"%char])] |}
           "in.png" "out/copy.png" ["A"%char; "B"%char; "C"%char; "D"%char]).
  reflexivity.
Defined.

(* ================================================================== *)
(** * Further properties of the Imagen generator *)

Lemma saveFile_base64_written node filePath data fs r fs' :
  saveFile node filePath data true fs = (Ok r, fs') ->
  exists bytes, files fs' = (filePath, Bytes bytes) :: files fs.
Proof.
  unfold saveFile.
  destruct data; cbn [bufferFromBase64]; intros H; inversion H; subst.
  eexists. cbn [writeFileSync files].
  destruct (existsSync fs _); reflexivity.
Qed.

Lemma binaryFiles_push fs fs' paths p bytes :
  files fs' = (p, Bytes bytes) :: files fs ->
  binaryFiles fs paths -> binaryFiles fs' (paths ++ [p]).
Proof.
  intros Hf Hb q Hq. rewrite Hf. cbn [readFile].
  destruct (String.eqb_spec p q) as [->|Hne]; [eauto|].
  apply in_app_or in Hq as [Hq|[->|[]]]; [auto|congruence].
Qed.

(** One step of a run [H : (do x <- m; k) fs = r] that is known to end
    well: [m] ended well too, with the value [x] in the state [fs1]. *)
Tactic Notation "run_step" hyp(H) "as" ident(x) ident(fs1) ident(E) :=
  unfold bind in H at 1;
  match type of H with
  | context [match ?m ?fs with _ => _ end] =>
      destruct (m fs) as [[x|?|] fs1] eqn:E; try discriminate H
  end.

Tactic Notation "run_lift" hyp(H) "as" ident(x) ident(E) :=
  unfold bind in H at 1; unfold lift in H at 1;
  match type of H with
  | context [match ?o with _ => _ end] =>
      destruct o as [x|?|] eqn:E; try discriminate H
  end.

Section ImagenResults.
Variable node : Platform.
Variables requestId outputDir : string.

Lemma imagenSaveImages_binary i images : forall index st fs st' fs',
  imagenSaveImages node requestId outputDir i index images st fs = (Ok st', fs') ->
  generatedCount st = List.length (savedImagePaths st) ->
  binaryFiles fs (savedImagePaths st) ->
  generatedCount st' = List.length (savedImagePaths st') /\
  binaryFiles fs' (savedImagePaths st').
Proof.
  induction images as [|img rest IH]; intros index st fs st' fs' H Hc Hb.
  - inversion H; subst; auto.
  - cbn [imagenSaveImages] in H. run_lift H as bytes Eb.
    destruct (truthy bytes); [|eauto].
    run_step H as name fs1 Es.
    apply saveFile_base64_written in Es as [b Hw].
    eapply IH; [exact H| |].
    + cbn [pushSaved generatedCount savedImagePaths].
      rewrite length_app. cbn. lia.
    + eapply binaryFiles_push; eauto.
Qed.

Lemma imagenExtract_binary i prediction st fs st' fs' :
  imagenExtract node requestId outputDir i prediction st fs = (Ok st', fs') ->
  generatedCount st = List.length (savedImagePaths st) ->
  binaryFiles fs (savedImagePaths st) ->
  generatedCount st' = List.length (savedImagePaths st') /\
  binaryFiles fs' (savedImagePaths st').
Proof.
  intros H Hc Hb. unfold imagenExtract in H. run_lift H as reason Er.
  destruct (truthy reason); [inversion H; subst; auto|].
  run_lift H as images Ei. run_lift H as standard Est.
  destruct standard.
  - destruct images; try discriminate H.
    eapply imagenSaveImages_binary; eauto.
  - run_lift H as bytes Eb.
    destruct (truthy bytes); [|inversion H; subst; auto].
    run_lift H as mimeType Em. run_lift H as pieces Ep. run_step H as name fs1 Es.
    inversion H; subst.
    apply saveFile_base64_written in Es as [b Hw].
    split.
    + cbn [pushSaved generatedCount savedImagePaths].
      rewrite length_app. cbn. lia.
    + eapply binaryFiles_push; eauto.
Qed.

Lemma imagenExtractAll_binary predictions indices : forall st fs st' fs',
  imagenExtractAll node requestId outputDir predictions indices st fs = (Ok st', fs') ->
  generatedCount st = List.length (savedImagePaths st) ->
  binaryFiles fs (savedImagePaths st) ->
  generatedCount st' = List.length (savedImagePaths st') /\
  binaryFiles fs' (savedImagePaths st').
Proof.
  induction indices as [|i rest IH]; intros st fs st' fs' H Hc Hb.
  - inversion H; subst; auto.
  - cbn [imagenExtractAll] in H. run_lift H as prediction Ep.
    run_step H as st1 fs1 Ee.
    destruct (imagenExtract_binary _ _ _ Ee Hc Hb) as [Hc' Hb'].
    eauto.
Qed.

Lemma imagenFilterScan_blocked predictions indices : forall n r,
  imagenFilterScan predictions indices n = Ok (AllFiltered r) ->
  getProp r "success" = Ok (JBool false).
Proof.
  induction indices as [|i rest IH]; intros n r H; [discriminate|].
  cbn [imagenFilterScan] in H.
  destruct (getProp predictions (natToString i)) as [prediction| |];
    try discriminate H.
  cbn [obind] in H.
  destruct (getProp prediction "raiFilteredReason") as [reason| |];
    try discriminate H.
  cbn [obind] in H.
  destruct (truthy reason); [|eauto].
  destruct (methodIncludes reason allFilteredMessage) as [[]| |];
    try discriminate H; cbn [obind] in H.
  - inversion H; subst. reflexivity.
  - destruct (methodMatchFiltered reason) as [[ds|]| |]; try discriminate H;
      cbn [obind] in H; eauto.
Qed.

Lemma imagenNormalize_success result requestFilename responseFilename fs v fs' :
  imagenNormalize node requestId outputDir result requestFilename
    responseFilename fs = (Ok v, fs') ->
  getProp v "success" = Ok (JBool true) ->
  exists paths blockedCount,
    paths <> [] /\
    v = JObj [("success", JBool true);
              ("outputDir", JStr outputDir);
              ("images", strings paths);
              ("generated", numOfNat (List.length paths));
              ("blocked", numOfNat blockedCount)] /\
    binaryFiles fs' paths.
Proof.
  intros H Hs. unfold imagenNormalize in H. run_lift H as found Ef.
  destruct found as [predictions|]; [|inversion H; subst; discriminate Hs].
  run_lift H as len El. run_lift H as bound Eb. run_lift H as scan Esc.
  destruct scan as [blocked|blockedCount].
  - inversion H; subst.
    rewrite (imagenFilterScan_blocked _ _ _ Esc) in Hs. discriminate Hs.
  - run_step H as s fs1 Ee.
    destruct (imagenExtractAll_binary _ _ _ Ee eq_refl) as [Hc Hb].
    { intros p []. }
    destruct (0 <? List.length (savedImagePaths s))%nat eqn:Hlen;
      inversion H; subst; [|discriminate Hs].
    exists (savedImagePaths s), blockedCount.
    rewrite <- Hc. split; [|split; [reflexivity|exact Hb]].
    apply Nat.ltb_lt in Hlen. destruct (savedImagePaths s); [inversion Hlen|discriminate].
Qed.

End ImagenResults.

Section ImagenGenerator.
Variable node : Platform.
Variable world : World.
Variable options : imagenOptions.

Lemma imagenHttpError_reports response v :
  imagenHttpError response = Ok v ->
  getProp v "success" = Ok (JBool false) /\
  getProp v "statusCode" = Ok (numOfNat (resp_status response)).
Proof.
  unfold imagenHttpError. intros H.
  repeat match type of H with
         | context [obind ?x _] =>
             destruct x; try discriminate H; cbn [obind] in H
         | context [match ?x with _ => _ end] =>
             destruct x; try discriminate H; cbn [obind] in H
         | context [if ?x then _ else _] =>
             destruct x; try discriminate H; cbn [obind] in H
         end;
    inversion H; subst; split; reflexivity.
Qed.

Lemma maskBase64Content_defined obj masked :
  maskBase64Content obj = Ok masked -> obj <> JUndef -> masked <> JUndef.
Proof.
  intros Hm Hne.
  destruct (isContainer obj) eqn:Hc.
  - apply isContainer_defined. eapply maskBase64Content_container; eauto.
  - unfold maskBase64Content in Hm.
    destruct obj; try discriminate Hc; cbn [typeofObject negb] in Hm;
      rewrite ?orb_true_r in Hm; cbn in Hm; inversion Hm; subst; congruence.
Qed.

(** What a run of [generateImagesWithImagen] that returns [v] went
    through: the [catch], the branch of an HTTP error, or the
    normalizer. *)
Lemma generateImagesWithImagen_returns fs v fs' :
  generateImagesWithImagen node world options fs = (Ok v, fs') ->
  (exists e, v = failure e) \/
  (exists response, resp_ok response = false /\
                    imagenHttpError response = Ok v) \/
  (exists result fs0,
      imagenNormalize node (imagenRequestId world) (imagenOutputDir options)
        result (imagenRequestName node world options)
        (imagenResponseName node world options) fs0 = (Ok v, fs')).
Proof.
  unfold generateImagesWithImagen, tryCatch. intros H.
  match type of H with
  | context [match ?body fs with _ => _ end] =>
      destruct (body fs) as [[v0|e|] fs0] eqn:B; try discriminate H
  end.
  2:{ inversion H; subst. left. eauto. }
  inversion H; subst. clear H. right.
  run_lift B as cfg Ec. run_lift B as token Et.
  run_step B as response fs1 Ef.
  destruct (resp_ok response) eqn:Hok; cbn [negb] in B.
  - right. run_lift B as result Ej.
    run_step B as u1 fs2 E1. run_step B as u2 fs3 E2.
    run_step B as n1 fs4 E3. run_step B as n2 fs5 E4.
    exists result, fs5. exact B.
  - left. unfold lift in B. inversion B; subst. eauto.
Qed.

Lemma imagenNormalize_reports requestId outputDir result requestFilename
      responseFilename fs v fs' :
  imagenNormalize node requestId outputDir result requestFilename
    responseFilename fs = (Ok v, fs') ->
  reportsSuccess v.
Proof.
  intros H. unfold imagenNormalize in H. run_lift H as found Ef.
  destruct found as [predictions|];
    [|inversion H; subst; eexists; reflexivity].
  run_lift H as len El. run_lift H as bound Eb. run_lift H as scan Esc.
  destruct scan as [blocked|blockedCount].
  - inversion H; subst. eexists. eapply imagenFilterScan_blocked; eauto.
  - run_step H as s fs1 Ee.
    destruct (0 <? List.length (savedImagePaths s))%nat;
      inversion H; subst; eexists; reflexivity.
Qed.

(** The request reaches the normalizer when the call returns a response
    that can be masked. *)
Lemma generateImagesWithImagen_normalizes fs token response result masked :
  saveConfigResult world = Ok tt ->
  accessToken world = Ok token ->
  firstFetch world = Ok response ->
  resp_ok response = true ->
  resp_json response = Ok result ->
  maskBase64Content result = Ok masked -> masked <> JUndef ->
  exists fs1 fs2,
    onlyTextAdded fs fs1 /\
    files fs2
    = (imagenResponseName node world options,
       Text (JSON_stringify node masked 2))
      :: (imagenRequestName node world options,
          Text (JSON_stringify node (imagenRequestData options) 2))
      :: files fs1 /\
    generateImagesWithImagen node world options fs
    = tryCatch
        (imagenNormalize node (imagenRequestId world) (imagenOutputDir options)
           result (imagenRequestName node world options)
           (imagenResponseName node world options))
        (fun error => ret (failure error)) fs2.
Proof.
  intros Hcfg Htok Hfetch Hok Hjson Hmask Hne.
  unfold generateImagesWithImagen, tryCatch.
  unfold bind at 1, lift at 1. rewrite Hcfg.
  unfold bind at 1, lift at 1. rewrite Htok.
  unfold bind at 1.
  match goal with
  | |- context [fetchWithProxy node world ?u ?o ?r ?d fs] =>
      destruct (@fetchWithProxy_ok node world u o r d response fs Hfetch)
        as (fs1 & -> & T1)
  end.
  rewrite Hok. cbn [negb].
  unfold bind at 1, lift at 1. rewrite Hjson.
  unfold bind at 1.
  destruct (ensureDir_files (imagenOutputDir options) fs1) as (fs2 & -> & F2).
  unfold bind at 1.
  destruct (ensureDir_files (imagenJsonDir options) fs2) as (fs3 & -> & F3).
  unfold bind at 1. unfold stringify at 1. cbn [imagenRequestData].
  match goal with
  | |- context [saveFile node ?f (JStr ?t) false fs3] =>
      destruct (@saveFile_text node f t fs3) as (fs4 & -> & F4)
  end.
  unfold bind at 1.
  match goal with
  | |- context [maskAndSaveJson node result ?f fs4] =>
      destruct (@maskAndSaveJson_ok node result masked f fs4 Hmask Hne)
        as (fs5 & -> & F5)
  end.
  exists fs1, fs5. split; [exact T1|]. split; [|reflexivity].
  rewrite F5, F4, F3, F2. reflexivity.
Qed.

(** X10.  [generateImagesWithImagen] never throws, and what it returns is
    an object with a boolean [success] (runs that depend on a coercion the
    embedding leaves out are not covered). *)
Theorem generateImagesWithImagen_reports_success :
  forall (fs : fileSystem),
    match fst (generateImagesWithImagen node world options fs) with
    | Ok v => reportsSuccess v
    | Throw _ => False
    | Unmodelled => True
    end.
Proof.
  intros fs.
  destruct (generateImagesWithImagen node world options fs) as [[v|e|] fs']
    eqn:H; cbn [fst]; auto.
  - destruct (generateImagesWithImagen_returns _ H)
      as [[e ->]|[(response & _ & Hr)|(result & fs0 & Hn)]].
    + eexists. reflexivity.
    + eexists. eapply imagenHttpError_reports; eauto.
    + eapply imagenNormalize_reports; eauto.
  - unfold generateImagesWithImagen, tryCatch in H.
    match type of H with
    | context [match ?body fs with _ => _ end] =>
        destruct (body fs) as [[v0|e0|] fs0]; discriminate H
    end.
Qed.

(** X11.  When [generateImagesWithImagen] reports success, it lists at
    least one image, [generated] is the number of images listed, and
    every listed path is a binary file. *)
Theorem generateImagesWithImagen_success_accounts :
  forall (fs fs' : fileSystem) (v : value),
    generateImagesWithImagen node world options fs = (Ok v, fs') ->
    getProp v "success" = Ok (JBool true) ->
    exists (paths : list string) (blockedCount : nat),
      paths <> [] /\
      v = JObj [("success", JBool true);
                ("outputDir", JStr (imagenOutputDir options));
                ("images", strings paths);
                ("generated", numOfNat (List.length paths));
                ("blocked", numOfNat blockedCount)] /\
      binaryFiles fs' paths.
Proof.
  intros fs fs' v H Hs.
  destruct (generateImagesWithImagen_returns _ H)
    as [[e ->]|[(response & _ & Hr)|(result & fs0 & Hn)]].
  - discriminate Hs.
  - apply imagenHttpError_reports in Hr as [Hr _]. congruence.
  - eapply imagenNormalize_success; eauto.
Qed.

(** X12.  A response without [predictions], or with an empty array of
    them, gives the failure ["No predictions found in response"] naming
    the two JSON artifacts, and both have been written. *)
Theorem generateImagesWithImagen_no_predictions :
  forall (fs : fileSystem) (token : string) (response : Response)
         (result masked : value),
    saveConfigResult world = Ok tt ->
    accessToken world = Ok token ->
    firstFetch world = Ok response ->
    resp_ok response = true ->
    resp_json response = Ok result ->
    maskBase64Content result = Ok masked ->
    result = JNull \/ getProp result "predictions" = Ok JUndef
    \/ getProp result "predictions" = Ok (JArr []) ->
    exists fs1 fs',
      generateImagesWithImagen node world options fs
      = (Ok (JObj [("success", JBool false);
                   ("error", JStr "No predictions found in response");
                   ("jsonFiles",
                    JObj [("request", JStr (imagenRequestName node world options));
                          ("response", JStr (imagenResponseName node world options))])]),
         fs') /\
      onlyTextAdded fs fs1 /\
      files fs'
      = (imagenResponseName node world options,
         Text (JSON_stringify node masked 2))
        :: (imagenRequestName node world options,
            Text (JSON_stringify node (imagenRequestData options) 2))
        :: files fs1.
Proof.
  intros fs token response result masked Hcfg Htok Hfetch Hok Hjson Hmask Hcase.
  assert (Hne : masked <> JUndef).
  { eapply maskBase64Content_defined; eauto.
    destruct Hcase as [->|[H|H]]; [discriminate| |];
      intros ->; discriminate H. }
  destruct (generateImagesWithImagen_normalizes fs Hcfg Htok Hfetch Hok Hjson
              Hmask Hne) as (fs1 & fs2 & T & F & ->).
  exists fs1, fs2. split; [|auto].
  unfold tryCatch, imagenNormalize. unfold bind at 1, lift at 1.
  destruct Hcase as [->|[H|H]].
  - reflexivity.
  - destruct (truthy result); [rewrite H|]; reflexivity.
  - destruct (truthy result); [rewrite H|]; reflexivity.
Qed.

End ImagenGenerator.

Lemma generateImagesWithImagen_success_accounts_witness :
  exists (paths : list string) (blockedCount : nat),
    paths <> [] /\
    JObj [("success", JBool true); ("outputDir", JStr "./images");
          ("images", JArr [JStr "./images/imagen_1700000000000_1.png"]);
          ("generated", numOfNat 1); ("blocked", numOfNat 2)]
    = JObj [("success", JBool true);
            ("outputDir", JStr (imagenOutputDir sampleImagenOptions));
            ("images", strings paths);
            ("generated", numOfNat (List.length paths));
            ("blocked", numOfNat blockedCount)] /\
    binaryFiles
      {| dirs := ["."; "./output"; "./images"];
         files := [("./images/imagen_1700000000000_1.png", Bytes ["A"%char]);
                   ("./output/imagen_1700000000000_response.json", Text "{}");
                   ("./output/imagen_1700000000000_request.json", Text "{}")] |}
      paths.
Proof.
  refine (@generateImagesWithImagen_success_accounts samplePlatform
            (worldReturning partlyFilteredResponse) sampleImagenOptions
            emptyFs _ _ _ _).
  - reflexivity.
  - reflexivity.
Defined.

Lemma generateImagesWithImagen_no_predictions_witness :
  exists fs1 fs',
    generateImagesWithImagen samplePlatform
      (worldReturning (JObj [("predictions", JArr [])])) sampleImagenOptions emptyFs
    = (Ok (JObj [("success", JBool false);
                 ("error", JStr "No predictions found in response");
                 ("jsonFiles",
                  JObj [("request", JStr "./output/imagen_1700000000000_request.json");
                        ("response", JStr "./output/imagen_1700000000000_response.json")])]),
       fs') /\
    onlyTextAdded emptyFs fs1 /\
    files fs'
    = ("./output/imagen_1700000000000_response.json", Text "{}")
      :: ("./output/imagen_1700000000000_request.json", Text "{}")
      :: files fs1.
Proof.
  refine (@generateImagesWithImagen_no_predictions samplePlatform
            (worldReturning (JObj [("predictions", JArr [])])) sampleImagenOptions
            emptyFs "token" (okResponse (JObj [("predictions", JArr [])]))
            (JObj [("predictions", JArr [])]) (JObj [("predictions", JArr [])])
            _ _ _ _ _ _ _); try reflexivity.
  right. right. reflexivity.
Defined.

Lemma splitOn_none (sep : ascii) (s : string) :
  lacks sep s = true -> splitOn sep s = (s, []).
Proof.
  intros H. rewrite <- (append_empty_r s) at 1.
  rewrite splitOn_plain by assumption. cbn. now rewrite append_empty_r.
Qed.

(** X13.  In the direct format (a prediction without filter reason and
    without images, holding its payload under [bytesBase64Encoded]) the
    one file written is [<requestId>_<i>.<ext>], where [ext] is the
    subtype of [mimeType] and [png] when [mimeType] is missing or empty,
    has no slash or has nothing after it. *)
Theorem imagenExtract_direct_name :
  forall (node : Platform) (requestId outputDir : string) (i : nat)
         (prediction reason images mimeType : value) (data ext : string)
         (st : saved) (fs : fileSystem),
    getProp prediction "raiFilteredReason" = Ok reason ->
    truthy reason = false ->
    getProp prediction "images" = Ok images ->
    truthy images = false \/ images = JArr [] ->
    getProp prediction "bytesBase64Encoded" = Ok (JStr data) ->
    data <> "" ->
    getProp prediction "mimeType" = Ok mimeType ->
    directExtension mimeType ext ->
    exists fs',
      imagenExtract node requestId outputDir i prediction st fs
      = (Ok (pushSaved st (directName node requestId outputDir i ext)), fs') /\
      files fs'
      = (directName node requestId outputDir i ext, Bytes (base64Decode data))
        :: files fs.
Proof.
  intros node requestId outputDir i prediction reason images mimeType data ext
         st fs Hr Hf Hi Himg Hb Hd Hm Hext.
  unfold imagenExtract. unfold bind at 1, lift at 1. rewrite Hr, Hf.
  unfold bind at 1, lift at 1. rewrite Hi.
  unfold bind at 1, lift at 1.
  assert (Hstd : (if truthy images
                  then let? n := getProp images "length" in gtZero n
                  else Ok false) = Ok false).
  { destruct Himg as [->| ->]; reflexivity. }
  rewrite Hstd.
  unfold bind at 1, lift at 1. rewrite Hb.
  assert (Ht : truthy (JStr data) = true).
  { cbn. apply negb_true_iff. now apply String.eqb_neq. }
  rewrite Ht.
  unfold bind at 1, lift at 1. rewrite Hm.
  assert (Hpieces :
            exists pieces,
              methodSplitSlash (orElse mimeType (JStr "image/png")) = Ok pieces /\
              match nth_error (snd pieces) 0 with
              | Some e => if String.eqb e "" then "png" else e
              | None => "png"
              end = ext).
  { destruct Hext as [m Hm0|type Hne Hl|type Hl|type subtype Hl Hl' Hne].
    - unfold orElse. rewrite Hm0. eexists. split; reflexivity.
    - unfold orElse.
      replace (truthy (JStr type)) with true
        by (symmetry; cbn; apply negb_true_iff; now apply String.eqb_neq).
      cbn [methodSplitSlash]. rewrite splitOn_none by assumption.
      eexists. split; reflexivity.
    - unfold orElse.
      replace (truthy (JStr (type ++ "/"))) with true
        by (symmetry; cbn; apply negb_true_iff, String.eqb_neq;
            destruct type; discriminate).
      cbn [methodSplitSlash].
      change (type ++ "/")%string with (type ++ String "/" "")%string.
      rewrite splitOn_two by auto. eexists. split; reflexivity.
    - unfold orElse.
      replace (truthy (JStr (type ++ "/" ++ subtype))) with true
        by (symmetry; cbn; apply negb_true_iff, String.eqb_neq;
            destruct type; discriminate).
      cbn [methodSplitSlash].
      change (type ++ "/" ++ subtype)%string with (type ++ String "/" subtype)%string.
      rewrite splitOn_two by auto. eexists. split; [reflexivity|].
      cbn [snd nth_error].
      destruct (String.eqb_spec subtype ""); congruence. }
  destruct Hpieces as (pieces & Hp & He).
  unfold bind at 1, lift at 1. rewrite Hp. rewrite He.
  fold (directName node requestId outputDir i ext).
  unfold bind at 1. unfold saveFile. cbn [bufferFromBase64].
  eexists. split; [reflexivity|].
  cbn [writeFileSync files]. now destruct (existsSync fs _).
Qed.

Lemma imagenExtract_direct_name_witness :
  exists fs',
    imagenExtract samplePlatform "imagen_7" "./images" 3 directJpeg noneSaved emptyFs
    = (Ok (pushSaved noneSaved (directName samplePlatform "imagen_7" "./images" 3 "jpeg")),
       fs') /\
    files fs'
    = (directName samplePlatform "imagen_7" "./images" 3 "jpeg",
       Bytes (base64Decode "QQ=="))
      :: files emptyFs.
Proof.
  refine (@imagenExtract_direct_name samplePlatform "imagen_7" "./images" 3
            directJpeg JUndef JUndef (JStr "image/jpeg") "QQ==" "jpeg"
            noneSaved emptyFs _ _ _ _ _ _ _ _); try reflexivity.
  - left. reflexivity.
  - discriminate.
  - apply (@direct_subtype "image" "jpeg"); try reflexivity. discriminate.
Defined.

Section ImagenFailures.
Variable node : Platform.
Variable world : World.
Variable options : imagenOptions.

Lemma fetchWithProxy_quiet url opts requestId outputDir response fs :
  firstFetch world = Ok response -> debugFlag world = false ->
  fetchWithProxy node world url opts requestId outputDir fs = (Ok response, fs).
Proof.
  intros Hf Hd. unfold fetchWithProxy. now rewrite Hf, Hd.
Qed.

Lemma generateImagesWithImagen_http_error fs token response :
  saveConfigResult world = Ok tt ->
  accessToken world = Ok token ->
  firstFetch world = Ok response ->
  resp_ok response = false ->
  debugFlag world = false ->
  generateImagesWithImagen node world options fs
  = (match imagenHttpError response with
     | Throw e => Ok (failure e)
     | r => r
     end, fs).
Proof.
  intros Hcfg Htok Hfetch Hok Hdbg.
  unfold generateImagesWithImagen, tryCatch.
  unfold bind at 1, lift at 1. rewrite Hcfg.
  unfold bind at 1, lift at 1. rewrite Htok.
  unfold bind at 1.
  rewrite (fetchWithProxy_quiet _ _ _ _ fs Hfetch Hdbg).
  rewrite Hok. cbn [negb]. unfold lift.
  destruct (imagenHttpError response); reflexivity.
Qed.

(** X14.  Without [--debug], a response with an HTTP error status makes
    [generateImagesWithImagen] write no file and create no directory (the
    preference store aside); what it returns is a failure carrying the
    status code, or the failure made from the exception when the body
    cannot be read. *)
Theorem generateImagesWithImagen_http_error_writes_nothing :
  forall (fs : fileSystem) (token : string) (response : Response),
    saveConfigResult world = Ok tt ->
    accessToken world = Ok token ->
    firstFetch world = Ok response ->
    resp_ok response = false ->
    debugFlag world = false ->
    snd (generateImagesWithImagen node world options fs) = fs /\
    match fst (generateImagesWithImagen node world options fs) with
    | Ok v =>
        getProp v "success" = Ok (JBool false) /\
        (getProp v "statusCode" = Ok (numOfNat (resp_status response)) \/
         exists e, v = failure e)
    | Throw _ => False
    | Unmodelled => True
    end.
Proof.
  intros fs token response Hcfg Htok Hfetch Hok Hdbg.
  rewrite (generateImagesWithImagen_http_error fs Hcfg Htok Hfetch Hok Hdbg).
  cbn [fst snd]. split; [reflexivity|].
  destruct (imagenHttpError response) as [v|e|] eqn:E.
  - apply imagenHttpError_reports in E as [E1 E2]. auto.
  - split; [reflexivity|]. right. eauto.
  - exact I.
Qed.

(** X15.  A response whose [predictions] hold a [null] makes
    [generateImagesWithImagen] return the failure of the masker's
    [TypeError]: the request JSON is the only artifact written, and no
    image of the other predictions is saved. *)
Theorem generateImagesWithImagen_null_prediction :
  forall (fs : fileSystem) (token : string) (response : Response)
         (result : value) (ps : list value),
    saveConfigResult world = Ok tt ->
    accessToken world = Ok token ->
    firstFetch world = Ok response ->
    resp_ok response = true ->
    resp_json response = Ok result ->
    isJson result = true ->
    getProp result "predictions" = Ok (JArr ps) ->
    In JNull ps ->
    exists fs1 fs',
      generateImagesWithImagen node world options fs
      = (Ok (JObj [("success", JBool false);
                   ("error",
                    JStr "Cannot read properties of null (reading 'bytesBase64Encoded')")]),
         fs') /\
      onlyTextAdded fs fs1 /\
      files fs'
      = (imagenRequestName node world options,
         Text (JSON_stringify node (imagenRequestData options) 2))
        :: files fs1.
Proof.
  intros fs token response result ps Hcfg Htok Hfetch Hok Hjson Hj Hp Hin.
  pose proof (maskBase64Content_null_prediction _ Hj Hp Hin) as Hmask.
  unfold generateImagesWithImagen, tryCatch.
  unfold bind at 1, lift at 1. rewrite Hcfg.
  unfold bind at 1, lift at 1. rewrite Htok.
  unfold bind at 1.
  match goal with
  | |- context [fetchWithProxy node world ?u ?o ?r ?d fs] =>
      destruct (@fetchWithProxy_ok node world u o r d response fs Hfetch)
        as (fs1 & -> & T1)
  end.
  rewrite Hok. cbn [negb].
  unfold bind at 1, lift at 1. rewrite Hjson.
  unfold bind at 1.
  destruct (ensureDir_files (imagenOutputDir options) fs1) as (fs2 & -> & F2).
  unfold bind at 1.
  destruct (ensureDir_files (imagenJsonDir options) fs2) as (fs3 & -> & F3).
  unfold bind at 1. unfold stringify at 1. cbn [imagenRequestData].
  match goal with
  | |- context [saveFile node ?f (JStr ?t) false fs3] =>
      destruct (@saveFile_text node f t fs3) as (fs4 & -> & F4)
  end.
  unfold bind at 1.
  rewrite (maskAndSaveJson_throws node _ _ fs4 Hmask).
  exists fs1, fs4. split; [reflexivity|]. split; [exact T1|].
  rewrite F4, F3, F2. reflexivity.
Qed.

End ImagenFailures.

Lemma generateImagesWithImagen_http_error_writes_nothing_witness :
  snd (generateImagesWithImagen samplePlatform worldRefusing sampleImagenOptions
         emptyFs) = emptyFs /\
  match fst (generateImagesWithImagen samplePlatform worldRefusing
               sampleImagenOptions emptyFs) with
  | Ok v =>
      getProp v "success" = Ok (JBool false) /\
      (getProp v "statusCode" = Ok (numOfNat (resp_status refusal)) \/
       exists e, v = failure e)
  | Throw _ => False
  | Unmodelled => True
  end.
Proof.
  apply (@generateImagesWithImagen_http_error_writes_nothing samplePlatform
           worldRefusing sampleImagenOptions emptyFs "token" refusal);
    reflexivity.
Defined.

Lemma generateImagesWithImagen_null_prediction_witness :
  exists fs1 fs',
    generateImagesWithImagen samplePlatform
      (worldReturning
         (JObj [("predictions",
                 JArr [JObj [("bytesBase64Encoded", JStr "QQ==")]; JNull])]))
      sampleImagenOptions emptyFs
    = (Ok (JObj [("success", JBool false);
                 ("error",
                  JStr "Cannot read properties of null (reading 'bytesBase64Encoded')")]),
       fs') /\
    onlyTextAdded emptyFs fs1 /\
    files fs'
    = ("./output/imagen_1700000000000_request.json", Text "{}") :: files fs1.
Proof.
  refine (@generateImagesWithImagen_null_prediction samplePlatform
            (worldReturning
               (JObj [("predictions",
                       JArr [JObj [("bytesBase64Encoded", JStr "QQ==")]; JNull])]))
            sampleImagenOptions emptyFs "token" _ _
            [JObj [("bytesBase64Encoded", JStr "QQ==")]; JNull]
            _ _ _ _ _ _ _ _); try reflexivity.
  right. left. reflexivity.
Defined.

(* ================================================================== *)
(** * Further properties of the Gemini generator *)

Section GeminiResults.
Variable node : Platform.
Variables requestId outputDir jsonDir : string.

(** [geminiExtractParts_yield] for a run of parts inside the array, with
    indices left to visit afterwards. *)
Lemma geminiExtractParts_yield_then (parts mid : list value) ys :
  partsYield mid ys ->
  forall pre post more st fs,
    parts = pre ++ mid ++ post ->
    exists st' fs',
      geminiExtractParts node requestId outputDir (JArr parts)
        (seq (List.length pre) (List.length mid) ++ more) (st, fs)
      = geminiExtractParts node requestId outputDir (JArr parts) more (st', fs') /\
      imagePaths st'
      = imagePaths st ++ map fst (generatedFiles node requestId outputDir (imageCount st) ys) /\
      imageCount st' = (imageCount st + List.length ys)%nat /\
      files fs' = List.rev (generatedFiles node requestId outputDir (imageCount st) ys) ++ files fs.
Proof.
  induction 1 as [|part type subtype data rest ys Hin _ IH
                  |part rest ys Htext _ IH];
    intros pre post more st fs Hparts; subst parts.
  - exists st, fs. cbn. rewrite app_nil_r. repeat split; lia.
  - destruct Hin as (inlineData & Hi & Hd & Hne & Hm & Hty & Hsub).
    cbn [List.length seq]. rewrite <- !app_comm_cons.
    cbn [geminiExtractParts].
    unfold bind at 1, lift at 1.
    rewrite getProp_array_index, nth_middle.
    unfold bind at 1, lift at 1. rewrite Hi.
    assert (Htr : truthy inlineData = true).
    { destruct (@getProp_named_object inlineData "data" _ Hd) as [f ->];
        [discriminate|reflexivity|discriminate|reflexivity]. }
    assert (Htd : truthy (JStr data) = true).
    { cbn. apply negb_true_iff. now apply String.eqb_neq. }
    unfold bind at 1, lift at 1. rewrite Htr, Hd. cbn [andb]. rewrite Htd.
    unfold bind at 1, onLocal at 1, modify at 1. cbn [fst snd].
    unfold bind at 1, lift at 1. rewrite Hm.
    assert (Hmt : orElse (JStr (type ++ "/" ++ subtype)) (JStr "image/png")
                  = JStr (type ++ "/" ++ subtype)).
    { unfold orElse. cbn. destruct type; reflexivity. }
    rewrite Hmt. unfold bind at 1, lift at 1. cbn [methodSplitSlash].
    change (type ++ "/" ++ subtype)%string with (type ++ String "/" subtype)%string.
    rewrite splitOn_two by assumption. cbn [snd nth_error].
    unfold bind at 1, getState at 1. cbn [fst countImage imageCount].
    unfold bind at 1, onFiles at 1. cbn [snd fst].
    unfold saveFile at 1. cbn [bufferFromBase64].
    unfold bind at 1, onLocal at 1, modify at 1. cbn [fst snd].
    fold (generatedName node requestId outputDir (S (imageCount st)) subtype).
    set (fs1 := writeFileSync _ _ _).
    set (st1 := pushImage _ _).
    destruct (IH (pre ++ [part]) post more st1 fs1)
      as (st' & fs' & E & H1 & H2 & H3).
    { now rewrite <- app_assoc. }
    rewrite length_app, Nat.add_1_r in E.
    exists st', fs'. split; [exact E|].
    subst st1 fs1.
    cbn [pushImage countImage imagePaths imageCount] in H1, H2, H3.
    cbn [generatedFiles map List.rev List.length fst].
    rewrite H1, H2, H3. rewrite <- !app_assoc. cbn [app].
    repeat split; try lia.
    cbn [writeFileSync files]. f_equal. f_equal.
    now destruct (existsSync fs _).
  - destruct Htext as (text & _ & Hi).
    cbn [List.length seq]. rewrite <- !app_comm_cons.
    cbn [geminiExtractParts].
    unfold bind at 1, lift at 1.
    rewrite getProp_array_index, nth_middle.
    unfold bind at 1, lift at 1. rewrite Hi.
    unfold bind at 1, lift at 1. cbn [truthy andb].
    destruct (IH (pre ++ [part]) post more st fs)
      as (st' & fs' & E & H1 & H2 & H3).
    { now rewrite <- app_assoc. }
    rewrite length_app, Nat.add_1_r in E.
    exists st', fs'. auto.
Qed.




(** X17.  When a part with a payload has a [mimeType] that is set and is
    not a string, the exception is caught inside [processGeminiResponse]:
    the result is a success with a warning that lists the images of the
    parts before it, which stay on disk; the parts after it are not
    looked at. *)
Theorem processGeminiResponse_warning_keeps_images :
  forall (result masked c0 finishReason content bad : value)
         (others good rest : list value) (ys : list (string * string))
         (fs : fileSystem),
    maskBase64Content result = Ok masked ->
    getProp result "candidates" = Ok (JArr (c0 :: others)) ->
    getProp c0 "finishReason" = Ok finishReason ->
    strictEqStr finishReason "IMAGE_SAFETY" = false ->
    getProp c0 "content" = Ok content ->
    getProp content "parts" = Ok (JArr (good ++ bad :: rest)) ->
    partsYield good ys ->
    unsplittablePart bad ->
    exists fs',
      processGeminiResponse node requestId outputDir jsonDir result fs
      = (Ok (JObj [("success", JBool true);
                   ("outputDir", JStr outputDir);
                   ("images",
                    strings (map fst (generatedFiles node requestId outputDir 0 ys)));
                   ("warning", JStr "处理响应的某些部分时出错")]),
         fs') /\
      files fs'
      = List.rev (generatedFiles node requestId outputDir 0 ys)
        ++ (responseName node requestId jsonDir, Text (JSON_stringify node masked 2))
        :: files fs.
Proof.
  intros result masked c0 finishReason content bad others good rest ys fs
         Hm Hc Hf Hs Hcontent Hparts Hy Hbad.
  destruct (@getProp_named_object result "candidates" _ Hc) as [fields ->];
    [discriminate|reflexivity|discriminate|].
  destruct (@getProp_named_object content "parts" _ Hparts) as [cf ->];
    [discriminate|reflexivity|discriminate|].
  pose proof (@maskBase64Content_container (JObj fields) masked eq_refl Hm) as Hcont.
  unfold processGeminiResponse. unfold bind at 1.
  destruct (@maskAndSaveJson_ok node _ masked (responseName node requestId jsonDir) fs Hm
              (@isContainer_defined masked Hcont)) as (fs1 & E1 & F1).
  fold (responseName node requestId jsonDir). rewrite E1.
  unfold bind at 1, lift at 1.
  rewrite (geminiSafetyBlocked_first _ Hc Hf), Hs.
  destruct (@geminiExtractParts_yield_then (good ++ bad :: rest) good ys Hy []
              (bad :: rest)
              (seq (List.length good) (S (List.length rest)))
              noExtraction fs1 eq_refl) as (st' & fs' & E & H1 & H2 & H3).
  cbn [List.length imagePaths imageCount noExtraction app] in E, H1, H2, H3.
  assert (Hx : exists st'',
             geminiExtract node requestId outputDir (JObj fields)
               (noExtraction, fs1)
             = (Throw (TypeError "split is not a function"), (st'', fs')) /\
             imagePaths st'' = imagePaths st').
  { unfold geminiExtract. unfold bind at 1, lift at 1. rewrite Hc.
    unfold bind at 1, lift at 1. cbn [truthy].
    change (getProp (JArr (c0 :: others)) "length")
      with (Ok (numOfNat (S (List.length others)))).
    cbn [obind]. rewrite gtZero_numOfNat. cbn [Nat.ltb Nat.leb].
    unfold bind at 1, lift at 1.
    change "0" with (natToString 0). rewrite getProp_array_index. cbn [nth].
    unfold bind at 1, lift at 1. rewrite Hcontent.
    unfold bind at 1, lift at 1. cbn [truthy]. rewrite Hparts. cbn [andb truthy].
    unfold bind at 1, lift at 1.
    change (getProp (JArr (good ++ bad :: rest)) "length")
      with (Ok (numOfNat (List.length (good ++ bad :: rest)))).
    unfold bind at 1, lift at 1. rewrite loopBound_numOfNat.
    rewrite length_app. cbn [List.length]. rewrite seq_app. cbn [Nat.add].
    rewrite E. clear E.
    destruct Hbad as (inlineData & imageData & mimeType & Hi & Hti & Hd & Htd
                      & Hmt & Htm & Hns).
    cbn [seq geminiExtractParts].
    unfold bind at 1, lift at 1.
    rewrite getProp_array_index, nth_middle.
    unfold bind at 1, lift at 1. rewrite Hi.
    unfold bind at 1, lift at 1. rewrite Hti, Hd. cbn [andb]. rewrite Htd.
    unfold bind at 1, onLocal at 1, modify at 1. cbn [fst snd].
    unfold bind at 1, lift at 1. rewrite Hmt.
    unfold orElse. rewrite Htm.
    unfold bind at 1, lift at 1.
    exists (countImage st'). split; [|reflexivity].
    destruct mimeType; try reflexivity. elim (Hns s). reflexivity. }
  destruct Hx as (st'' & Hx & Hp).
  rewrite Hx. exists fs'. rewrite Hp, H1, H3, F1. split; reflexivity.
Qed.

(** X18.  The file of an inline part is [<requestId>_generated_<n>.<ext>]
    with [n] the count of inline parts so far and [ext] the text after the
    slash of its [mimeType], [png] when [mimeType] is missing or empty, and
    the word [undefined] when it has no slash. *)
Theorem geminiExtractParts_extension :
  forall (parts : list value) (i : nat) (part inlineData mimeType : value)
         (data ext : string) (st : extraction) (fs : fileSystem),
    nth_error parts i = Some part ->
    getProp part "inlineData" = Ok inlineData ->
    getProp inlineData "data" = Ok (JStr data) -> data <> "" ->
    getProp inlineData "mimeType" = Ok mimeType ->
    inlineExtension mimeType ext ->
    exists fs',
      geminiExtractParts node requestId outputDir (JArr parts) [i] (st, fs)
      = (Ok tt,
         (pushImage (generatedName node requestId outputDir (S (imageCount st)) ext)
            (countImage st), fs')) /\
      files fs'
      = (generatedName node requestId outputDir (S (imageCount st)) ext,
         Bytes (base64Decode data)) :: files fs.
Proof.
  intros parts i part inlineData mimeType data ext st fs Hn Hi Hd Hne Hm Hext.
  cbn [geminiExtractParts]. unfold bind at 1, lift at 1.
  rewrite getProp_array_index.
  rewrite (nth_error_nth _ _ JUndef Hn).
  unfold bind at 1, lift at 1. rewrite Hi.
  assert (Htr : truthy inlineData = true).
  { destruct (@getProp_named_object inlineData "data" _ Hd) as [f ->];
      [discriminate|reflexivity|discriminate|reflexivity]. }
  assert (Htd : truthy (JStr data) = true).
  { cbn. apply negb_true_iff. now apply String.eqb_neq. }
  unfold bind at 1, lift at 1. rewrite Htr, Hd. cbn [andb]. rewrite Htd.
  unfold bind at 1, onLocal at 1, modify at 1. cbn [fst snd].
  unfold bind at 1, lift at 1. rewrite Hm.
  assert (Hpieces :
            exists pieces,
              methodSplitSlash (orElse mimeType (JStr "image/png")) = Ok pieces /\
              match nth_error (snd pieces) 0 with
              | Some e => e
              | None => "undefined"
              end = ext).
  { destruct Hext as [m Hm0|type Hnt Hl|type subtype Hl Hl'].
    - unfold orElse. rewrite Hm0. eexists. split; reflexivity.
    - unfold orElse.
      replace (truthy (JStr type)) with true
        by (symmetry; cbn; apply negb_true_iff; now apply String.eqb_neq).
      cbn [methodSplitSlash]. rewrite splitOn_none by assumption.
      eexists. split; reflexivity.
    - unfold orElse.
      replace (truthy (JStr (type ++ "/" ++ subtype))) with true
        by (symmetry; cbn; apply negb_true_iff, String.eqb_neq;
            destruct type; discriminate).
      cbn [methodSplitSlash].
      change (type ++ "/" ++ subtype)%string with (type ++ String "/" subtype)%string.
      rewrite splitOn_two by auto. eexists. split; reflexivity. }
  destruct Hpieces as (pieces & Hp & He).
  unfold bind at 1, lift at 1. rewrite Hp, He.
  unfold bind at 1, getState at 1. cbn [fst countImage imageCount].
  unfold bind at 1, onFiles at 1. cbn [snd fst].
  unfold saveFile at 1. cbn [bufferFromBase64].
  unfold bind at 1, onLocal at 1, modify at 1. cbn [fst snd].
  fold (generatedName node requestId outputDir (S (imageCount st)) ext).
  eexists. split; [reflexivity|].
  cbn [writeFileSync files]. now destruct (existsSync fs _).
Qed.

End GeminiResults.


Lemma processGeminiResponse_warning_keeps_images_witness :
  exists fs',
    processGeminiResponse samplePlatform "gemini_1" "./images" "./output"
      imageThenUnsplittable emptyFs
    = (Ok (JObj [("success", JBool true);
                 ("outputDir", JStr "./images");
                 ("images",
                  strings (map fst (generatedFiles samplePlatform "gemini_1"
                                      "./images" 0 [("png", "QQ==")])));
                 ("warning", JStr "处理响应的某些部分时出错")]),
       fs') /\
    files fs'
    = List.rev (generatedFiles samplePlatform "gemini_1" "./images" 0 [("png", "QQ==")])
      ++ (responseName samplePlatform "gemini_1" "./output",
          Text (JSON_stringify samplePlatform imageThenUnsplittable 2))
      :: files emptyFs.
Proof.
  apply (@processGeminiResponse_warning_keeps_images samplePlatform "gemini_1"
           "./images" "./output" imageThenUnsplittable imageThenUnsplittable
           (JObj [("content",
                   JObj [("parts",
                          JArr [inlinePng; inlineNumericType; inlineJpeg])])])
           JUndef
           (JObj [("parts", JArr [inlinePng; inlineNumericType; inlineJpeg])])
           inlineNumericType [] [inlinePng] [inlineJpeg] [("png", "QQ==")] emptyFs).
  - vm_compute. reflexivity.
  - reflexivity.
  - reflexivity.
  - reflexivity.
  - reflexivity.
  - reflexivity.
  - apply (@yield_inline inlinePng "image" "png" "QQ==" [] []); [|constructor].
    eexists. repeat split; try reflexivity. discriminate.
  - exists (JObj [("mimeType", JNum 7%Q); ("data", JStr "QQ==")]),
      (JStr "QQ=="), (JNum 7%Q).
    repeat split; try reflexivity. discriminate.
Defined.

Lemma geminiExtractParts_extension_witness :
  exists fs',
    geminiExtractParts samplePlatform "gemini_1" "./images"
      (JArr [textPart; inlineNoSlash]) [1%nat] (noExtraction, emptyFs)
    = (Ok tt,
       (pushImage (generatedName samplePlatform "gemini_1" "./images" 1 "undefined")
          (countImage noExtraction), fs')) /\
    files fs'
    = (generatedName samplePlatform "gemini_1" "./images" 1 "undefined",
       Bytes (base64Decode "QQ==")) :: files emptyFs.
Proof.
  apply (@geminiExtractParts_extension samplePlatform "gemini_1" "./images"
           [textPart; inlineNoSlash] 1%nat inlineNoSlash
           (JObj [("mimeType", JStr "png"); ("data", JStr "QQ==")])
           (JStr "png") "QQ==" "undefined" noExtraction emptyFs);
    try reflexivity.
  - discriminate.
  - apply inline_no_slash; [discriminate|reflexivity].
Defined.

(* ================================================================== *)
(** * Further properties of [generateImagesWithGemini] *)

Lemma keepsFiles_refl fs : keepsFiles fs fs.
Proof. now exists []. Qed.

Lemma keepsFiles_trans fs1 fs2 fs3 :
  keepsFiles fs1 fs2 -> keepsFiles fs2 fs3 -> keepsFiles fs1 fs3.
Proof.
  intros [a1 H1] [a2 H2]. exists (a2 ++ a1). now rewrite H2, H1, app_assoc.
Qed.

Lemma keepsFiles_files fs fs' : files fs' = files fs -> keepsFiles fs fs'.
Proof. intros H. now exists []. Qed.

Lemma keepsFiles_In fs fs' entry :
  keepsFiles fs fs' -> In entry (files fs) -> In entry (files fs').
Proof. intros [added ->] H. apply in_or_app. now right. Qed.

Lemma onlyTextAdded_keeps fs fs' : onlyTextAdded fs fs' -> keepsFiles fs fs'.
Proof. intros [added H]. eexists. exact H. Qed.

Section GeminiRuns.
Variable node : Platform.

Lemma saveFile_keeps filePath data isBase64 fs :
  keepsFiles fs (snd (saveFile node filePath data isBase64 fs)).
Proof.
  unfold saveFile.
  destruct (if isBase64 then bufferFromBase64 data else fileData data)
    as [written|e|];
    cbn [snd]; [exists [(filePath, written)]|apply keepsFiles_files..];
    cbn [writeFileSync files List.app]; destruct (existsSync fs _); reflexivity.
Qed.

Lemma maskAndSaveJson_keeps obj filePath fs :
  keepsFiles fs (snd (maskAndSaveJson node obj filePath fs)).
Proof.
  unfold maskAndSaveJson, bind, lift.
  destruct (maskBase64Content obj); try apply keepsFiles_refl.
  apply saveFile_keeps.
Qed.

Lemma fetchWithProxy_keeps world url opts requestId outputDir fs :
  keepsFiles fs (snd (fetchWithProxy node world url opts requestId outputDir fs)).
Proof.
  destruct (firstFetch world) as [response|e|] eqn:E.
  - destruct (@fetchWithProxy_ok node world url opts requestId outputDir
                response fs E) as (fs' & -> & T).
    now apply onlyTextAdded_keeps.
  - unfold fetchWithProxy. rewrite E.
    destruct (envSet _ && _); [destruct (retryFetch world)|];
      apply keepsFiles_refl.
  - unfold fetchWithProxy. rewrite E. apply keepsFiles_refl.
Qed.

Lemma geminiExtractParts_keeps requestId outputDir parts indices :
  forall st fs,
    keepsFiles fs
      (snd (snd (geminiExtractParts node requestId outputDir parts indices (st, fs)))).
Proof.
  induction indices as [|i rest IH]; intros st fs; [apply keepsFiles_refl|].
  cbn [geminiExtractParts].
  unfold bind at 1, lift at 1.
  destruct (getProp parts (natToString i)) as [part| |]; try apply keepsFiles_refl.
  unfold bind at 1, lift at 1.
  destruct (getProp part "inlineData") as [inlineData| |]; try apply keepsFiles_refl.
  unfold bind at 1, lift at 1.
  destruct (if truthy inlineData then getProp inlineData "data" else Ok inlineData)
    as [imageData| |]; try apply keepsFiles_refl.
  destruct (truthy inlineData && truthy imageData); [|apply IH].
  unfold bind at 1, onLocal at 1, modify at 1. cbn [fst snd].
  unfold bind at 1, lift at 1.
  destruct (getProp inlineData "mimeType") as [mimeType| |]; try apply keepsFiles_refl.
  unfold bind at 1, lift at 1.
  destruct (methodSplitSlash _) as [pieces| |]; try apply keepsFiles_refl.
  unfold bind at 1, getState at 1. cbn [fst].
  unfold bind at 1, onFiles at 1. cbn [fst snd].
  match goal with
  | |- context [saveFile node ?f ?d true fs] =>
      pose proof (saveFile_keeps f d true fs) as Hk;
        destruct (saveFile node f d true fs) as [[name|e|] fs1]
  end; cbn [snd] in Hk |- *; try exact Hk.
  unfold bind at 1, onLocal at 1, modify at 1. cbn [fst snd].
  eapply keepsFiles_trans; [exact Hk|apply IH].
Qed.

Lemma geminiExtract_keeps requestId outputDir result st fs :
  keepsFiles fs
    (snd (snd (geminiExtract node requestId outputDir result (st, fs)))).
Proof.
  unfold geminiExtract.
  unfold bind at 1, lift at 1.
  destruct (getProp result "candidates") as [candidates| |]; try apply keepsFiles_refl.
  unfold bind at 1, lift at 1.
  destruct (if truthy candidates then _ else _) as [[]| |]; try apply keepsFiles_refl.
  unfold bind at 1, lift at 1.
  destruct (getProp candidates "0") as [candidate| |]; try apply keepsFiles_refl.
  unfold bind at 1, lift at 1.
  destruct (getProp candidate "content") as [content| |]; try apply keepsFiles_refl.
  unfold bind at 1, lift at 1.
  destruct (if truthy content then _ else _) as [parts| |]; try apply keepsFiles_refl.
  destruct (truthy content && truthy parts); [|apply keepsFiles_refl].
  unfold bind at 1, lift at 1.
  destruct (getProp parts "length") as [len| |]; try apply keepsFiles_refl.
  unfold bind at 1, lift at 1.
  destruct (loopBound len) as [bound| |]; try apply keepsFiles_refl.
  apply geminiExtractParts_keeps.
Qed.

Lemma processGeminiResponse_keeps requestId outputDir jsonDir result fs :
  keepsFiles fs
    (snd (processGeminiResponse node requestId outputDir jsonDir result fs)).
Proof.
  unfold processGeminiResponse. unfold bind at 1.
  pose proof (maskAndSaveJson_keeps result
                (path_join node jsonDir (requestId ++ "_response.json")) fs) as Hk.
  destruct (maskAndSaveJson node result _ fs) as [[name|e|] fs1];
    cbn [snd] in Hk |- *; try exact Hk.
  unfold bind at 1, lift at 1.
  destruct (geminiSafetyBlocked result) as [[]| |]; try exact Hk.
  pose proof (geminiExtract_keeps requestId outputDir result noExtraction fs1) as Hx.
  destruct (geminiExtract node requestId outputDir result (noExtraction, fs1))
    as [[u|e|] [st fs2]]; cbn [snd] in Hx |- *;
    eapply keepsFiles_trans; eauto.
Qed.

Lemma geminiImageParts_returns images : forall parts fs,
  exists r,
    geminiImageParts node images parts fs = (Ok r, fs) /\
    match r with
    | inl early =>
        exists p, In p images /\ readFile (files fs) p = None /\
                  early = JObj [("success", JBool false);
                                ("error", JStr ("Failed to process image: " ++ p))]
    | inr parts' =>
        parts' = parts ++ map (referencePart node fs) images /\
        forall p, In p images -> readFile (files fs) p <> None
    end.
Proof.
  induction images as [|imagePath rest IH]; intros parts fs.
  - exists (inr parts). split; [reflexivity|]. cbn. rewrite app_nil_r. split; tauto.
  - cbn [geminiImageParts].
    unfold bind at 1, tryCatch at 1, bind at 1, imageToBase64 at 1.
    destruct (readFile (files fs) imagePath) as [[b|t]|] eqn:Hc; cbn [ret].
    + destruct (IH (parts ++ [referencePart node fs imagePath]) fs)
        as (r & Hr & Hcase).
      unfold referencePart in Hr at 1. rewrite Hc in Hr.
      exists r. split; [exact Hr|].
      destruct r as [early|parts'].
      * destruct Hcase as (p & Hp & Hn & ->). exists p. cbn [In]. auto.
      * destruct Hcase as [-> Hall]. split.
        -- cbn [map]. now rewrite <- app_assoc.
        -- intros p [<-|Hp]; [congruence|auto].
    + destruct (IH (parts ++ [referencePart node fs imagePath]) fs)
        as (r & Hr & Hcase).
      unfold referencePart in Hr at 1. rewrite Hc in Hr.
      exists r. split; [exact Hr|].
      destruct r as [early|parts'].
      * destruct Hcase as (p & Hp & Hn & ->). exists p. cbn [In]. auto.
      * destruct Hcase as [-> Hall]. split.
        -- cbn [map]. now rewrite <- app_assoc.
        -- intros p [<-|Hp]; [congruence|auto].
    + eexists (inl _). split; [reflexivity|].
      exists imagePath. cbn [In]. auto.
Qed.

Lemma referencePart_files fs fs' p :
  files fs' = files fs -> referencePart node fs' p = referencePart node fs p.
Proof. intros H. unfold referencePart. now rewrite H. Qed.

Lemma isJson_referencePart fs p : isJson (referencePart node fs p) = true.
Proof. reflexivity. Qed.

(** The masker finds no path in a request: it is saved as it is. *)
Lemma maskBase64Content_requestData parts :
  forallb isJson parts = true ->
  maskBase64Content (geminiRequestData parts) = Ok (geminiRequestData parts).
Proof.
  intros Hj. unfold maskBase64Content.
  cbn [geminiRequestData truthy typeofObject negb orb].
  rewrite jsonClone_isJson.
  - reflexivity.
  - cbn. now rewrite Hj.
Qed.

End GeminiRuns.

Section GeminiGenerator.
Variable node : Platform.
Variable world : World.
Variable options : geminiOptions.

(** X19.  When a reference image cannot be read, [generateImagesWithGemini]
    returns the failure naming the first such image, whatever the
    transport would have answered, and writes no file (it has made sure
    that the two directories exist). *)
Theorem generateImagesWithGemini_missing_reference :
  forall (fs : fileSystem) (pre post : list string) (p : string),
    saveConfigResult world = Ok tt ->
    referenceImages options = pre ++ p :: post ->
    (forall q, In q pre -> readFile (files fs) q <> None) ->
    readFile (files fs) p = None ->
    exists fs',
      generateImagesWithGemini node world options fs
      = (Ok (JObj [("success", JBool false);
                   ("error", JStr ("Failed to process image: " ++ p))]), fs') /\
      files fs' = files fs.
Proof.
  intros fs pre post p Hcfg Himg Hpre Hp.
  unfold generateImagesWithGemini. unfold tryCatch at 1.
  unfold bind at 1, lift at 1. rewrite Hcfg.
  unfold bind at 1.
  destruct (ensureDir_files (geminiOutputDir options) fs) as (fs1 & -> & F1).
  unfold bind at 1.
  destruct (ensureDir_files (geminiJsonDir options) fs1) as (fs2 & -> & F2).
  unfold bind at 1. rewrite Himg.
  assert (Hmiss : forall parts,
             geminiImageParts node (pre ++ p :: post) parts fs2
             = (Ok (inl (JObj [("success", JBool false);
                               ("error", JStr ("Failed to process image: " ++ p))])),
                fs2)).
  { assert (Hpre2 : forall q, In q pre -> readFile (files fs2) q <> None)
      by (intros q Hq; rewrite F2, F1; auto).
    assert (Hp2 : readFile (files fs2) p = None) by (now rewrite F2, F1).
    clear Himg Hpre Hp. induction pre as [|q pre IH]; intros parts.
    - cbn [List.app geminiImageParts].
      unfold bind at 1, tryCatch at 1, bind at 1, imageToBase64 at 1.
      rewrite Hp2. reflexivity.
    - cbn [List.app geminiImageParts].
      unfold bind at 1, tryCatch at 1, bind at 1, imageToBase64 at 1.
      destruct (readFile (files fs2) q) as [[b|t]|] eqn:Hq; cbn [ret].
      + apply IH. intros r Hr. apply Hpre2. now right.
      + apply IH. intros r Hr. apply Hpre2. now right.
      + elim (Hpre2 q (or_introl eq_refl)). exact Hq. }
  rewrite Hmiss. exists fs2. split; [reflexivity|]. now rewrite F2, F1.
Qed.

(** X20.  The request artifact of [generateImagesWithGemini] is not
    masked: when the reference images can be read, the file
    [<requestId>_request.json] is written with the request as it is sent,
    the base64 text of every reference image in full, and it stays among
    the files whatever happens afterwards. *)
Theorem generateImagesWithGemini_request_unmasked :
  forall (fs : fileSystem),
    saveConfigResult world = Ok tt ->
    (forall p, In p (referenceImages options) -> readFile (files fs) p <> None) ->
    In (geminiRequestName node world options,
        Text (JSON_stringify node
                (geminiRequestData (requestParts node options fs)) 2))
       (files (snd (generateImagesWithGemini node world options fs))).
Proof.
  intros fs Hcfg Hr.
  unfold generateImagesWithGemini. unfold tryCatch at 1.
  unfold bind at 1, lift at 1. rewrite Hcfg.
  unfold bind at 1.
  destruct (ensureDir_files (geminiOutputDir options) fs) as (fs1 & -> & F1).
  unfold bind at 1.
  destruct (ensureDir_files (geminiJsonDir options) fs1) as (fs2 & -> & F2).
  unfold bind at 1.
  assert (F : files fs2 = files fs) by (now rewrite F2, F1).
  destruct (geminiImageParts_returns node (referenceImages options)
              [JObj [("text", JStr (geminiPrompt options))]] fs2)
    as (r & -> & Hcase).
  destruct r as [early|parts].
  { destruct Hcase as (p & Hp & Hn & _). rewrite F in Hn.
    elim (Hr p Hp Hn). }
  destruct Hcase as [-> _].
  assert (Hparts : [JObj [("text", JStr (geminiPrompt options))]]
                   ++ map (referencePart node fs2) (referenceImages options)
                   = requestParts node options fs).
  { unfold requestParts. cbn [List.app]. f_equal. apply map_ext.
    intros p. now apply referencePart_files. }
  rewrite Hparts.
  assert (Hjson : forallb isJson (requestParts node options fs) = true).
  { unfold requestParts. cbn [forallb isJson snd andb].
    apply forallb_forall. intros x Hx.
    apply in_map_iff in Hx as (p & <- & _). reflexivity. }
  unfold bind at 1.
  destruct (@maskAndSaveJson_ok node _ _ (geminiRequestName node world options)
              fs2 (maskBase64Content_requestData _ Hjson))
    as (fs3 & E3 & F3); [discriminate|].
  fold (geminiRequestName node world options). rewrite E3.
  match goal with
  | |- In ?entry (files (snd (match ?inner fs3 with _ => _ end))) =>
      assert (Hk : keepsFiles fs3 (snd (inner fs3)));
        [|destruct (inner fs3) as [[v|e|] fs4]; cbn [snd ret] in Hk |- *;
          (eapply keepsFiles_In; [exact Hk|rewrite F3; now left])]
  end.
  unfold tryCatch at 1. unfold bind at 1.
  match goal with
  | |- context [fetchWithProxy node world ?u ?o ?r ?d fs3] =>
      pose proof (fetchWithProxy_keeps node world u o r d fs3) as Hf;
        destruct (fetchWithProxy node world u o r d fs3) as [[response|e|] fs4]
  end; cbn [snd ret] in Hf |- *; try exact Hf.
  eapply keepsFiles_trans; [exact Hf|].
  destruct (negb (resp_ok response)).
  - unfold bind at 1, lift at 1.
    destruct (resp_text response) as [errorText|e|]; cbn [snd ret];
      try apply keepsFiles_refl.
    unfold bind at 1, tryCatch at 1, bind at 1, lift at 1.
    destruct (resp_json_after_text response) as [errorJson|e|]; cbn [snd ret];
      try apply keepsFiles_refl.
    + match goal with
      | |- context [saveFile node ?f ?d false fs4] =>
          pose proof (saveFile_keeps node f d false fs4) as Hs;
            destruct (saveFile node f d false fs4) as [[name|e|] fs5]
      end; cbn [snd ret] in Hs |- *; try exact Hs.
      match goal with
      | |- context [saveFile node ?f ?d false fs5] =>
          pose proof (saveFile_keeps node f d false fs5) as Hs';
            destruct (saveFile node f d false fs5) as [[name|e'|] fs6]
      end; cbn [snd ret] in Hs' |- *; eapply keepsFiles_trans; eauto.
    + match goal with
      | |- context [saveFile node ?f ?d false fs4] =>
          pose proof (saveFile_keeps node f d false fs4) as Hs;
            destruct (saveFile node f d false fs4) as [[name|e'|] fs5]
      end; cbn [snd ret] in Hs |- *; exact Hs.
  - unfold bind at 1, lift at 1.
    destruct (resp_json response) as [result|e|]; cbn [snd ret];
      try apply keepsFiles_refl.
    unfold bind at 1.
    destruct (debugFlag world).
    + unfold bind at 1.
      match goal with
      | |- context [maskAndSaveJson node result ?f fs4] =>
          pose proof (maskAndSaveJson_keeps node result f fs4) as Hm;
            destruct (maskAndSaveJson node result f fs4) as [[name|e|] fs5]
      end; cbn [snd ret] in Hm |- *; try exact Hm.
      match goal with
      | |- context [processGeminiResponse node ?r ?o ?j result fs5] =>
          pose proof (processGeminiResponse_keeps node r o j result fs5) as Hp;
            destruct (processGeminiResponse node r o j result fs5) as [[v|e|] fs6]
      end; cbn [snd ret] in Hp |- *; eapply keepsFiles_trans; eauto.
    + cbn [ret].
      match goal with
      | |- context [processGeminiResponse node ?r ?o ?j result fs4] =>
          pose proof (processGeminiResponse_keeps node r o j result fs4) as Hp;
            destruct (processGeminiResponse node r o j result fs4) as [[v|e|] fs6]
      end; cbn [snd ret] in Hp |- *; exact Hp.
Qed.

(** X21.  A response with an HTTP error status whose text can be read
    makes [generateImagesWithGemini] return the failure with the status
    code and the names of the request and error artifacts; only text is
    written, and the error file holds the body as JSON when it can still
    be parsed and the raw text otherwise. *)
Theorem generateImagesWithGemini_http_error :
  forall (fs : fileSystem) (response : Response) (errorText : string),
    saveConfigResult world = Ok tt ->
    (forall p, In p (referenceImages options) -> readFile (files fs) p <> None) ->
    firstFetch world = Ok response ->
    resp_ok response = false ->
    resp_text response = Ok errorText ->
    resp_json_after_text response <> Unmodelled ->
    exists fs',
      generateImagesWithGemini node world options fs
      = (Ok (JObj [("success", JBool false);
                   ("error",
                    JStr ("API 错误：" ++ natToString (resp_status response)));
                   ("jsonFiles",
                    JObj [("request", JStr (geminiRequestName node world options));
                          ("error", JStr (geminiErrorName node world options))])]),
         fs') /\
      onlyTextAdded fs fs' /\
      readFile (files fs') (geminiErrorName node world options)
      = Some (Text match resp_json_after_text response with
                   | Ok JUndef => errorText
                   | Ok errorJson => JSON_stringify node errorJson 2
                   | _ => errorText
                   end).
Proof.
  intros fs response errorText Hcfg Hr Hfetch Hok Htext Hjson.
  unfold generateImagesWithGemini. unfold tryCatch at 1.
  unfold bind at 1, lift at 1. rewrite Hcfg.
  unfold bind at 1.
  destruct (ensureDir_files (geminiOutputDir options) fs) as (fs1 & -> & F1).
  unfold bind at 1.
  destruct (ensureDir_files (geminiJsonDir options) fs1) as (fs2 & -> & F2).
  unfold bind at 1.
  assert (F : files fs2 = files fs) by (now rewrite F2, F1).
  destruct (geminiImageParts_returns node (referenceImages options)
              [JObj [("text", JStr (geminiPrompt options))]] fs2)
    as (r & -> & Hcase).
  destruct r as [early|parts].
  { destruct Hcase as (p & Hp & Hn & _). rewrite F in Hn.
    elim (Hr p Hp Hn). }
  clear Hcase.
  unfold bind at 1.
  destruct (maskBase64Content_request parts) as (masked & Hm & Hne).
  destruct (@maskAndSaveJson_ok node _ masked (geminiRequestName node world options)
              fs2 Hm Hne) as (fs3 & E3 & F3).
  fold (geminiRequestName node world options). rewrite E3.
  unfold tryCatch at 1. unfold bind at 1.
  match goal with
  | |- context [fetchWithProxy node world ?u ?o ?r ?d fs3] =>
      destruct (@fetchWithProxy_ok node world u o r d response fs3 Hfetch)
        as (fs4 & -> & T4)
  end.
  rewrite Hok. cbn [negb].
  unfold bind at 1, lift at 1. rewrite Htext.
  fold (geminiErrorName node world options).
  assert (T : onlyTextAdded fs fs4).
  { eapply onlyTextAdded_trans; [|exact T4].
    eapply onlyTextAdded_trans; [apply onlyTextAdded_files, F|].
    eapply onlyTextAdded_write, F3. }
  unfold bind at 1, tryCatch at 1, bind at 1, lift at 1.
  destruct (resp_json_after_text response) as [errorJson|e|]; [| |congruence].
  - destruct (stringify node errorJson 2) as [| | | |text| |] eqn:Es;
      try (destruct errorJson; discriminate Es).
    + (* [JSON.stringify] gave [undefined]: the write throws, the text is saved *)
      destruct errorJson; try discriminate Es.
      unfold saveFile at 1. cbn [fileData].
      match goal with
      | |- context [saveFile node ?f (JStr errorText) false ?fs5] =>
          destruct (@saveFile_text node f errorText fs5) as (fs6 & -> & F6)
      end.
      exists fs6. split; [reflexivity|]. split.
      * eapply onlyTextAdded_trans; [exact T|].
        eapply onlyTextAdded_write. rewrite F6.
        destruct (existsSync fs4 _); reflexivity.
      * rewrite F6. cbn [readFile]. now rewrite String.eqb_refl.
    + destruct (@saveFile_text node (geminiErrorName node world options) text fs4)
        as (fs5 & -> & F5).
      exists fs5. split; [reflexivity|]. split.
      * eapply onlyTextAdded_trans; [exact T|]. eapply onlyTextAdded_write, F5.
      * rewrite F5. cbn [readFile]. rewrite String.eqb_refl.
        destruct errorJson; try discriminate Es; cbn in Es; congruence.
  - destruct (@saveFile_text node (geminiErrorName node world options) errorText fs4)
      as (fs5 & -> & F5).
    exists fs5. split; [reflexivity|]. split.
    + eapply onlyTextAdded_trans; [exact T|]. eapply onlyTextAdded_write, F5.
    + rewrite F5. cbn [readFile]. now rewrite String.eqb_refl.
Qed.

End GeminiGenerator.

Section GeminiReports.
Variable node : Platform.

Lemma binaryFiles_same fs fs' paths :
  files fs' = files fs -> binaryFiles fs paths -> binaryFiles fs' paths.
Proof. intros F Hb p Hp. rewrite F. auto. Qed.

Lemma saveFile_base64_outcome filePath data fs o fs1 :
  saveFile node filePath data true fs = (o, fs1) ->
  (exists bytes, o = Ok filePath /\ files fs1 = (filePath, Bytes bytes) :: files fs)
  \/ ((forall r, o <> Ok r) /\ files fs1 = files fs).
Proof.
  unfold saveFile.
  destruct data; cbn [bufferFromBase64]; intros H; inversion H; subst;
    try (right; split; [discriminate|destruct (existsSync fs _); reflexivity]).
  left. eexists. split; [reflexivity|].
  cbn [writeFileSync files]. destruct (existsSync fs _); reflexivity.
Qed.

Lemma geminiExtractParts_binary requestId outputDir parts indices :
  forall st fs o st' fs',
    geminiExtractParts node requestId outputDir parts indices (st, fs)
    = (o, (st', fs')) ->
    binaryFiles fs (imagePaths st) -> binaryFiles fs' (imagePaths st').
Proof.
  induction indices as [|i rest IH]; intros st fs o st' fs' H Hb.
  - inversion H; subst. exact Hb.
  - cbn [geminiExtractParts] in H.
    unfold bind in H at 1; unfold lift in H at 1.
    destruct (getProp parts (natToString i)) as [part|e|];
      [|inversion H; subst; exact Hb..].
    unfold bind in H at 1; unfold lift in H at 1.
    destruct (getProp part "inlineData") as [inlineData|e|];
      [|inversion H; subst; exact Hb..].
    unfold bind in H at 1; unfold lift in H at 1.
    destruct (if truthy inlineData then getProp inlineData "data" else Ok inlineData)
      as [imageData|e|]; [|inversion H; subst; exact Hb..].
    destruct (truthy inlineData && truthy imageData); [|eauto].
    unfold bind in H at 1; unfold onLocal in H at 1; unfold modify in H at 1.
    cbn [fst snd] in H.
    unfold bind in H at 1; unfold lift in H at 1.
    destruct (getProp inlineData "mimeType") as [mimeType|e|];
      [|inversion H; subst; exact Hb..].
    unfold bind in H at 1; unfold lift in H at 1.
    destruct (methodSplitSlash _) as [pieces|e|];
      [|inversion H; subst; exact Hb..].
    unfold bind in H at 1; unfold getState in H at 1. cbn [fst] in H.
    unfold bind in H at 1; unfold onFiles in H at 1. cbn [fst snd] in H.
    match type of H with
    | context [saveFile node ?f ?d true fs] =>
        destruct (saveFile node f d true fs) as [r fs1] eqn:Es;
          apply saveFile_base64_outcome in Es
            as [(bytes & -> & F)|[Hno F]]
    end.
    + unfold bind in H at 1; unfold onLocal in H at 1; unfold modify in H at 1.
      cbn [fst snd] in H.
      eapply IH; [exact H|].
      cbn [pushImage countImage imagePaths].
      eapply binaryFiles_push; eauto.
    + destruct r as [r|e|]; [elim (Hno r); reflexivity| |];
        inversion H; subst; cbn [countImage imagePaths];
        eapply binaryFiles_same; eauto.
Qed.

Lemma geminiExtract_binary requestId outputDir result fs o st' fs' :
  geminiExtract node requestId outputDir result (noExtraction, fs)
  = (o, (st', fs')) ->
  binaryFiles fs' (imagePaths st').
Proof.
  assert (Hb : binaryFiles fs (imagePaths noExtraction)) by (intros p []).
  revert Hb. generalize noExtraction as st. intros st Hb H.
  unfold geminiExtract in H.
  unfold bind in H at 1; unfold lift in H at 1.
  destruct (getProp result "candidates") as [candidates|e|];
    [|inversion H; subst; exact Hb..].
  unfold bind in H at 1; unfold lift in H at 1.
  destruct (if truthy candidates then _ else _) as [[]|e|];
    [| |inversion H; subst; exact Hb..].
  2:{ inversion H; subst; exact Hb. }
  unfold bind in H at 1; unfold lift in H at 1.
  destruct (getProp candidates "0") as [candidate|e|];
    [|inversion H; subst; exact Hb..].
  unfold bind in H at 1; unfold lift in H at 1.
  destruct (getProp candidate "content") as [content|e|];
    [|inversion H; subst; exact Hb..].
  unfold bind in H at 1; unfold lift in H at 1.
  destruct (if truthy content then _ else _) as [parts|e|];
    [|inversion H; subst; exact Hb..].
  destruct (truthy content && truthy parts);
    [|inversion H; subst; exact Hb].
  unfold bind in H at 1; unfold lift in H at 1.
  destruct (getProp parts "length") as [len|e|];
    [|inversion H; subst; exact Hb..].
  unfold bind in H at 1; unfold lift in H at 1.
  destruct (loopBound len) as [bound|e|];
    [|inversion H; subst; exact Hb..].
  eapply geminiExtractParts_binary; eauto.
Qed.

(** What [processGeminiResponse] returns: the safety block, or a success
    listing binary files. *)
Lemma processGeminiResponse_returns requestId outputDir jsonDir result fs v fs' :
  processGeminiResponse node requestId outputDir jsonDir result fs = (Ok v, fs') ->
  getProp v "success" = Ok (JBool false) \/
  exists paths,
    getProp v "success" = Ok (JBool true) /\
    getProp v "images" = Ok (strings paths) /\
    binaryFiles fs' paths.
Proof.
  unfold processGeminiResponse. intros H.
  run_step H as name fs1 Em. run_lift H as blocked Eb.
  destruct blocked.
  - inversion H; subst. left. reflexivity.
  - destruct (geminiExtract node requestId outputDir result (noExtraction, fs1))
      as [[u|e|] [st fs2]] eqn:Ex; inversion H; subst;
      right; exists (imagePaths st);
      (split; [reflexivity|]); (split; [reflexivity|]);
      eapply geminiExtract_binary; eauto.
Qed.

Variable world : World.
Variable options : geminiOptions.

(** What a run of [generateImagesWithGemini] that returns [v] went
    through. *)
Lemma generateImagesWithGemini_returns fs v fs' :
  generateImagesWithGemini node world options fs = (Ok v, fs') ->
  getProp v "success" = Ok (JBool false) \/
  exists result fs0,
    processGeminiResponse node (geminiRequestId node world options)
      (geminiOutputDir options) (geminiJsonDir options) result fs0
    = (Ok v, fs').
Proof.
  unfold generateImagesWithGemini. unfold tryCatch at 1. intros H.
  match type of H with
  | context [match ?body fs with _ => _ end] =>
      destruct (body fs) as [[v0|e|] fs0] eqn:B; try discriminate H
  end.
  2:{ inversion H; subst. left. reflexivity. }
  inversion H; subst. clear H.
  run_lift B as cfg Ec.
  run_step B as u1 fs1 E1. run_step B as u2 fs2 E2.
  run_step B as built fs3 E3.
  destruct built as [early|parts].
  { destruct (geminiImageParts_returns node (referenceImages options)
                [JObj [("text", JStr (geminiPrompt options))]] fs2)
      as (r & Hr & Hcase).
    rewrite Hr in E3. inversion E3; subst.
    destruct Hcase as (p & _ & _ & ->).
    inversion B; subst. left. reflexivity. }
  run_step B as name fs4 E4.
  unfold tryCatch in B at 1.
  match type of B with
  | context [match ?body fs4 with _ => _ end] =>
      destruct (body fs4) as [[v1|e|] fs5] eqn:B'; try discriminate B
  end.
  2:{ inversion B; subst. left. reflexivity. }
  inversion B; subst. clear B.
  run_step B' as response fs6 E5.
  destruct (negb (resp_ok response)).
  - run_lift B' as errorText Et. run_step B' as saved fs7 E6.
    inversion B'; subst. left. reflexivity.
  - run_lift B' as result Ej. run_step B' as u3 fs7 E6.
    right. eauto.
Qed.

(** X22.  [generateImagesWithGemini] never throws, and what it returns is
    an object with a boolean [success] (runs that depend on a coercion the
    embedding leaves out are not covered). *)
Theorem generateImagesWithGemini_reports_success :
  forall (fs : fileSystem),
    match fst (generateImagesWithGemini node world options fs) with
    | Ok v => reportsSuccess v
    | Throw _ => False
    | Unmodelled => True
    end.
Proof.
  intros fs.
  destruct (generateImagesWithGemini node world options fs) as [[v|e|] fs']
    eqn:H; cbn [fst]; auto.
  - destruct (generateImagesWithGemini_returns _ H) as [Hf|(result & fs0 & Hp)].
    + eexists; eauto.
    + destruct (processGeminiResponse_returns _ _ _ _ _ Hp)
        as [Hf|(paths & Hs & _)]; eexists; eauto.
  - unfold generateImagesWithGemini in H. unfold tryCatch in H at 1.
    match type of H with
    | context [match ?body fs with _ => _ end] =>
        destruct (body fs) as [[v0|e0|] fs0]; discriminate H
    end.
Qed.

(** X23.  When [generateImagesWithGemini] reports success, every path its
    [images] lists is a binary file; the list can be empty. *)
Theorem generateImagesWithGemini_success_lists_files :
  forall (fs fs' : fileSystem) (v : value),
    generateImagesWithGemini node world options fs = (Ok v, fs') ->
    getProp v "success" = Ok (JBool true) ->
    exists paths : list string,
      getProp v "images" = Ok (strings paths) /\ binaryFiles fs' paths.
Proof.
  intros fs fs' v H Hs.
  destruct (generateImagesWithGemini_returns _ H) as [Hf|(result & fs0 & Hp)];
    [congruence|].
  destruct (processGeminiResponse_returns _ _ _ _ _ Hp)
    as [Hf|(paths & _ & Hi & Hb)]; [congruence|eauto].
Qed.

End GeminiReports.

Lemma generateImagesWithGemini_missing_reference_witness :
  exists fs',
    generateImagesWithGemini samplePlatform worldOffline referenceOptions emptyFs
    = (Ok (JObj [("success", JBool false);
                 ("error", JStr ("Failed to process image: " ++ "in.png"))]), fs') /\
    files fs' = files emptyFs.
Proof.
  apply (@generateImagesWithGemini_missing_reference samplePlatform worldOffline
           referenceOptions emptyFs [] [] "in.png").
  - reflexivity.
  - reflexivity.
  - intros q [].
  - reflexivity.
Defined.

Lemma generateImagesWithGemini_request_unmasked_witness :
  In (geminiRequestName samplePlatform
        (worldReturning (JObj [("candidates", JArr [])])) referenceOptions,
      Text (JSON_stringify samplePlatform
              (geminiRequestData (requestParts samplePlatform referenceOptions referenceFs))
              2))
     (files (snd (generateImagesWithGemini samplePlatform
                    (worldReturning (JObj [("candidates", JArr [])]))
                    referenceOptions referenceFs))).
Proof.
  apply (@generateImagesWithGemini_request_unmasked samplePlatform
           (worldReturning (JObj [("candidates", JArr [])])) referenceOptions
           referenceFs).
  - reflexivity.
  - intros p [<-|[]]. discriminate.
Defined.

Lemma generateImagesWithGemini_http_error_witness :
  exists fs',
    generateImagesWithGemini samplePlatform worldRefusing sampleGeminiOptions emptyFs
    = (Ok (JObj [("success", JBool false);
                 ("error",
                  JStr ("API 错误：" ++ natToString (resp_status refusal)));
                 ("jsonFiles",
                  JObj [("request",
                         JStr (geminiRequestName samplePlatform worldRefusing
                                 sampleGeminiOptions));
                        ("error",
                         JStr (geminiErrorName samplePlatform worldRefusing
                                 sampleGeminiOptions))])]),
       fs') /\
    onlyTextAdded emptyFs fs' /\
    readFile (files fs')
      (geminiErrorName samplePlatform worldRefusing sampleGeminiOptions)
    = Some (Text match resp_json_after_text refusal with
                 | Ok JUndef => "Bad Request"
                 | Ok errorJson => JSON_stringify samplePlatform errorJson 2
                 | _ => "Bad Request"
                 end).
Proof.
  apply (@generateImagesWithGemini_http_error samplePlatform worldRefusing
           sampleGeminiOptions emptyFs refusal "Bad Request").
  - reflexivity.
  - intros p [].
  - reflexivity.
  - reflexivity.
  - reflexivity.
  - discriminate.
Defined.

Lemma generateImagesWithGemini_success_lists_files_witness :
  exists paths : list string,
    getProp
      (JObj [("success", JBool true); ("outputDir", JStr "./images");
             ("jsonDir", JStr "./output");
             ("images",
              JArr [JStr "./images/gemini_text_to_image_1700000000000_generated_1.png";
                    JStr "./images/gemini_text_to_image_1700000000000_generated_2.jpeg"]);
             ("jsonFiles",
              JObj [("response",
                     JStr "./output/gemini_text_to_image_1700000000000_response.json")])])
      "images" = Ok (strings paths) /\
    binaryFiles
      {| dirs := ["."; "./output"; "./images"];
         files :=
           [("./images/gemini_text_to_image_1700000000000_generated_2.jpeg",
             Bytes ["A"%char; "B"%char]);
            ("./images/gemini_text_to_image_1700000000000_generated_1.png",
             Bytes ["A"%char]);
            ("./output/gemini_text_to_image_1700000000000_response.json", Text "{}");
            ("./output/gemini_text_to_image_1700000000000_request.json", Text "{}")] |}
      paths.
Proof.
  refine (@generateImagesWithGemini_success_lists_files samplePlatform
            (worldReturning twoImagesAndText) sampleGeminiOptions emptyFs _ _ _ _).
  - reflexivity.
  - reflexivity.
Defined.

(* ================================================================== *)
(** * Preferences, proxy detection and the access token *)

Lemma getenv_setenv_same env k v : getenv (setenv env k v) k = Some v.
Proof. unfold setenv. cbn. now rewrite String.eqb_refl. Qed.

Lemma getenv_unsetenv_same env k : getenv (unsetenv env k) k = None.
Proof.
  induction env as [|[k' v] env IH]; cbn; auto.
  destruct (String.eqb k' k) eqn:E; auto. cbn. now rewrite E.
Qed.

Lemma getenv_unsetenv_other env k k' :
  k' <> k -> getenv (unsetenv env k) k' = getenv env k'.
Proof.
  intros Hne. induction env as [|[k0 v] env IH]; cbn; auto.
  destruct (String.eqb_spec k0 k) as [->|Hk].
  - destruct (String.eqb_spec k k'); [congruence|auto].
  - cbn. now rewrite IH.
Qed.

Lemma getenv_setenv_other env k v k' :
  k' <> k -> getenv (setenv env k v) k' = getenv env k'.
Proof.
  intros Hne. unfold setenv. cbn.
  destruct (String.eqb_spec k k'); [congruence|].
  now apply getenv_unsetenv_other.
Qed.

Lemma truthy_jsonClone v : truthy (jsonClone v) = truthy v.
Proof. destruct v; reflexivity. Qed.

Lemma configStore_get_set_same k v store :
  configStore_get (configStore_set k v store) k = jsonClone v.
Proof.
  unfold configStore_get, configStore_set. now rewrite lookup_assign_same.
Qed.

Lemma configStore_get_set_other k v store k' :
  k <> k' ->
  configStore_get (configStore_set k v store) k' = configStore_get store k'.
Proof.
  intros H. unfold configStore_get, configStore_set.
  now rewrite lookup_assign_other.
Qed.

Lemma getProp_getConfig store :
  getProp (getConfig store) "proxySettings"
  = Ok (configStore_get store "proxySettings").
Proof. reflexivity. Qed.

(** Saving the detected settings touches their key only. *)
Lemma saveConfig_proxySettings settings store :
  isUndefined settings = false ->
  saveConfig (JObj [("proxySettings", settings)]) store
  = (Ok tt, configStore_set "proxySettings" settings store).
Proof.
  intros H. unfold saveConfig, saveIfSet, bind, lift, modify, ret.
  cbn [getProp lookup String.eqb Ascii.eqb Bool.eqb]. cbn.
  now rewrite H.
Qed.

Lemma orElse_env env a b :
  match firstSet env [a; b] with
  | Some u => orElse (envValue env a) (envValue env b) = JStr u
  | None => truthy (orElse (envValue env a) (envValue env b)) = false
  end.
Proof.
  unfold orElse, envValue. cbn [firstSet]. unfold nonEmpty.
  destruct (getenv env a) as [s|]; cbn [truthy].
  - destruct (negb (String.eqb s "")) eqn:Es; [reflexivity|].
    destruct (getenv env b) as [t|]; cbn [truthy]; auto.
    destruct (negb (String.eqb t "")) eqn:Et; auto.
  - destruct (getenv env b) as [t|]; cbn [truthy]; auto.
    destruct (negb (String.eqb t "")) eqn:Et; auto.
Qed.

Lemma firstSet_app env a b :
  firstSet env (a ++ b)
  = match firstSet env a with Some u => Some u | None => firstSet env b end.
Proof.
  induction a as [|k a IH]; cbn [List.app firstSet]; auto.
  destruct (getenv env k) as [s|]; auto. destruct (nonEmpty s); auto.
Qed.

Lemma firstSet_nonEmpty env names : forall u,
  firstSet env names = Some u -> truthy (JStr u) = true.
Proof.
  induction names as [|k names IH]; intros u H; [discriminate|].
  cbn [firstSet] in H.
  destruct (getenv env k) as [s|]; [|auto].
  destruct (nonEmpty s) eqn:E; [|auto].
  injection H as <-. exact E.
Qed.

Lemma detectSystemProxy_stored argv env store :
  truthy (configStore_get store "proxySettings") = true ->
  arg_detectProxy argv = false ->
  detectSystemProxy argv (env, store)
  = (Ok (configStore_get store "proxySettings"), (env, store)).
Proof.
  intros Ht Hf. unfold detectSystemProxy.
  unfold bind at 1, getState at 1. cbn [fst snd].
  unfold bind at 1, lift at 1. rewrite getProp_getConfig, Ht, Hf.
  reflexivity.
Qed.

Lemma detectSystemProxy_fresh argv env store :
  truthy (configStore_get store "proxySettings") && negb (arg_detectProxy argv)
  = false ->
  exists httpProxy httpsProxy noProxy,
    detectSystemProxy argv (env, store)
    = (Ok (JObj [("httpProxy", httpProxy); ("httpsProxy", httpsProxy);
                 ("noProxy", noProxy)]),
       (env,
        configStore_set "proxySettings"
          (JObj [("httpProxy", httpProxy); ("httpsProxy", httpsProxy);
                 ("noProxy", noProxy)]) store)) /\
    match firstSet env ["HTTP_PROXY"; "http_proxy"] with
    | Some u => httpProxy = JStr u
    | None => truthy httpProxy = false
    end /\
    match firstSet env ["HTTPS_PROXY"; "https_proxy"; "HTTP_PROXY"; "http_proxy"] with
    | Some u => httpsProxy = JStr u
    | None => truthy httpsProxy = false
    end.
Proof.
  intros Hc. unfold detectSystemProxy.
  unfold bind at 1, getState at 1. cbn [fst snd].
  unfold bind at 1, lift at 1. rewrite getProp_getConfig, Hc.
  unfold bind at 1, withStore at 1. cbn [fst snd].
  rewrite saveConfig_proxySettings by reflexivity.
  do 3 eexists. split; [reflexivity|].
  pose proof (orElse_env env "HTTP_PROXY" "http_proxy") as H1.
  pose proof (orElse_env env "HTTPS_PROXY" "https_proxy") as H2.
  split; [exact H1|].
  change ["HTTPS_PROXY"; "https_proxy"; "HTTP_PROXY"; "http_proxy"]
    with (["HTTPS_PROXY"; "https_proxy"] ++ ["HTTP_PROXY"; "http_proxy"]).
  rewrite firstSet_app.
  destruct (firstSet env ["HTTPS_PROXY"; "https_proxy"]) as [u|] eqn:Es.
  - rewrite H2. now rewrite (firstSet_nonEmpty _ _ Es).
  - rewrite H2. cbn [negb andb].
    destruct (firstSet env ["HTTP_PROXY"; "http_proxy"]) as [u|] eqn:Ep.
    + rewrite H1. now rewrite (firstSet_nonEmpty _ _ Ep).
    + rewrite H1. exact H2.
Qed.

(** [detectSystemProxy] always returns, and leaves the environment as it
    is. *)
Lemma detectSystemProxy_returns argv env store :
  exists settings store',
    detectSystemProxy argv (env, store) = (Ok settings, (env, store')) /\
    truthy (configStore_get store' "proxySettings") = true /\
    (settings = configStore_get store' "proxySettings" \/
     jsonClone settings = configStore_get store' "proxySettings").
Proof.
  destruct (truthy (configStore_get store "proxySettings")
            && negb (arg_detectProxy argv)) eqn:Hc.
  - apply andb_prop in Hc as [Ht Hf]. apply negb_true_iff in Hf.
    exists (configStore_get store "proxySettings"), store.
    split; [now apply detectSystemProxy_stored|]. auto.
  - destruct (detectSystemProxy_fresh argv env store Hc)
      as (hp & hs & np & E & _).
    do 2 eexists. split; [exact E|].
    rewrite configStore_get_set_same. split; [reflexivity|]. now right.
Qed.

(** X25.  When nothing is stored, or [--detect-proxy] is given,
    [detectSystemProxy] reads the environment and stores what it returns:
    [httpProxy] is the first of [HTTP_PROXY] and [http_proxy] that is set
    and not empty, and [httpsProxy] the first of [HTTPS_PROXY],
    [https_proxy], [HTTP_PROXY] and [http_proxy]; each is falsy when none
    of its variables is set.  The environment is left as it is. *)
Theorem detectSystemProxy_precedence :
  forall (argv : Args) (env : environment) (store : preferences),
    truthy (configStore_get store "proxySettings") = false \/
    arg_detectProxy argv = true ->
    exists settings httpProxy httpsProxy,
      detectSystemProxy argv (env, store)
      = (Ok settings, (env, configStore_set "proxySettings" settings store)) /\
      getProp settings "httpProxy" = Ok httpProxy /\
      getProp settings "httpsProxy" = Ok httpsProxy /\
      match firstSet env ["HTTP_PROXY"; "http_proxy"] with
      | Some u => httpProxy = JStr u
      | None => truthy httpProxy = false
      end /\
      match firstSet env ["HTTPS_PROXY"; "https_proxy"; "HTTP_PROXY"; "http_proxy"] with
      | Some u => httpsProxy = JStr u
      | None => truthy httpsProxy = false
      end.
Proof.
  intros argv env store Hc.
  destruct (detectSystemProxy_fresh argv env store)
    as (hp & hs & np & E & H1 & H2).
  { destruct Hc as [-> | ->]; [reflexivity|]. cbn. apply andb_false_r. }
  exists (JObj [("httpProxy", hp); ("httpsProxy", hs); ("noProxy", np)]), hp, hs.
  split; [exact E|]. split; [reflexivity|]. split; [reflexivity|]. auto.
Qed.

Lemma detectSystemProxy_precedence_witness :
  exists settings httpProxy httpsProxy,
    detectSystemProxy sampleArgs (sampleEnv, defaultPreferences)
    = (Ok settings,
       (sampleEnv, configStore_set "proxySettings" settings defaultPreferences)) /\
    getProp settings "httpProxy" = Ok httpProxy /\
    getProp settings "httpsProxy" = Ok httpsProxy /\
    match firstSet sampleEnv ["HTTP_PROXY"; "http_proxy"] with
    | Some u => httpProxy = JStr u
    | None => truthy httpProxy = false
    end /\
    match firstSet sampleEnv ["HTTPS_PROXY"; "https_proxy"; "HTTP_PROXY"; "http_proxy"] with
    | Some u => httpsProxy = JStr u
    | None => truthy httpsProxy = false
    end.
Proof.
  apply (@detectSystemProxy_precedence sampleArgs sampleEnv defaultPreferences).
  left. reflexivity.
Defined.

(** X26.  Without [--detect-proxy], once [detectSystemProxy] has been
    called, every later call returns the stored settings whatever the
    environment has become, and leaves the store as it is. *)
Theorem detectSystemProxy_cached :
  forall (argv : Args) (env : environment) (store : preferences),
    arg_detectProxy argv = false ->
    exists settings store1 cached,
      detectSystemProxy argv (env, store) = (Ok settings, (env, store1)) /\
      (cached = settings \/ cached = jsonClone settings) /\
      forall env' : environment,
        detectSystemProxy argv (env', store1) = (Ok cached, (env', store1)).
Proof.
  intros argv env store Hf.
  destruct (detectSystemProxy_returns argv env store)
    as (settings & store1 & E & Ht & Hs).
  exists settings, store1, (configStore_get store1 "proxySettings").
  split; [exact E|]. split; [destruct Hs; auto|].
  intros env'. now apply detectSystemProxy_stored.
Qed.

Lemma detectSystemProxy_cached_witness :
  exists settings store1 cached,
    detectSystemProxy sampleArgs (sampleEnv, defaultPreferences)
    = (Ok settings, (sampleEnv, store1)) /\
    (cached = settings \/ cached = jsonClone settings) /\
    forall env' : environment,
      detectSystemProxy sampleArgs (env', store1) = (Ok cached, (env', store1)).
Proof.
  apply (@detectSystemProxy_cached sampleArgs sampleEnv defaultPreferences).
  reflexivity.
Defined.

(** X27.  Without [--no-proxy], when [createProxyAgent] returns, the agent
    and [SYSTEM_PROXY] agree: an agent was made for the URL that
    [SYSTEM_PROXY] now holds, or there is no agent and [SYSTEM_PROXY] is
    unset or empty. *)
Theorem createProxyAgent_agrees_with_SYSTEM_PROXY :
  forall (host : Host) (argv : Args) (env env' : environment)
         (store store' : preferences) (agent : option string),
    arg_noProxy argv = false ->
    createProxyAgent host argv (env, store) = (Ok agent, (env', store')) ->
    match agent with
    | Some url => getenv env' "SYSTEM_PROXY" = Some url /\ url <> ""
    | None => truthy (envValue env' "SYSTEM_PROXY") = false
    end.
Proof.
  intros host argv env env' store store' agent Hn H.
  unfold createProxyAgent in H. rewrite Hn in H.
  unfold bind in H at 1; unfold getState in H at 1. cbn [fst snd] in H.
  assert (Hd : truthy (envValue env "SYSTEM_PROXY") = false ->
               createDetectedAgent host argv (env, store)
               = (Ok agent, (env', store')) ->
               match agent with
               | Some url => getenv env' "SYSTEM_PROXY" = Some url /\ url <> ""
               | None => truthy (envValue env' "SYSTEM_PROXY") = false
               end).
  { clear H. intros Hs H. unfold createDetectedAgent in H.
    unfold bind in H at 1.
    destruct (detectSystemProxy_returns argv env store)
      as (settings & store1 & E & _). rewrite E in H.
    run_lift H as httpsProxy Eh.
    destruct (truthy httpsProxy) eqn:Ht.
    - unfold bind in H at 1; unfold getState in H at 1. cbn [fst snd] in H.
      rewrite Hs in H. cbn [negb] in H.
      destruct httpsProxy as [| | | |url| |]; try discriminate H.
      unfold bind in H at 1. unfold assignEnv, withEnv, modify in H.
      cbn [fst snd] in H.
      run_lift H as made Em.
      unfold newProxyAgent in Em.
      destruct (validUrl host url); [|discriminate Em].
      injection Em as <-. inversion H; subst.
      split; [apply getenv_setenv_same|].
      intros ->. discriminate Ht.
    - inversion H; subst. exact Hs. }
  destruct (getenv env "SYSTEM_PROXY") as [url|] eqn:Eu.
  - destruct (nonEmpty url) eqn:En.
    + run_lift H as made Em.
      unfold newProxyAgent in Em.
      destruct (validUrl host url); [|discriminate Em].
      injection Em as <-. inversion H; subst.
      split; [exact Eu|]. intros ->. discriminate En.
    + apply Hd; [|exact H]. unfold envValue. rewrite Eu. exact En.
  - apply Hd; [|exact H]. unfold envValue. now rewrite Eu.
Qed.

Lemma createProxyAgent_agrees_with_SYSTEM_PROXY_witness :
  getenv (setenv sampleEnv "SYSTEM_PROXY" "http://127.0.0.1:7890") "SYSTEM_PROXY"
  = Some "http://127.0.0.1:7890" /\
  "http://127.0.0.1:7890" <> "".
Proof.
  refine (@createProxyAgent_agrees_with_SYSTEM_PROXY sampleHost sampleArgs
            sampleEnv (setenv sampleEnv "SYSTEM_PROXY" "http://127.0.0.1:7890")
            defaultPreferences
            (configStore_set "proxySettings"
               (JObj [("httpProxy", JStr "http://127.0.0.1:7890");
                      ("httpsProxy", JStr "http://127.0.0.1:7890");
                      ("noProxy", JUndef)]) defaultPreferences)
            (Some "http://127.0.0.1:7890") _ _).
  - reflexivity.
  - reflexivity.
Defined.

Lemma saveIfSet_keeps config k0 store o store' k :
  saveIfSet config k0 store = (o, store') ->
  truthy (configStore_get store k) = true ->
  truthy (configStore_get store' k) = true.
Proof.
  unfold saveIfSet, bind, lift, modify, ret. intros H Ht.
  destruct (getProp config k0) as [v|e|]; try (inversion H; subst; exact Ht).
  destruct (truthy v) eqn:Ev; inversion H; subst; [|exact Ht].
  destruct (String.eqb_spec k0 k) as [->|Hne].
  - now rewrite configStore_get_set_same, truthy_jsonClone.
  - now rewrite configStore_get_set_other.
Qed.

(** X28.  [saveConfig] never empties a preference other than
    [proxySettings]: a key that held a truthy value holds one afterwards,
    whatever the fields of [config] are. *)
Theorem saveConfig_never_clears :
  forall (config : value) (store store' : preferences) (k : string),
    saveConfig config store = (Ok tt, store') ->
    k <> "proxySettings" ->
    truthy (configStore_get store k) = true ->
    truthy (configStore_get store' k) = true.
Proof.
  intros config store store' k H Hk Ht. unfold saveConfig in H.
  run_lift H as proxySettings Ep.
  run_step H as u0 store0 E0.
  assert (H0 : truthy (configStore_get store0 k) = true).
  { destruct (negb (isUndefined proxySettings)); inversion E0; subst; auto.
    rewrite configStore_get_set_other; auto. }
  run_step H as u1 store1 E1. run_step H as u2 store2 E2.
  run_step H as u3 store3 E3.
  eapply saveIfSet_keeps; [exact H|].
  eapply saveIfSet_keeps; [exact E3|].
  eapply saveIfSet_keeps; [exact E2|].
  eapply saveIfSet_keeps; [exact E1|]. exact H0.
Qed.

Lemma saveConfig_never_clears_witness :
  truthy (configStore_get
            [("proxySettings", JNull); ("lastOutputDir", JStr "./images");
             ("lastJsonDir", JStr "./out"); ("defaultApi", JStr "imagen");
             ("geminiApiKey", JNull)]
            "lastOutputDir") = true.
Proof.
  refine (@saveConfig_never_clears
            (JObj [("lastOutputDir", JStr ""); ("lastJsonDir", JStr "./out")])
            defaultPreferences _ "lastOutputDir" _ _ _).
  - reflexivity.
  - discriminate.
  - reflexivity.
Defined.

Section AccessToken.
Variable host : Host.
Variable keyFilePath : string.
Variable argv : Args.

Lemma assignEnv_outcome k v env store o env' store' :
  assignEnv k v (env, store) = (o, (env', store')) ->
  store' = store /\
  ((exists s, v = JStr s /\ o = Ok tt /\ env' = setenv env k s) \/
   (o = Unmodelled /\ env' = env)).
Proof.
  unfold assignEnv, withEnv, modify, lift. cbn [fst snd].
  destruct v; intros H; inversion H; subst; split; auto.
  left. eauto.
Qed.

Lemma restoreEnv_outcome k env0 env store env' store' :
  restoreEnv k (envValue env0 k) (env, store) = (Ok tt, (env', store')) ->
  store' = store /\
  getenv env' k = restored env0 k /\
  forall k', k' <> k -> getenv env' k' = getenv env k'.
Proof.
  unfold restoreEnv, restored, envValue.
  destruct (getenv env0 k) as [s|]; cbn [truthy].
  - unfold nonEmpty. destruct (negb (String.eqb s "")).
    + unfold assignEnv, withEnv, modify. cbn [fst snd]. intros H.
      inversion H; subst. split; [reflexivity|].
      split; [apply getenv_setenv_same|].
      intros k' Hk. now apply getenv_setenv_other.
    + unfold withEnv, modify. cbn [fst snd]. intros H.
      inversion H; subst. split; [reflexivity|].
      split; [apply getenv_unsetenv_same|].
      intros k' Hk. now apply getenv_unsetenv_other.
  - unfold withEnv, modify. cbn [fst snd]. intros H.
    inversion H; subst. split; [reflexivity|].
    split; [apply getenv_unsetenv_same|].
    intros k' Hk. now apply getenv_unsetenv_other.
Qed.

(** X29.  When [getAccessToken] returns, [HTTPS_PROXY] and [HTTP_PROXY]
    are as they were before the call, except that a variable that was set
    to the empty text is now unset; every other variable is untouched. *)
Theorem getAccessToken_restores_environment :
  forall (env env' : environment) (store store' : preferences) (token : value),
    getAccessToken host keyFilePath argv (env, store) = (Ok token, (env', store')) ->
    getenv env' "HTTPS_PROXY" = restored env "HTTPS_PROXY" /\
    getenv env' "HTTP_PROXY" = restored env "HTTP_PROXY" /\
    forall k, k <> "HTTPS_PROXY" -> k <> "HTTP_PROXY" ->
              getenv env' k = getenv env k.
Proof.
  intros env env' store store' token H.
  unfold getAccessToken in H. unfold bind in H at 1.
  destruct (detectSystemProxy_returns argv env store)
    as (settings & store1 & E & _). rewrite E in H.
  unfold bind in H at 1; unfold getState in H at 1. cbn [fst snd] in H.
  run_lift H as httpsProxy Eh.
  unfold bind in H at 1.
  match type of H with
  | context [match ?m (env, store1) with _ => _ end] =>
      destruct (m (env, store1)) as [[u|e|] [env2 store2]] eqn:Ea;
        try discriminate H
  end.
  assert (Hout : forall k, k <> "HTTPS_PROXY" -> k <> "HTTP_PROXY" ->
                           getenv env2 k = getenv env k).
  { destruct (truthy httpsProxy).
    - unfold bind in Ea at 1.
      destruct (assignEnv "HTTPS_PROXY" httpsProxy (env, store1))
        as [[u1|e1|] [env3 store3]] eqn:E1; try discriminate Ea.
      apply assignEnv_outcome in E1 as [-> [(s & -> & _ & ->)|[? _]]];
        [|discriminate].
      run_lift Ea as httpProxy Ep.
      apply assignEnv_outcome in Ea as [_ [(t & _ & _ & ->)|[? _]]];
        [|discriminate].
      intros k K1 K2. now rewrite !getenv_setenv_other.
    - destruct (truthy (envValue env "SYSTEM_PROXY")).
      + unfold bind in Ea at 1.
        destruct (assignEnv "HTTPS_PROXY" (envValue env "SYSTEM_PROXY") (env, store1))
          as [[u1|e1|] [env3 store3]] eqn:E1; try discriminate Ea.
        apply assignEnv_outcome in E1 as [-> [(s & _ & _ & ->)|[? _]]];
          [|discriminate].
        apply assignEnv_outcome in Ea as [_ [(t & _ & _ & ->)|[? _]]];
          [|discriminate].
        intros k K1 K2. now rewrite !getenv_setenv_other.
      + inversion Ea; subst. auto. }
  unfold bind in H at 1; unfold getState in H at 1. cbn [fst snd] in H.
  run_lift H as tokenObject Et.
  unfold bind in H at 1.
  destruct (restoreEnv "HTTPS_PROXY" (envValue env "HTTPS_PROXY") (env2, store2))
    as [[u3|e3|] [env3 store3]] eqn:E3; try discriminate H.
  destruct u3. apply restoreEnv_outcome in E3 as (-> & R3 & O3).
  unfold bind in H at 1.
  destruct (restoreEnv "HTTP_PROXY" (envValue env "HTTP_PROXY") (env3, store2))
    as [[u4|e4|] [env4 store4]] eqn:E4; try discriminate H.
  destruct u4. apply restoreEnv_outcome in E4 as (-> & R4 & O4).
  unfold lift in H. inversion H; subst.
  split; [|split].
  - rewrite O4 by discriminate. exact R3.
  - exact R4.
  - intros k K1 K2. rewrite O4, O3 by assumption. now apply Hout.
Qed.

(** X30.  When obtaining the token fails, [getAccessToken] throws the
    error with the proxy variables still overwritten: [HTTPS_PROXY] holds
    the detected proxy, not what it held before the call. *)
Theorem getAccessToken_failure_leaves_proxy :
  forall (env : environment) (store store1 : preferences)
         (settings httpProxy : value) (proxy : string) (error : exn),
    detectSystemProxy argv (env, store) = (Ok settings, (env, store1)) ->
    getProp settings "httpsProxy" = Ok (JStr proxy) -> proxy <> "" ->
    getProp settings "httpProxy" = Ok httpProxy ->
    (truthy httpProxy = false \/ exists s, httpProxy = JStr s) ->
    (forall env0, authenticate host keyFilePath env0 = Throw error) ->
    exists env',
      getAccessToken host keyFilePath argv (env, store)
      = (Throw error, (env', store1)) /\
      getenv env' "HTTPS_PROXY" = Some proxy /\
      exists other, getenv env' "HTTP_PROXY" = Some other /\ other <> "".
Proof.
  intros env store store1 settings httpProxy proxy error E Hs Hne Hp Hh Hauth.
  unfold getAccessToken. unfold bind at 1. rewrite E.
  unfold bind at 1, getState at 1. cbn [fst snd].
  unfold bind at 1, lift at 1. rewrite Hs.
  assert (Ht : truthy (JStr proxy) = true).
  { cbn. apply negb_true_iff. now apply String.eqb_neq. }
  rewrite Ht.
  unfold bind at 1. unfold bind at 1.
  unfold assignEnv at 1, withEnv at 1, modify at 1. cbn [fst snd].
  unfold bind at 1, lift at 1. rewrite Hp.
  assert (Ho : exists other,
             orElse httpProxy (JStr proxy) = JStr other /\ other <> "").
  { unfold orElse. destruct Hh as [Hf|[s ->]].
    - rewrite Hf. eauto.
    - destruct (truthy (JStr s)) eqn:Et; [|eauto].
      exists s. split; [reflexivity|]. intros ->. discriminate Et. }
  destruct Ho as (other & -> & Hother).
  unfold assignEnv at 1, withEnv at 1, modify at 1. cbn [fst snd].
  unfold bind at 1, getState at 1. cbn [fst snd].
  unfold bind at 1, lift at 1. rewrite Hauth.
  eexists. split; [reflexivity|]. split.
  - rewrite getenv_setenv_other by discriminate. apply getenv_setenv_same.
  - exists other. split; [apply getenv_setenv_same|exact Hother].
Qed.

End AccessToken.

Lemma getAccessToken_restores_environment_witness :
  getenv [("HTTP_PROXY", "http://127.0.0.1:7890")] "HTTPS_PROXY"
  = restored sampleEnv "HTTPS_PROXY" /\
  getenv [("HTTP_PROXY", "http://127.0.0.1:7890")] "HTTP_PROXY"
  = restored sampleEnv "HTTP_PROXY" /\
  forall k, k <> "HTTPS_PROXY" -> k <> "HTTP_PROXY" ->
            getenv [("HTTP_PROXY", "http://127.0.0.1:7890")] k = getenv sampleEnv k.
Proof.
  refine (@getAccessToken_restores_environment sampleHost "key.json" sampleArgs
            sampleEnv [("HTTP_PROXY", "http://127.0.0.1:7890")]
            defaultPreferences
            (configStore_set "proxySettings"
               (JObj [("httpProxy", JStr "http://127.0.0.1:7890");
                      ("httpsProxy", JStr "http://127.0.0.1:7890");
                      ("noProxy", JUndef)]) defaultPreferences)
            (JStr "ya29.token") _).
  reflexivity.
Defined.

Lemma getAccessToken_failure_leaves_proxy_witness :
  exists env',
    getAccessToken failingHost "key.json" sampleArgs (sampleEnv, defaultPreferences)
    = (Throw (SystemError (Some "ENOENT") "no such file or directory, open 'key.json'"),
       (env',
        configStore_set "proxySettings"
          (JObj [("httpProxy", JStr "http://127.0.0.1:7890");
                 ("httpsProxy", JStr "http://127.0.0.1:7890");
                 ("noProxy", JUndef)]) defaultPreferences)) /\
    getenv env' "HTTPS_PROXY" = Some "http://127.0.0.1:7890" /\
    exists other, getenv env' "HTTP_PROXY" = Some other /\ other <> "".
Proof.
  refine (@getAccessToken_failure_leaves_proxy failingHost "key.json" sampleArgs
            sampleEnv defaultPreferences _
            (JObj [("httpProxy", JStr "http://127.0.0.1:7890");
                   ("httpsProxy", JStr "http://127.0.0.1:7890");
                   ("noProxy", JUndef)])
            (JStr "http://127.0.0.1:7890") "http://127.0.0.1:7890"
            _ _ _ _ _ _ _).
  - reflexivity.
  - reflexivity.
  - discriminate.
  - reflexivity.
  - right. eexists. reflexivity.
  - intros env0. reflexivity.
Defined.
